(** * Cold-room monitor: acquisition, analysis and alerting engine

    A shallow embedding of the Python sources of the cold-room monitor
    (delta.py, main5.py, main6.py) and the properties its specification
    states about them.

    Numbers.  The Python code computes on [float] (and a few [int]
    literals).  The module [Binary64] gives the arithmetic of the
    analysis as Python runs it, on IEEE 754 doubles with every operation
    rounded to nearest; the formulas of the score and of the temperature
    bound are stated and proved there, for every double, infinities and
    NaN included.  Where a property depends on the order of the values
    only, or on no arithmetic at all (which rows are stored, which reason
    is returned, what a failure does to a cycle), temperatures,
    humidities and scores are the rationals [Q] of module [Analyzer],
    with exact [+], [-], [*], [/] and the boolean comparisons of [Q].

    Effects.  Hardware, the 1-Wire file system, the weather service, the
    SMTP server and the database are modelled by explicit outcome values
    supplied by the environment; state (the device handle, the database
    session, the console log, the time slept) is passed explicitly. *)

From Stdlib Require Import QArith Qabs Lqa ZArith Lia Bool List String Ascii.
From Stdlib Require Import DecimalString.
From Stdlib Require Import Sorted Permutation.
From Stdlib Require PrimFloat.
From Stdlib Require Floats.
Import ListNotations.

Open Scope string_scope.

(* ===================================================================== *)
(** * Python numbers and text                                             *)
(* ===================================================================== *)

Module Py.

(** [x > y], [x < y], [x <= y] on numbers. *)
Definition gt (x y : Q) : bool := negb (Qle_bool x y).
Definition lt (x y : Q) : bool := negb (Qle_bool y x).
Definition le (x y : Q) : bool := Qle_bool x y.

(** Truth value of an optional number: [None] and zero are false. *)
Definition truthy (v : option Q) : bool :=
  match v with
  | None => false
  | Some x => negb (Qeq_bool x 0)
  end.

(** [v and v > bound], as it is used in a condition. *)
Definition present_and_gt (v : option Q) (bound : Q) : bool :=
  match v with
  | None => false
  | Some x => if truthy v then gt x bound else false
  end.

(** Nearest integer, ties to the even neighbour. *)
Definition round_half_even (x : Q) : Z :=
  let n := Qnum x in
  let d := Z.pos (Qden x) in
  let q := (n / d)%Z in
  let r := (n mod d)%Z in
  match (2 * r ?= d)%Z with
  | Lt => q
  | Gt => (q + 1)%Z
  | Eq => if Z.even q then q else (q + 1)%Z
  end.

(** [round(x, 1)], taken on the exact value: a decimal tie such as 23.15
    goes to the even neighbour, where Python rounds the double nearest to
    it, which is no tie. The two agree on every other value. *)
Definition round1 (x : Q) : Q :=
  (inject_Z (round_half_even (x * 10)) / 10)%Q.

(** Decimal numeral of a natural number given as a [Z]. *)
Definition decimal (z : Z) : string :=
  NilZero.string_of_uint (N.to_uint (Z.to_N z)).

(** [format(x, ".1f")]: sign, integer part, point, one digit.  A negative
    number that rounds to zero keeps its sign, as in Python. *)
Definition fixed1 (x : Q) : string :=
  let n := round_half_even (Qabs x * 10) in
  (if lt x 0 then "-" else "")
    ++ decimal (n / 10) ++ "." ++ decimal (n mod 10).

(** ASCII decimal digit. *)
Definition is_digit (c : ascii) : bool :=
  let n := nat_of_ascii c in (48 <=? n)%nat && (n <=? 57)%nat.

Fixpoint all_digits (s : string) : bool :=
  match s with
  | EmptyString => true
  | String c s' => is_digit c && all_digits s'
  end.




End Py.

(* ===================================================================== *)
(** * EnvironmentAnalyzer: predict_spoilage and detect_anomaly            *)
(* ===================================================================== *)

(** The three deployed variants carry the same analysis code; the text of
    the reasons differs only in the bytes of the degree sign. *)
Inductive source_file := Delta | Main5 | Main6.

Module Analyzer.

(** UTF-8 bytes of the degree sign as they stand in each file: C2 B0 in
    delta.py and main5.py, the re-encoded C2 AC E2 88 9E in main6.py. *)
Definition degree (f : source_file) : string :=
  match f with
  | Delta | Main5 =>
      String (ascii_of_nat 194) (String (ascii_of_nat 176) EmptyString)
  | Main6 =>
      String (ascii_of_nat 194) (String (ascii_of_nat 172)
        (String (ascii_of_nat 226) (String (ascii_of_nat 136)
          (String (ascii_of_nat 158) EmptyString))))
  end.

Local Open Scope Q_scope.

(** The accumulator of [predict_spoilage], statement by statement. The
    DEBUG line printed when the external term applies is left out. *)
Definition risk_score (temperature humidity : Q) (external_temp : option Q)
  : Q :=
  let risk_score := 0 in
  let risk_score :=
    if Py.gt temperature 4 then risk_score + (temperature - 4) * 10
    else risk_score in
  let risk_score :=
    if Py.lt temperature 0 then risk_score + Qabs temperature * 15
    else risk_score in
  let risk_score :=
    if Py.gt humidity 95 then risk_score + (humidity - 95) * 5
    else risk_score in
  let risk_score :=
    if Py.lt humidity 85 then risk_score + (85 - humidity) * 5
    else risk_score in
  let risk_score :=
    if Py.present_and_gt external_temp 25 then
      match external_temp with
      | Some e => let strain_factor := (e - 25) * 1.5 in
                  risk_score + strain_factor
      | None => risk_score
      end
    else risk_score in
  risk_score.

Definition predict_spoilage (temperature humidity : Q)
           (external_temp : option Q) : string :=
  let risk_score := risk_score temperature humidity external_temp in
  if Py.gt risk_score 70 then "High"%string
  else if Py.gt risk_score 30 then "Medium"%string
  else "Low"%string.

Definition NORMAL_TEMP_MIN : Q := 0.
Definition NORMAL_TEMP_MAX_BASE : Q := 4.
Definition NORMAL_HUMIDITY_MIN : Q := 90.
Definition NORMAL_HUMIDITY_MAX : Q := 95.

Definition temp_strain_allowance (external_temp : option Q) : Q :=
  if Py.present_and_gt external_temp 20 then
    match external_temp with
    | Some e => ((e - 20) / 5) * 0.1
    | None => 0
    end
  else 0.

Definition NORMAL_TEMP_MAX (external_temp : option Q) : Q :=
  NORMAL_TEMP_MAX_BASE + temp_strain_allowance external_temp.

Section Reasons.
(** Text of a float inside an f-string, [{temperature}]: Python's own
    conversion, taken as given. *)
Variable float_repr : Q -> string.
Variable file : source_file.

Local Open Scope string_scope.

Definition temperature_reason (temperature tmax : Q) : string :=
  "Temperature " ++ float_repr temperature ++ degree file
    ++ "C is out of the acceptable range ("
    ++ Py.fixed1 NORMAL_TEMP_MIN ++ degree file ++ "C - "
    ++ Py.fixed1 tmax ++ degree file ++ "C).".

(** The humidity bounds are the integer literals 90 and 95, written
    without a format specification. *)
Definition humidity_reason (humidity : Q) : string :=
  "Humidity " ++ float_repr humidity
    ++ "% is out of the acceptable range ("
    ++ "90" ++ "% - " ++ "95" ++ "%).".

Definition normal_reason (tmax : Q) : string :=
  "Conditions are Normal (Max Temp adjusted to "
    ++ Py.fixed1 tmax ++ degree file ++ "C due to weather)".

Definition detect_anomaly (temperature humidity : Q)
           (external_temp : option Q) : bool * string :=
  let tmax := NORMAL_TEMP_MAX external_temp in
  if negb (Py.le NORMAL_TEMP_MIN temperature && Py.le temperature tmax)
  then (true, temperature_reason temperature tmax)
  else if negb (Py.le NORMAL_HUMIDITY_MIN humidity
                && Py.le humidity NORMAL_HUMIDITY_MAX)
  then (true, humidity_reason humidity)
  else (false, normal_reason tmax).
End Reasons.

(** ** The analysis as the specification words it *)

(** One additive term per row of the score table. *)
Definition spec_score (temperature humidity : Q) (external_temp : option Q)
  : Q :=
  (if Py.gt temperature 4 then (temperature - 4) * 10 else 0)
  + (if Py.lt temperature 0 then Qabs temperature * 15 else 0)
  + (if Py.gt humidity 95 then (humidity - 95) * 5 else 0)
  + (if Py.lt humidity 85 then (85 - humidity) * 5 else 0)
  + match external_temp with
    | Some e => if Py.gt e 25 then (e - 25) * 1.5 else 0
    | None => 0
    end.

End Analyzer.

(** A printer for numbers with a finite decimal expansion of at most one
    fractional digit, the resolution of a Reading; used to instantiate
    [float_repr] in the worked examples (["4.5"], ["89.0"]). *)
Definition repr_tenths (x : Q) : string := Py.fixed1 x.

(* ===================================================================== *)
(** * The analysis on IEEE 754 doubles                                    *)
(* ===================================================================== *)

(** The arithmetic of [predict_spoilage] and [detect_anomaly] as Python
    runs it, on binary64 values; the integer literals are the doubles of
    the same value. *)
Module Binary64.

Import PrimFloat.
Local Open Scope float_scope.

(** Truth value of an optional float: [None] and zero are false. *)
Definition truthy (v : option float) : bool :=
  match v with
  | None => false
  | Some x => negb (x =? 0)
  end.

Definition present_and_gt (v : option float) (bound : float) : bool :=
  match v with
  | None => false
  | Some x => if truthy v then bound <? x else false
  end.

Definition risk_score (temperature humidity : float)
           (external_temp : option float) : float :=
  let risk_score := 0 in
  let risk_score :=
    if 4 <? temperature then risk_score + (temperature - 4) * 10
    else risk_score in
  let risk_score :=
    if temperature <? 0 then risk_score + abs temperature * 15
    else risk_score in
  let risk_score :=
    if 95 <? humidity then risk_score + (humidity - 95) * 5
    else risk_score in
  let risk_score :=
    if humidity <? 85 then risk_score + (85 - humidity) * 5
    else risk_score in
  let risk_score :=
    if present_and_gt external_temp 25 then
      match external_temp with
      | Some e => let strain_factor := (e - 25) * 1.5 in
                  risk_score + strain_factor
      | None => risk_score
      end
    else risk_score in
  risk_score.

Definition predict_spoilage (temperature humidity : float)
           (external_temp : option float) : string :=
  let risk_score := risk_score temperature humidity external_temp in
  if 70 <? risk_score then "High"%string
  else if 30 <? risk_score then "Medium"%string
  else "Low"%string.

Definition NORMAL_TEMP_MAX (external_temp : option float) : float :=
  let temp_strain_allowance :=
    if present_and_gt external_temp 20 then
      match external_temp with
      | Some e => ((e - 20) / 5) * 0x1.999999999999ap-4
      | None => 0
      end
    else 0 in
  4 + temp_strain_allowance.

(** The verdict of [detect_anomaly]. *)
Definition is_anomaly (temperature humidity : float)
           (external_temp : option float) : bool :=
  let tmax := NORMAL_TEMP_MAX external_temp in
  if negb ((0 <=? temperature) && (temperature <=? tmax)) then true
  else if negb ((90 <=? humidity) && (humidity <=? 95)) then true
  else false.

(** ** The score as the specification words it *)

(** The rows of the score table: whether the row applies, and the term
    it adds. *)
Definition score_table (temperature humidity : float)
           (external_temp : option float) : list (bool * float) :=
  [ (4 <? temperature, (temperature - 4) * 10);
    (temperature <? 0, abs temperature * 15);
    (95 <? humidity, (humidity - 95) * 5);
    (humidity <? 85, (85 - humidity) * 5);
    match external_temp with
    | Some e => (25 <? e, (e - 25) * 1.5)
    | None => (false, 0)
    end ].

(** A score that starts at 0 and to which the terms of the rows that
    apply are added, in the order of the table. *)
Definition spec_score (temperature humidity : float)
           (external_temp : option float) : float :=
  fold_left (fun (score : float) (row : bool * float) =>
               if fst row then score + snd row else score)
            (score_table temperature humidity external_temp) 0.

End Binary64.

(* ===================================================================== *)
(** * Exceptions                                                          *)
(* ===================================================================== *)

Inductive exn_kind :=
| AttributeError | TypeError | ValueError | IndexError | KeyError
| OSError | RuntimeError | SMTPException | DatabaseError.

(** A raised exception: its class and its message. *)
Record exn := Exn { exn_class : exn_kind; exn_message : string }.

(** Outcome of a computation that may raise. *)
Inductive result (A : Type) :=
| Ok (a : A)
| Raise (e : exn).
Arguments Ok {A} a.
Arguments Raise {A} e.

Definition bind {A B} (r : result A) (k : A -> result B) : result B :=
  match r with
  | Ok a => k a
  | Raise e => Raise e
  end.

Notation "x <- r ;; k" := (bind r (fun x => k))
  (at level 61, r at next level, right associativity).

(** [try: body / except Exception: handler]. *)
Definition try_except {A} (body : result A) (handler : exn -> A) : A :=
  match body with
  | Ok a => a
  | Raise e => handler e
  end.

Definition is_ok {A} (r : result A) : bool :=
  match r with Ok _ => true | Raise _ => false end.

(* ===================================================================== *)
(** * Python text operations used by the 1-Wire reader                    *)
(* ===================================================================== *)

Module Text.

(** Whitespace removed by [str.strip()] and skipped by [int()]. *)
Definition is_space (c : ascii) : bool :=
  let n := nat_of_ascii c in
  ((9 <=? n) && (n <=? 13) || (28 <=? n) && (n <=? 32))%nat.

Fixpoint lstrip (s : string) : string :=
  match s with
  | String c s' => if is_space c then lstrip s' else s
  | EmptyString => EmptyString
  end.

Fixpoint rev_onto (s acc : string) : string :=
  match s with
  | EmptyString => acc
  | String c s' => rev_onto s' (String c acc)
  end.

Definition rev (s : string) : string := rev_onto s EmptyString.

Definition rstrip (s : string) : string := rev (lstrip (rev s)).

Definition strip (s : string) : string := rstrip (lstrip s).

(** [s.split(sep)] for a separator of one character. *)
Fixpoint split_on (sep : ascii) (s : string) (cur : string) : list string :=
  match s with
  | EmptyString => [rev cur]
  | String c s' =>
      if Ascii.eqb c sep then rev cur :: split_on sep s' EmptyString
      else split_on sep s' (String c cur)
  end.

Definition newline : ascii := ascii_of_nat 10.

Definition split_lines (s : string) : list string :=
  split_on newline s EmptyString.

Definition startswith (s p : string) : bool := String.prefix p s.

Definition endswith (s p : string) : bool := String.prefix (rev p) (rev s).

(** [s.find(p)]: index of the first occurrence, or -1. *)
Fixpoint find_from (p s : string) (i : Z) : Z :=
  if String.prefix p s then i
  else match s with
       | EmptyString => (-1)%Z
       | String _ s' => find_from p s' (i + 1)%Z
       end.

Definition find (s p : string) : Z := find_from p s 0%Z.

Fixpoint drop (n : nat) (s : string) : string :=
  match n, s with
  | O, _ => s
  | S n', String _ s' => drop n' s'
  | S _, EmptyString => EmptyString
  end.

(** [s[i:]] for a non-negative [i]. *)
Definition slice_from (s : string) (i : Z) : string := drop (Z.to_nat i) s.

Definition digit_value (c : ascii) : Z := Z.of_nat (nat_of_ascii c) - 48.

(** Digits of an [int()] literal: digits, with single underscores
    between digits. [prev] tells whether the previous character was a
    digit. *)
Fixpoint int_digits (s : string) (prev : bool) (acc : Z) : option Z :=
  match s with
  | EmptyString => if prev then Some acc else None
  | String c s' =>
      if Py.is_digit c then int_digits s' true (10 * acc + digit_value c)%Z
      else if Ascii.eqb c "_" then
             if prev then int_digits s' false acc else None
           else None
  end.

(** [int(s)] on text: surrounding whitespace, an optional sign, then the
    digits; [None] stands for ValueError. *)
Definition parse_int (s : string) : option Z :=
  match strip s with
  | String "-" s' => option_map Z.opp (int_digits s' false 0%Z)
  | String "+" s' => int_digits s' false 0%Z
  | s' => int_digits s' false 0%Z
  end.

(** ASCII [str.upper()]. *)
Definition upper_char (c : ascii) : ascii :=
  let n := nat_of_ascii c in
  if ((97 <=? n) && (n <=? 122))%nat then ascii_of_nat (n - 32) else c.

Fixpoint upper (s : string) : string :=
  match s with
  | EmptyString => EmptyString
  | String c s' => String (upper_char c) (upper s')
  end.

End Text.

(* ===================================================================== *)
(** * SensorSource: the DS18B20 helper and SensorReader.read              *)
(* ===================================================================== *)

Module Sensor.

(** The 1-Wire directory /sys/bus/w1/devices/ as the reader sees it. *)
Record w1_bus := {
  w1_isdir : bool;                       (** the directory exists *)
  w1_entries : list string;              (** os.listdir, when it exists *)
  w1_slave : string -> option string     (** text of <dev>/w1_slave;
                                             [None]: open() raises *)
}.

Definition listdir (bus : w1_bus) : result (list string) :=
  if w1_isdir bus then Ok (w1_entries bus)
  else Raise (Exn OSError "No such file or directory").

Definition read_file (bus : w1_bus) (dev : string) : result string :=
  match w1_slave bus dev with
  | Some text => Ok text
  | None => Raise (Exn OSError "cannot open w1_slave")
  end.

Definition devices_28 (entries : list string) : list string :=
  filter (fun d => Text.startswith d "28-") entries.

(** A Python value that is either a [str] or a [list] of [str]: what the
    name [lines] is bound to in the two variants. *)
Inductive pyval :=
| PStr (s : string)
| PList (l : list string).

(** Method and built-in calls, dispatched on the class of the value. *)
Definition call_endswith (v : pyval) (p : string) : result bool :=
  match v with
  | PStr s => Ok (Text.endswith s p)
  | PList _ =>
      Raise (Exn AttributeError "'list' object has no attribute 'endswith'")
  end.

Definition call_find (v : pyval) (p : string) : result Z :=
  match v with
  | PStr s => Ok (Text.find s p)
  | PList _ =>
      Raise (Exn AttributeError "'list' object has no attribute 'find'")
  end.

Definition call_slice_from (v : pyval) (i : Z) : pyval :=
  match v with
  | PStr s => PStr (Text.slice_from s i)
  | PList l => PList (skipn (Z.to_nat i) l)
  end.

Definition call_int (v : pyval) : result Z :=
  match v with
  | PStr s =>
      match Text.parse_int s with
      | Some z => Ok z
      | None => Raise (Exn ValueError "invalid literal for int()")
      end
  | PList _ =>
      Raise (Exn TypeError "int() argument must be a string or a number")
  end.

(** delta.py, [_read_ds18b20_temp]: the body of the [try]. [lines] is
    bound to the list that [split] returns and is then used as text. *)
Definition delta_ds18b20_body (bus : w1_bus) : result (option Q) :=
  entries <- listdir bus ;;
  let devices := devices_28 entries in
  match devices with
  | [] => Ok None
  | dev0 :: _ =>
      text <- read_file bus dev0 ;;
      let lines := PList (Text.split_lines (Text.strip text)) in
      yes <- call_endswith lines "YES" ;;
      if negb yes then Ok None
      else
        pos <- call_find lines "t=" ;;
        if (pos =? -1)%Z then Ok None
        else
          n <- call_int (call_slice_from lines (pos + 2)) ;;
          Ok (Some (inject_Z n / 1000)%Q)
  end.

(** main5.py, [_read_ds18b20_temp]: the body of the [try]. *)
Definition main5_ds18b20_body (bus : w1_bus) : result (option Q) :=
  if negb (w1_isdir bus) then Ok None
  else
    entries <- listdir bus ;;
    let devices := devices_28 entries in
    match devices with
    | [] => Ok None
    | dev0 :: _ =>
        text <- read_file bus dev0 ;;
        let lines := Text.split_lines (Text.strip text) in
        match lines with
        | line0 :: line1 :: _ =>
            if negb (Text.endswith (Text.strip line0) "YES") then Ok None
            else
              let pos := Text.find line1 "t=" in
              if (pos =? -1)%Z then Ok None
              else
                n <- call_int (PStr (Text.slice_from line1 (pos + 2))) ;;
                Ok (Some (inject_Z n / 1000)%Q)
        | _ => Ok None
        end
    end.

(** [_read_ds18b20_temp]: every exception of the body is swallowed and
    [None] is returned. main6.py has no secondary device. *)
Definition _read_ds18b20_temp (f : source_file) (bus : w1_bus) : option Q :=
  match f with
  | Delta => try_except (delta_ds18b20_body bus) (fun _ => None)
  | Main5 => try_except (main5_ds18b20_body bus) (fun _ => None)
  | Main6 => None
  end.

(** What the hardware offers on one attempt. *)
Record attempt := {
  dht_humidity : result (option Q);      (** self.dht.humidity *)
  dht_temperature : result (option Q);   (** self.dht.temperature *)
  bus : w1_bus
}.

Inductive event :=
| EvAttempt (i : nat)
| EvSleep (seconds : Q).

(** The body of the [try] of one iteration: [Some (temp, hum)] when the
    iteration reaches [break]. *)
Definition attempt_body (f : source_file) (prefer_ds18b20 : bool)
           (a : attempt) : result (option (Q * Q)) :=
  hum <- dht_humidity a ;;
  temp <- dht_temperature a ;;
  let temp :=
    if prefer_ds18b20 then
      match _read_ds18b20_temp f (bus a) with
      | Some t_ds => Some t_ds
      | None => temp
      end
    else temp in
  match hum, temp with
  | Some h, Some t => Ok (Some (t, h))
  | _, _ => Ok None
  end.

(** The [for] loop: [n] iterations left, [i] the index of the next one.
    The lines main5.py prints on the way are given by [printed] below. *)
Fixpoint read_loop (f : source_file) (prefer_ds18b20 : bool) (delay_s : Q)
         (hw : nat -> attempt) (n i : nat) : option (Q * Q) * list event :=
  match n with
  | O => (None, [])
  | S n' =>
      match try_except (attempt_body f prefer_ds18b20 (hw i))
                       (fun _ => None) with
      | Some last => (Some last, [EvAttempt i])
      | None =>
          let '(last, evs) :=
            read_loop f prefer_ds18b20 delay_s hw n' (S i) in
          (last, EvAttempt i :: EvSleep delay_s :: evs)
      end
  end.

Definition failed_to_read : exn :=
  Exn RuntimeError "Failed to read from DHT22/DS18B20 sensors.".

(** [SensorReader.read(retries, delay_s)]: the pair
    (temperature, humidity), or the RuntimeError, and what was done. *)
Definition read (f : source_file) (prefer_ds18b20 : bool)
           (retries : Z) (delay_s : Q) (hw : nat -> attempt)
  : result (Q * Q) * list event :=
  let '(last, evs) :=
    read_loop f prefer_ds18b20 delay_s hw
              (Z.to_nat (Z.max 1 retries)) 0 in
  match last with
  | None => (Raise failed_to_read, evs)
  | Some (last_temp, last_hum) =>
      (Ok (Py.round1 last_temp, Py.round1 last_hum), evs)
  end.

Definition attempts (evs : list event) : nat :=
  List.length (filter (fun e => match e with EvAttempt _ => true
                                        | EvSleep _ => false end) evs).

Definition sleeps (evs : list event) : list Q :=
  flat_map (fun e => match e with EvSleep d => [d] | EvAttempt _ => [] end)
           evs.

(** The trace of [k] failed attempts, the first of index [i]: each is
    followed by a sleep. *)
Fixpoint failed_attempts (delay_s : Q) (k i : nat) : list event :=
  match k with
  | O => []
  | S k' => EvAttempt i :: EvSleep delay_s :: failed_attempts delay_s k' (S i)
  end.

(** An attempt succeeds: both values are there after the optional
    override. *)
Definition succeeds (f : source_file) (prefer_ds18b20 : bool) (a : attempt)
  : option (Q * Q) :=
  try_except (attempt_body f prefer_ds18b20 a) (fun _ => None).

(** What attempt [i] prints. delta.py swallows every exception in
    silence. main5.py prints one line when a query of the DHT22 raises
    (the attempts are numbered from 1), and its DS18B20 helper, called
    once both queries have returned, prints one line when it fails. *)
Definition attempt_lines (f : source_file) (prefer_ds18b20 : bool)
           (i : nat) (a : attempt) : list string :=
  let failed ex :=
    ("DHT read attempt " ++ Py.decimal (Z.of_nat (S i)) ++ " failed: "
       ++ exn_message ex)%string in
  match f with
  | Delta | Main6 => []
  | Main5 =>
      match dht_humidity a with
      | Raise ex => [failed ex]
      | Ok _ =>
          match dht_temperature a with
          | Raise ex => [failed ex]
          | Ok _ =>
              if prefer_ds18b20 then
                match main5_ds18b20_body (bus a) with
                | Raise ex =>
                    [("DS18B20 read error: " ++ exn_message ex)%string]
                | Ok _ => []
                end
              else []
          end
      end
  end.

(** The lines printed in the course of a trace of [read]. *)
Definition printed (f : source_file) (prefer_ds18b20 : bool)
           (hw : nat -> attempt) (evs : list event) : list string :=
  flat_map (fun ev => match ev with
                      | EvAttempt i => attempt_lines f prefer_ds18b20 i (hw i)
                      | EvSleep _ => []
                      end) evs.

End Sensor.

(* ===================================================================== *)
(** * The process state and the monad of effectful code                   *)
(* ===================================================================== *)

(** Rows of the two tables.  The [id] and [timestamp] columns, filled by
    the database, play no part in what follows and are left out. *)
Record SensorReading := { temperature : Q; humidity : Q }.
Record AlertLog := { message : string }.

Inductive row :=
| RowReading (r : SensorReading)
| RowAlert (a : AlertLog).

(** A DHT22 object is identified by the pin it was created on. *)
Definition pin := nat.

Record world := {
  sensor : option pin;               (** the global device handle *)
  committed : list row;              (** rows stored in the database *)
  pending : list row;                (** rows added to the open session *)
  console : list string;             (** lines printed, oldest first *)
  slept : list Q;                    (** durations of time.sleep calls *)
  last_background_tick : option Z;
  discoveries : nat                  (** calls of [_try_init_sensor];
                                         instrumentation only *)
}.

Definition M (A : Type) : Type := world -> result A * world.

Definition ret {A} (a : A) : M A := fun w => (Ok a, w).

Definition raise {A} (e : exn) : M A := fun w => (Raise e, w).

Definition bindM {A B} (m : M A) (k : A -> M B) : M B :=
  fun w =>
    match m w with
    | (Ok a, w') => k a w'
    | (Raise e, w') => (Raise e, w')
    end.

Notation "x <~ m ;; k" := (bindM m (fun x => k))
  (at level 61, m at next level, right associativity).
Notation "m ;;; k" := (bindM m (fun _ => k))
  (at level 61, right associativity).

(** An outcome decided by the environment enters the monad. *)
Definition lift {A} (r : result A) : M A := fun w => (r, w).

(** [try: body / except Exception as e: handler e]. *)
Definition try_catch {A} (body : M A) (handler : exn -> M A) : M A :=
  fun w =>
    match body w with
    | (Ok a, w') => (Ok a, w')
    | (Raise e, w') => handler e w'
    end.

(** [try: body / finally: final]: [final] always runs; an exception of
    [final] replaces the outcome of [body]. *)
Definition try_finally {A} (body : M A) (final : M unit) : M A :=
  fun w =>
    let '(r, w1) := body w in
    match final w1 with
    | (Ok _, w2) => (r, w2)
    | (Raise e, w2) => (Raise e, w2)
    end.

Definition print (line : string) : M unit :=
  fun w => (Ok tt,
            {| sensor := sensor w; committed := committed w;
               pending := pending w; console := console w ++ [line];
               slept := slept w;
               last_background_tick := last_background_tick w;
               discoveries := discoveries w |}).

(** [time.sleep(seconds)]. The callers pass 1, 2 or the configured
    interval; a negative duration, on which Python raises ValueError, is
    outside the model. *)
Definition time_sleep (seconds : Q) : M unit :=
  fun w => (Ok tt,
            {| sensor := sensor w; committed := committed w;
               pending := pending w; console := console w;
               slept := slept w ++ [seconds];
               last_background_tick := last_background_tick w;
               discoveries := discoveries w |}).

Definition set_sensor (d : option pin) : M unit :=
  fun w => (Ok tt,
            {| sensor := d; committed := committed w;
               pending := pending w; console := console w;
               slept := slept w;
               last_background_tick := last_background_tick w;
               discoveries := discoveries w |}).

Definition set_tick (now : Z) : M unit :=
  fun w => (Ok tt,
            {| sensor := sensor w; committed := committed w;
               pending := pending w; console := console w;
               slept := slept w;
               last_background_tick := Some now;
               discoveries := discoveries w |}).

Definition count_discovery : M unit :=
  fun w => (Ok tt,
            {| sensor := sensor w; committed := committed w;
               pending := pending w; console := console w;
               slept := slept w;
               last_background_tick := last_background_tick w;
               discoveries := S (discoveries w) |}).

(** A step that only prints. *)
Definition only_prints (w w' : world) : Prop :=
  sensor w' = sensor w /\ committed w' = committed w
  /\ pending w' = pending w /\ slept w' = slept w
  /\ last_background_tick w' = last_background_tick w
  /\ discoveries w' = discoveries w
  /\ exists lines, console w' = (console w ++ lines)%list.

(** ** db.session *)

Definition session_add (r : row) : M unit :=
  fun w => (Ok tt,
            {| sensor := sensor w; committed := committed w;
               pending := pending w ++ [r]; console := console w;
               slept := slept w;
               last_background_tick := last_background_tick w;
               discoveries := discoveries w |}).

(** [db.session.commit()]: the pending rows are stored together, or the
    store raises and nothing is stored. *)
Definition session_commit (outcome : result unit) : M unit :=
  fun w =>
    match outcome with
    | Ok _ =>
        (Ok tt,
         {| sensor := sensor w; committed := committed w ++ pending w;
            pending := []; console := console w; slept := slept w;
            last_background_tick := last_background_tick w;
            discoveries := discoveries w |})
    | Raise e => (Raise e, w)
    end.

(** [db.session.rollback()]: the pending rows are dropped, unless the
    rollback itself raises. *)
Definition session_rollback (outcome : result unit) : M unit :=
  fun w =>
    match outcome with
    | Ok _ =>
        (Ok tt,
         {| sensor := sensor w; committed := committed w;
            pending := []; console := console w; slept := slept w;
            last_background_tick := last_background_tick w;
            discoveries := discoveries w |})
    | Raise e => (Raise e, w)
    end.

(* ===================================================================== *)
(** * WeatherProvider and Notifier, as the code consumes them             *)
(* ===================================================================== *)

Module Weather.

(** The body of a reply whose status is not 200, as
    [response.json().get('message', 'Unknown error')] finds it. *)
Inductive error_body :=
| BodyMessage (msg : string)
    (** a JSON object: its message, or the default text *)
| BodyUndecodable (msg : string)
    (** not JSON: [response.json()] raises the JSONDecodeError of
        requests, which is a RequestException *)
| BodyNotAnObject (e : exn)
    (** JSON, but not an object: [.get] raises [e], an AttributeError *).

(** What [requests.get] and the decoding of the reply produce. *)
Inductive http_reply :=
| RequestException (msg : string)
    (** a RequestException is raised inside the [try]: by the request
        itself or, on a 200, by [response.json()] *)
| Reply200 (temp : option (option Q))
    (** status 200; [None]: the payload lacks a field that is read and a
        KeyError is raised; [Some None]: main.temp is null *)
| ReplyStatus (code : Z) (body : error_body)
    (** any other status *).

(** The dictionary returned: only the two keys the engine reads. *)
Record snapshot := { w_temperature : option Q; w_error : option string }.

Definition api_key_usable (f : source_file) (api_key : string) : bool :=
  match f with
  | Delta => negb (String.eqb api_key "")
             && negb (Text.startswith api_key "REPLACE_")
  | Main5 | Main6 => negb (String.eqb api_key "")
  end.

Definition get_weather_forecast (f : source_file) (api_key : string)
           (reply : http_reply) : result snapshot :=
  if negb (api_key_usable f api_key) then
    Ok {| w_temperature := None;
          w_error := Some "OpenWeather API key not set" |}
  else
    match reply with
    | RequestException msg =>
        Ok {| w_temperature := None;
              w_error := Some ("Network error fetching weather: " ++ msg) |}
    | Reply200 (Some t) => Ok {| w_temperature := t; w_error := None |}
    | Reply200 None => Raise (Exn KeyError "'main'")
    | ReplyStatus code (BodyMessage msg) =>
        Ok {| w_temperature := None;
              w_error := Some ("Weather API error: " ++ msg) |}
    | ReplyStatus code (BodyUndecodable msg) =>
        match f with
        | Delta =>
            (** caught by [except RequestException] *)
            Ok {| w_temperature := None;
                  w_error := Some ("Network error fetching weather: "
                                     ++ msg) |}
        | Main5 | Main6 =>
            Ok {| w_temperature := None;
                  w_error := Some ("Weather API error: HTTP "
                                     ++ Py.decimal code) |}
        end
    | ReplyStatus code (BodyNotAnObject e) =>
        match f with
        | Delta => Raise e
        | Main5 | Main6 =>
            Ok {| w_temperature := None;
                  w_error := Some ("Weather API error: HTTP "
                                     ++ Py.decimal code) |}
        end
    end.

(** [weather.get('temperature') if weather and not weather.get('error')
    else None]. *)
Definition external_temp (weather : snapshot) : option Q :=
  match w_error weather with
  | Some msg => if String.eqb msg "" then w_temperature weather else None
  | None => w_temperature weather
  end.

End Weather.

Module Notifier.

(** What the SMTP server does during one call. *)
Record smtp := {
  smtp_connect : result unit;   (** smtplib.SMTP(host, 587) *)
  smtp_deliver : result unit;   (** starttls, login, sendmail *)
  smtp_quit : result unit       (** server.quit() *)
}.

Definition rule20 : string := "====================".

Definition nl : string := String Text.newline EmptyString.

(** The [finally] clause: delta.py calls [quit] bare, main5.py and
    main6.py wrap it in [try/except: pass]. *)
Definition close_server (f : source_file) (server : bool) (env : smtp)
  : M unit :=
  if server then
    match f with
    | Delta => lift (smtp_quit env)
    | Main5 | Main6 => try_catch (lift (smtp_quit env)) (fun _ => ret tt)
    end
  else ret tt.

(** [send_email_alert(alert_message)]. [credentials] tells whether the
    three configured strings are all non-empty. *)
Definition send_email_alert (f : source_file) (credentials : bool)
           (receiver : string) (env : smtp) (alert_message : string)
  : M unit :=
  print (rule20 ++ nl ++ "EMAIL ALERT TRIGGERED: " ++ alert_message
           ++ nl ++ rule20) ;;;
  if negb credentials then
    print "DEBUG: Email credentials not set. Skipping email."
  else
    (** [server] is bound once the constructor has returned. *)
    let server := is_ok (smtp_connect env) in
    try_finally
      (try_catch
         (lift (smtp_connect env) ;;;
          lift (smtp_deliver env) ;;;
          print ("Email alert sent successfully to " ++ receiver ++ "!"))
         (fun e => print ("ERROR sending email: " ++ exn_message e)))
      (close_server f server env).

End Notifier.

(* ===================================================================== *)
(** * Manual entry: add_data (delta.py, main5.py)                         *)
(* ===================================================================== *)

Module Manual.

Record config := {
  api_key : string;       (** OPENWEATHER_API_KEY *)
  credentials : bool;     (** all([SENDER_EMAIL, RECEIVER_EMAIL,
                              EMAIL_PASSWORD]) *)
  receiver : string       (** RECEIVER_EMAIL *)
}.

(** What the collaborators do while one request is served. *)
Record env := {
  reply : Weather.http_reply;
  smtp : Notifier.smtp;
  commit_outcome : result unit;
  rollback_outcome : result unit
}.

(** The JSON answer and its status code. *)
Record response := {
  status_code : Z;
  status : string;
  error_message : option string
}.

Definition success : response :=
  {| status_code := 200; status := "success"; error_message := None |}.

Definition error (code : Z) (e : exn) : response :=
  {| status_code := code; status := "error";
     error_message := Some (exn_message e) |}.

(** [request.form[key]]. *)
Fixpoint form_get (form : list (string * string)) (key : string)
  : result string :=
  match form with
  | [] => Raise (Exn KeyError key)
  | (k, v) :: rest => if String.eqb k key then Ok v else form_get rest key
  end.

Section AddData.
(** The built-in [float()] on text ([None]: ValueError) and the text
    of a float in an f-string are Python's own. *)
Variable py_float : string -> option Q.
Variable float_repr : Q -> string.

Definition to_float (text : string) : result Q :=
  match py_float text with
  | Some x => Ok x
  | None =>
      Raise (Exn ValueError ("could not convert string to float: " ++ text))
  end.

Definition add_data (f : source_file) (cfg : config) (e : env)
           (form : list (string * string)) : M response :=
  try_catch
    (temp_text <~ lift (form_get form "temperature") ;;
     temp <~ lift (to_float temp_text) ;;
     humidity_text <~ lift (form_get form "humidity") ;;
     humidity <~ lift (to_float humidity_text) ;;
     weather_data <~
       lift (Weather.get_weather_forecast f (api_key cfg) (reply e)) ;;
     let external_temp := Weather.external_temp weather_data in
     session_add
       (RowReading {| temperature := temp; humidity := humidity |}) ;;;
     let '(is_anomaly, anomaly_reason) :=
       Analyzer.detect_anomaly float_repr f temp humidity external_temp in
     (if is_anomaly then
        Notifier.send_email_alert f (credentials cfg) (receiver cfg)
                                  (smtp e) anomaly_reason ;;;
        session_add (RowAlert {| message := anomaly_reason |})
      else ret tt) ;;;
     session_commit (commit_outcome e) ;;;
     ret success)
    (fun ex =>
       session_rollback (rollback_outcome e) ;;;
       ret (error 400 ex)).
End AddData.

End Manual.

(* ===================================================================== *)
(** * Scheduler: device discovery and the background loop (main6.py)      *)
(* ===================================================================== *)

Module Scheduler.

Record config := {
  board : option (string -> option pin);
    (** the [board] module and its attributes, [None] when the hardware
        libraries failed to import *)
  DHT_GPIO_PIN : string;
  READ_INTERVAL_SEC : Q;
  api_key : string;
  credentials : bool;
  receiver : string
}.

(** Set together with [board] by the guarded import. *)
Definition SENSOR_AVAILABLE (cfg : config) : bool :=
  match board cfg with Some _ => true | None => false end.

(** What the world does during one cycle. *)
Record env := {
  utcnow : Z;
  dht_create : pin -> result unit;          (** adafruit_dht.DHT22(pin) *)
  dht_probe : pin -> result unit;           (** the two trial reads *)
  read_humidity : pin -> result (option Q); (** sensor.humidity *)
  read_temperature : pin -> result (option Q);
  reply : Weather.http_reply;
  smtp : Notifier.smtp;
  commit_outcome : result unit;
  rollback_outcome : result unit
}.

Definition _resolve_board_pin (cfg : config) (pin_name : string)
  : option pin :=
  match board cfg with
  | None => None
  | Some attribute =>
      let pin_name :=
        if negb (Text.startswith (Text.upper pin_name) "D") then "D17"
        else pin_name in
      match attribute (Text.upper pin_name) with
      | Some p => Some p
      | None => attribute "D17"
      end
  end.

(** The candidate list: the preferred pin first, then the common pins
    that resolve and differ from the first candidate. *)
Definition candidates (cfg : config) : list (string * pin) :=
  let start :=
    match _resolve_board_pin cfg (DHT_GPIO_PIN cfg) with
    | Some pref_pin => [("ENV", pref_pin)]
    | None => []
    end in
  fold_left
    (fun cands name =>
       match _resolve_board_pin cfg name with
       | Some p =>
           match cands with
           | [] => (cands ++ [(name, p)])%list
           | (_, first) :: _ =>
               if negb (Nat.eqb p first) then (cands ++ [(name, p)])%list
               else cands
           end
       | None => cands
       end)
    ["D4"; "D17"; "D27"; "D22"] start.

(** The [for name, pin in candidates] loop; [true] when a device was
    adopted and the function returned from inside the loop. *)
Fixpoint try_candidates (e : env) (cands : list (string * pin)) : M bool :=
  match cands with
  | [] => ret false
  | (name, p) :: rest =>
      adopted <~
        try_catch
          (print ("DEBUG: Trying DHT22 on " ++ name ++ " ...") ;;;
           lift (dht_create e p) ;;;
           time_sleep 1 ;;;
           lift (dht_probe e p) ;;;
           set_sensor (Some p) ;;;
           print ("INFO: DHT22 initialized on " ++ name ++ ".") ;;;
           ret true)
          (fun ex =>
             print ("DEBUG: Init failed on " ++ name ++ ": "
                      ++ exn_message ex) ;;;
             ret false) ;;
      if adopted then ret true else try_candidates e rest
  end.

Definition _try_init_sensor (cfg : config) (e : env) : M unit :=
  count_discovery ;;;
  if negb (SENSOR_AVAILABLE cfg) then
    print "DEBUG: SENSOR_AVAILABLE=False; cannot init sensor."
  else
    adopted <~ try_candidates e (candidates cfg) ;;
    if adopted then ret tt
    else print "WARN: Could not initialize DHT22 on any tested pin.".

Definition get_sensor : M (option pin) := fun w => (Ok (sensor w), w).

(** The environment [e] with another answer of the weather service. *)
Definition with_reply (e : env) (r : Weather.http_reply) : env :=
  {| utcnow := utcnow e;
     dht_create := dht_create e;
     dht_probe := dht_probe e;
     read_humidity := read_humidity e;
     read_temperature := read_temperature e;
     reply := r;
     smtp := smtp e;
     commit_outcome := commit_outcome e;
     rollback_outcome := rollback_outcome e |}.

Section Loop.
Variable float_repr : Q -> string.

(** The [else] branch of the cycle, entered with the device [d] in
    hand: read, fetch the weather, analyse, alert, commit. *)
Definition read_and_store (cfg : config) (e : env) (d : pin) : M unit :=
  hum <~ lift (read_humidity e d) ;;
  temp <~ lift (read_temperature e d) ;;
  match hum, temp with
  | Some hum, Some temp =>
      weather <~
        lift (Weather.get_weather_forecast Main6 (api_key cfg)
                                           (reply e)) ;;
      let external_temp := Weather.external_temp weather in
      session_add
        (RowReading {| temperature := temp; humidity := hum |}) ;;;
      let '(is_anom, reason) :=
        Analyzer.detect_anomaly float_repr Main6 temp hum
                                external_temp in
      (if is_anom then
         session_add (RowAlert {| message := reason |}) ;;;
         Notifier.send_email_alert Main6 (credentials cfg)
                                   (receiver cfg) (smtp e) reason
       else ret tt) ;;;
      session_commit (commit_outcome e) ;;;
      print ("INFO: Logged reading: " ++ Py.fixed1 temp
               ++ Analyzer.degree Main6 ++ "C, "
               ++ Py.fixed1 hum ++ "%")
  | _, _ => raise (Exn RuntimeError "Null reading from DHT22.")
  end.

(** The body of the [try] of one cycle. *)
Definition cycle_body (cfg : config) (e : env) : M unit :=
  s <~ get_sensor ;;
  (match s with
   | None => _try_init_sensor cfg e
   | Some _ => ret tt
   end) ;;;
  s <~ get_sensor ;;
  match s with
  | None => print "WARN: Sensor not initialized; will retry next cycle."
  | Some d => read_and_store cfg e d
  end.

(** The [except Exception as e] clause of the loop. *)
Definition cycle_handler (e : env) (ex : exn) : M unit :=
  print ("ERROR in background read loop: " ++ exn_message ex) ;;;
  try_catch (session_rollback (rollback_outcome e)) (fun _ => ret tt).

(** One iteration of [while True]. An exception that leaves the
    iteration would end the loop: the result is then [Raise]. *)
Definition cycle (cfg : config) (e : env) : M unit :=
  set_tick (utcnow e) ;;;
  try_finally
    (try_catch (cycle_body cfg e) (cycle_handler e))
    (time_sleep (READ_INTERVAL_SEC cfg)).

(** The first [n] iterations of [_background_reader]; cycle [i] runs
    in the environment [envs i]. The loop stops early only when an
    iteration lets an exception escape. *)
Fixpoint _background_reader (cfg : config) (envs : nat -> env)
         (n i : nat) : M unit :=
  match n with
  | O => ret tt
  | S n' => cycle cfg (envs i) ;;; _background_reader cfg envs n' (S i)
  end.
End Loop.

End Scheduler.

(** The alert rows that accompany a stored reading: one AlertLog with the
    reason when the verdict is anomalous, none otherwise. *)
Definition alert_rows (float_repr : Q -> string) (f : source_file)
           (t h : Q) (ext : option Q) : list row :=
  if fst (Analyzer.detect_anomaly float_repr f t h ext)
  then [RowAlert
          {| message := snd (Analyzer.detect_anomaly float_repr f t h ext) |}]
  else [].

(* ===================================================================== *)
(** * The first variant of the analysis and of manual entry (main1.py)    *)
(* ===================================================================== *)

Module Main1.

Local Open Scope Q_scope.

(** [predict_spoilage(temperature, humidity)]: the accumulator. *)
Definition risk_score (temperature humidity : Q) : Q :=
  let risk_score := 0 in
  let risk_score :=
    if Py.gt temperature 4 then risk_score + (temperature - 4) * 10
    else risk_score in
  let risk_score :=
    if Py.lt temperature 0 then risk_score + Qabs temperature * 15
    else risk_score in
  let risk_score :=
    if Py.gt humidity 95 then risk_score + (humidity - 95) * 5
    else risk_score in
  let risk_score :=
    if Py.lt humidity 85 then risk_score + (85 - humidity) * 5
    else risk_score in
  risk_score.

Definition predict_spoilage (temperature humidity : Q) : string :=
  let risk_score := risk_score temperature humidity in
  if Py.gt risk_score 70 then "High"%string
  else if Py.gt risk_score 30 then "Medium"%string
  else "Low"%string.

(** [detect_anomaly(temperature, humidity)]: fixed bounds, all four
    written as integers in the reasons. *)
Definition detect_anomaly (float_repr : Q -> string)
           (temperature humidity : Q) : bool * string :=
  let NORMAL_TEMP_MIN := 0 in
  let NORMAL_TEMP_MAX := 4 in
  let NORMAL_HUMIDITY_MIN := 90 in
  let NORMAL_HUMIDITY_MAX := 95 in
  if negb (Py.le NORMAL_TEMP_MIN temperature
           && Py.le temperature NORMAL_TEMP_MAX)
  then (true,
        ("Temp " ++ float_repr temperature ++ Analyzer.degree Delta
           ++ "C is outside normal range (0-4" ++ Analyzer.degree Delta
           ++ "C).")%string)
  else if negb (Py.le NORMAL_HUMIDITY_MIN humidity
                && Py.le humidity NORMAL_HUMIDITY_MAX)
  then (true,
        ("Humidity " ++ float_repr humidity
           ++ "% is outside normal range (90-95%).")%string)
  else (false, "Conditions are normal."%string).

(** The JSON answer of [add_data]. *)
Record response := {
  status_code : Z;
  status : string;
  error_message : option string;
  reading : option (Q * Q);          (** temperature, humidity *)
  spoilage_risk : option string;
  is_anomaly : option bool
}.

(** [send_alert(message)]: four printed lines. *)
Definition send_alert (message : string) : M unit :=
  print "====================" ;;;
  print "SENDING ALERT:" ;;;
  print message ;;;
  print "====================".

Section AddData.
Variable py_float : string -> option Q.
Variable float_repr : Q -> string.

(** [add_data()] of main1.py: no weather, no mail. *)
Definition add_data (rollback_outcome commit_outcome : result unit)
           (form : list (string * string)) : M response :=
  try_catch
    (temp_text <~ lift (Manual.form_get form "temperature") ;;
     temp <~ lift (Manual.to_float py_float temp_text) ;;
     humidity_text <~ lift (Manual.form_get form "humidity") ;;
     humidity <~ lift (Manual.to_float py_float humidity_text) ;;
     session_add
       (RowReading {| temperature := temp; humidity := humidity |}) ;;;
     let spoilage_risk := predict_spoilage temp humidity in
     let '(is_anomaly, anomaly_reason) :=
       detect_anomaly float_repr temp humidity in
     (if is_anomaly then
        send_alert anomaly_reason ;;;
        session_add (RowAlert {| message := anomaly_reason |})
      else ret tt) ;;;
     session_commit commit_outcome ;;;
     ret {| status_code := 200; status := "success";
            error_message := None;
            reading := Some (temp, humidity);
            spoilage_risk := Some spoilage_risk;
            is_anomaly := Some is_anomaly |})
    (fun ex =>
       session_rollback rollback_outcome ;;;
       ret {| status_code := 400; status := "error";
              error_message := Some (exn_message ex);
              reading := None; spoilage_risk := None;
              is_anomaly := None |}).
End AddData.

End Main1.

(* ===================================================================== *)
(** * The on-demand hardware read: read_sensor (delta.py, main5.py)       *)
(* ===================================================================== *)

Module OnDemand.

Record config := {
  prefer_ds18b20 : bool;   (** PREFER_DS18B20, given to the SensorReader *)
  api_key : string;
  credentials : bool;
  receiver : string
}.

Record env := {
  hw : nat -> Sensor.attempt;     (** what the hardware offers, by attempt *)
  reply : Weather.http_reply;
  smtp : Notifier.smtp;
  commit_outcome : result unit;
  rollback_outcome : result unit
}.

(** The JSON answer and its status code. *)
Record response := {
  status_code : Z;
  status : string;
  error_message : option string;
  json_temperature : option Q;
  json_humidity : option Q
}.

(** The default of [retries] in [SensorReader.read]. *)
Definition default_retries (f : source_file) : Z :=
  match f with
  | Delta => 3
  | Main5 | Main6 => 5
  end.

(** [sensor.read()] with its defaults; the time it sleeps is added to the
    time slept by the process, the lines it prints to the console. *)
Definition sensor_read (f : source_file) (cfg : config) (e : env)
  : M (Q * Q) :=
  fun w =>
    let '(r, evs) :=
      Sensor.read f (prefer_ds18b20 cfg) (default_retries f) 2 (hw e) in
    (r, {| sensor := sensor w; committed := committed w;
           pending := pending w;
           console :=
             (console w
                ++ Sensor.printed f (prefer_ds18b20 cfg) (hw e) evs)%list;
           slept := (slept w ++ Sensor.sleeps evs)%list;
           last_background_tick := last_background_tick w;
           discoveries := discoveries w |}).

Definition failure (code : Z) (msg : string) : response :=
  {| status_code := code; status := "error"; error_message := Some msg;
     json_temperature := None; json_humidity := None |}.

Section ReadSensor.
Variable float_repr : Q -> string.

Definition read_sensor (f : source_file) (cfg : config) (e : env)
  : M response :=
  s <~ Scheduler.get_sensor ;;
  match s with
  | None => ret (failure 500 "Sensor not initialized")
  | Some _ =>
      try_catch
        (th <~ sensor_read f cfg e ;;
         let '(temp, hum) := th in
         weather_data <~
           lift (Weather.get_weather_forecast f (api_key cfg) (reply e)) ;;
         let external_temp := Weather.external_temp weather_data in
         session_add
           (RowReading {| temperature := temp; humidity := hum |}) ;;;
         let '(is_anomaly, anomaly_reason) :=
           Analyzer.detect_anomaly float_repr f temp hum external_temp in
         (if is_anomaly then
            Notifier.send_email_alert f (credentials cfg) (receiver cfg)
                                      (smtp e) anomaly_reason ;;;
            session_add (RowAlert {| message := anomaly_reason |})
          else ret tt) ;;;
         session_commit (commit_outcome e) ;;;
         ret {| status_code := 200; status := "success";
                error_message := None;
                json_temperature := Some temp;
                json_humidity := Some hum |})
        (fun ex =>
           session_rollback (rollback_outcome e) ;;;
           ret (failure 500 (exn_message ex)))
  end.
End ReadSensor.

End OnDemand.

(* ===================================================================== *)
(** * The chart data: historical_data                                     *)
(* ===================================================================== *)

Module History.

(** A row of the readings table with its timestamp (seconds). *)
Record reading_row := {
  row_temperature : Q;
  row_humidity : Q;
  row_timestamp : Z
}.

(** The two orders the queries ask for. *)
Definition newest_first (a b : reading_row) : Prop :=
  (row_timestamp b <= row_timestamp a)%Z.

Definition oldest_first (a b : reading_row) : Prop :=
  (row_timestamp a <= row_timestamp b)%Z.

(** What the routes rely on from the database:
    [SensorReading.query.order_by(...).all()] returns the rows of the
    table, each as often as it is stored, in the order asked for; rows
    with equal timestamps come in any order. *)
Definition is_order_by (R : reading_row -> reading_row -> Prop)
           (query : list reading_row -> list reading_row) : Prop :=
  forall table,
    Permutation table (query table) /\ StronglySorted R (query table).

(** The three parallel lists of the answer. *)
Record chart := {
  labels : list string;
  temperatures : list Q;
  humidities : list Q
}.

Definition to_chart (strftime : Z -> string) (readings : list reading_row)
  : chart :=
  {| labels := map (fun r => strftime (row_timestamp r)) readings;
     temperatures := map row_temperature readings;
     humidities := map row_humidity readings |}.

(** delta.py, main5.py, main6.py: [order_by(timestamp.desc()).limit(100)],
    then [readings.reverse()]. *)
Definition selected (order_by_desc : list reading_row -> list reading_row)
           (table : list reading_row) : list reading_row :=
  rev (firstn 100 (order_by_desc table)).

Definition historical_data (strftime : Z -> string)
           (order_by_desc : list reading_row -> list reading_row)
           (table : list reading_row) : chart :=
  to_chart strftime (selected order_by_desc table).

(** main1.py: [order_by(timestamp.asc()).limit(100)], no reversal. *)
Definition selected_main1 (order_by_asc : list reading_row -> list reading_row)
           (table : list reading_row) : list reading_row :=
  firstn 100 (order_by_asc table).

Definition historical_data_main1 (strftime : Z -> string)
           (order_by_asc : list reading_row -> list reading_row)
           (table : list reading_row) : chart :=
  to_chart strftime (selected_main1 order_by_asc table).

(** A database engine for the worked examples: rows are put in place one
    by one; [before a b] tells whether [a] may stand before [b]. *)
Fixpoint insert_row (before : reading_row -> reading_row -> bool)
         (r : reading_row) (sorted : list reading_row) : list reading_row :=
  match sorted with
  | [] => [r]
  | r' :: rest =>
      if before r r' then r :: sorted
      else r' :: insert_row before r rest
  end.

Definition order_by (before : reading_row -> reading_row -> bool)
           (table : list reading_row) : list reading_row :=
  fold_right (insert_row before) [] table.

Definition desc (a b : reading_row) : bool :=
  (row_timestamp b <=? row_timestamp a)%Z.

Definition asc (a b : reading_row) : bool :=
  (row_timestamp a <=? row_timestamp b)%Z.

End History.

(* ===================================================================== *)
(** * Pin resolution in main5.py                                          *)
(* ===================================================================== *)

Module Main5Pins.

(** [_resolve_board_pin(pin_name)] of main5.py. The default of [getattr],
    [board.D17], is evaluated before the lookup: it raises when the board
    has no such attribute. The name is used as it is written. *)
Definition _resolve_board_pin (board : option (string -> option pin))
           (pin_name : string) : result (option pin) :=
  match board with
  | None => Ok None
  | Some attribute =>
      let pin_name :=
        if negb (Text.startswith pin_name "D") then "D17" else pin_name in
      match attribute "D17" with
      | None =>
          Raise (Exn AttributeError "module 'board' has no attribute 'D17'")
      | Some d17 =>
          match attribute pin_name with
          | Some p => Ok (Some p)
          | None => Ok (Some d17)
          end
      end
  end.

End Main5Pins.

(* ===================================================================== *)
(** * The /health route of main6.py                                       *)
(* ===================================================================== *)

Module Health.

(** The JSON answer. *)
Record answer := {
  ok : bool;
  sensor_initialized : bool;
  last_tick : option string
}.

(** [health()]: reads the two globals the loop writes. *)
Definition health (isoformat : Z -> string) (w : world) : answer :=
  {| ok := true;
     sensor_initialized :=
       match sensor w with Some _ => true | None => false end;
     last_tick :=
       match last_background_tick w with
       | Some tick => Some (isoformat tick)
       | None => None
       end |}.

End Health.

(* ===================================================================== *)
(** * Worked inputs                                                       *)
(* ===================================================================== *)

(** A reader of plain decimal literals ([digits] or [digits.digits], with
    an optional sign), used for [py_float] in the worked examples; on
    these literals it agrees with Python's [float()]. *)
Definition float_of_literal (text : string) : option Q :=
  let body := Text.strip text in
  let '(negative, body) :=
    match body with
    | String "-" rest => (true, rest)
    | String "+" rest => (false, rest)
    | _ => (false, body)
    end in
  let value :=
    match Text.split_on "." body EmptyString with
    | [whole] =>
        if Py.all_digits whole && negb (String.eqb whole "") then
          option_map inject_Z (Text.int_digits whole false 0%Z)
        else None
    | [whole; frac] =>
        if Py.all_digits whole && negb (String.eqb whole "")
           && Py.all_digits frac && negb (String.eqb frac "") then
          match Text.int_digits whole false 0%Z,
                Text.int_digits frac false 0%Z with
          | Some w, Some fr =>
              Some (inject_Z w
                    + inject_Z fr / inject_Z (10 ^ Z.of_nat (String.length frac)))%Q
          | _, _ => None
          end
        else None
    | _ => None
    end in
  if negative then option_map Qopp value else value.

Module Examples.

Definition world0 : world :=
  {| sensor := None; committed := []; pending := []; console := [];
     slept := []; last_background_tick := None; discoveries := 0 |}.

(** A DS18B20 that answers 23.125 degrees with a valid checksum. *)
Definition w1_text : string :=
  "72 01 4b 46 7f ff 0e 10 57 : crc=57 YES" ++ Notifier.nl
    ++ "72 01 4b 46 7f ff 0e 10 57 t=23125" ++ Notifier.nl.

Definition bus_ds18b20 : Sensor.w1_bus :=
  {| Sensor.w1_isdir := true;
     Sensor.w1_entries := ["w1_bus_master1"; "28-00000abcdef0"];
     Sensor.w1_slave := fun _ => Some w1_text |}.

(** The DHT22 answers 5.04 degrees and 91.26 percent. *)
Definition attempt_good : Sensor.attempt :=
  {| Sensor.dht_humidity := Ok (Some 91.26%Q);
     Sensor.dht_temperature := Ok (Some 5.04%Q);
     Sensor.bus := bus_ds18b20 |}.

(** The DHT22 answers with null values. *)
Definition attempt_null : Sensor.attempt :=
  {| Sensor.dht_humidity := Ok None;
     Sensor.dht_temperature := Ok None;
     Sensor.bus := bus_ds18b20 |}.

(** The DHT22 read raises its usual transient error. *)
Definition attempt_error : Sensor.attempt :=
  {| Sensor.dht_humidity :=
       Raise (Exn RuntimeError "Checksum did not validate. Try again.");
     Sensor.dht_temperature := Ok (Some 5.04%Q);
     Sensor.bus := bus_ds18b20 |}.

(** Two null attempts, then good ones. *)
Definition third_time_lucky (i : nat) : Sensor.attempt :=
  if (i <? 2)%nat then attempt_null else attempt_good.

Definition smtp_ok : Notifier.smtp :=
  {| Notifier.smtp_connect := Ok tt;
     Notifier.smtp_deliver := Ok tt;
     Notifier.smtp_quit := Ok tt |}.

(** The server accepts the connection and then drops it: delivery fails
    and so does the closing QUIT. *)
Definition smtp_dropped : Notifier.smtp :=
  {| Notifier.smtp_connect := Ok tt;
     Notifier.smtp_deliver :=
       Raise (Exn SMTPException "Connection unexpectedly closed");
     Notifier.smtp_quit :=
       Raise (Exn SMTPException "please run connect() first") |}.

Definition manual_config : Manual.config :=
  {| Manual.api_key := "0123456789abcdef";
     Manual.credentials := true;
     Manual.receiver := "keeper@example.org" |}.

Definition manual_env (s : Notifier.smtp) : Manual.env :=
  {| Manual.reply := Weather.RequestException "timed out";
     Manual.smtp := s;
     Manual.commit_outcome := Ok tt;
     Manual.rollback_outcome := Ok tt |}.

Definition form (t h : string) : list (string * string) :=
  [("temperature", t); ("humidity", h)].

(** A board with pins D4 and D17 only. *)
Definition board_attr (name : string) : option pin :=
  if String.eqb name "D17" then Some 17%nat
  else if String.eqb name "D4" then Some 4%nat
  else None.

Definition scheduler_config : Scheduler.config :=
  {| Scheduler.board := Some board_attr;
     Scheduler.DHT_GPIO_PIN := "D17";
     Scheduler.READ_INTERVAL_SEC := 300;
     Scheduler.api_key := "0123456789abcdef";
     Scheduler.credentials := true;
     Scheduler.receiver := "keeper@example.org" |}.

(** A cycle in which the device on every pin answers (3.0, 92.0), the
    weather request times out and mail and database work. *)
Definition cycle_weather_down : Scheduler.env :=
  {| Scheduler.utcnow := 0;
     Scheduler.dht_create := fun _ => Ok tt;
     Scheduler.dht_probe := fun _ => Ok tt;
     Scheduler.read_humidity := fun _ => Ok (Some 92%Q);
     Scheduler.read_temperature := fun _ => Ok (Some 3%Q);
     Scheduler.reply := Weather.RequestException "timed out";
     Scheduler.smtp := smtp_ok;
     Scheduler.commit_outcome := Ok tt;
     Scheduler.rollback_outcome := Ok tt |}.

(** A cycle with a reading of (10.0, 92.0), fine weather service and an
    SMTP server that drops the connection. *)
Definition cycle_mail_down : Scheduler.env :=
  {| Scheduler.utcnow := 0;
     Scheduler.dht_create := fun _ => Ok tt;
     Scheduler.dht_probe := fun _ => Ok tt;
     Scheduler.read_humidity := fun _ => Ok (Some 92%Q);
     Scheduler.read_temperature := fun _ => Ok (Some 10%Q);
     Scheduler.reply := Weather.Reply200 (Some (Some 12%Q));
     Scheduler.smtp := smtp_dropped;
     Scheduler.commit_outcome := Ok tt;
     Scheduler.rollback_outcome := Ok tt |}.

(** A cycle in which reading the adopted device raises. *)
Definition cycle_read_fails : Scheduler.env :=
  {| Scheduler.utcnow := 0;
     Scheduler.dht_create := fun _ => Ok tt;
     Scheduler.dht_probe := fun _ => Ok tt;
     Scheduler.read_humidity :=
       fun _ => Raise (Exn RuntimeError "DHT sensor not found, check wiring");
     Scheduler.read_temperature := fun _ => Ok (Some 3%Q);
     Scheduler.reply := Weather.RequestException "timed out";
     Scheduler.smtp := smtp_ok;
     Scheduler.commit_outcome := Ok tt;
     Scheduler.rollback_outcome := Ok tt |}.

(** A cycle in which no pin carries a device. *)
Definition cycle_no_device : Scheduler.env :=
  {| Scheduler.utcnow := 0;
     Scheduler.dht_create :=
       fun _ => Raise (Exn RuntimeError "DHT sensor not found, check wiring");
     Scheduler.dht_probe := fun _ => Ok tt;
     Scheduler.read_humidity := fun _ => Ok (Some 92%Q);
     Scheduler.read_temperature := fun _ => Ok (Some 3%Q);
     Scheduler.reply := Weather.RequestException "timed out";
     Scheduler.smtp := smtp_ok;
     Scheduler.commit_outcome := Ok tt;
     Scheduler.rollback_outcome := Ok tt |}.

(** The world once the device on pin D4 has been adopted. *)
Definition world_adopted : world :=
  {| sensor := Some 4%nat; committed := []; pending := []; console := [];
     slept := []; last_background_tick := None; discoveries := 1 |}.

End Examples.

(** Inputs for the properties of the routes and of the discovery. *)
Module MoreExamples.

Definition ondemand_config : OnDemand.config :=
  {| OnDemand.prefer_ds18b20 := false;
     OnDemand.api_key := "0123456789abcdef";
     OnDemand.credentials := true;
     OnDemand.receiver := "keeper@example.org" |}.

Definition ondemand_env (hw : nat -> Sensor.attempt) : OnDemand.env :=
  {| OnDemand.hw := hw;
     OnDemand.reply := Weather.RequestException "timed out";
     OnDemand.smtp := Examples.smtp_ok;
     OnDemand.commit_outcome := Ok tt;
     OnDemand.rollback_outcome := Ok tt |}.

(** The hardware libraries failed to import. *)
Definition no_board_config : Scheduler.config :=
  {| Scheduler.board := None;
     Scheduler.DHT_GPIO_PIN := "D17";
     Scheduler.READ_INTERVAL_SEC := 300;
     Scheduler.api_key := "0123456789abcdef";
     Scheduler.credentials := true;
     Scheduler.receiver := "keeper@example.org" |}.

(** A device answers on pin D4 only. *)
Definition device_on_d4 : Scheduler.env :=
  {| Scheduler.utcnow := 0;
     Scheduler.dht_create :=
       fun p => if Nat.eqb p 4 then Ok tt
                else Raise (Exn RuntimeError "DHT sensor not found, check wiring");
     Scheduler.dht_probe := fun _ => Ok tt;
     Scheduler.read_humidity := fun _ => Ok (Some 92%Q);
     Scheduler.read_temperature := fun _ => Ok (Some 10%Q);
     Scheduler.reply := Weather.RequestException "timed out";
     Scheduler.smtp := Examples.smtp_ok;
     Scheduler.commit_outcome := Ok tt;
     Scheduler.rollback_outcome := Ok tt |}.

(** Three rows, not in the order of their timestamps. *)
Definition table3 : list History.reading_row :=
  [ {| History.row_temperature := 3; History.row_humidity := 92;
       History.row_timestamp := 200 |};
    {| History.row_temperature := 5; History.row_humidity := 91;
       History.row_timestamp := 100 |};
    {| History.row_temperature := 4; History.row_humidity := 93;
       History.row_timestamp := 300 |} ].

End MoreExamples.

(* ===================================================================== *)
(** * Facts about numbers and their text                                  *)
(* ===================================================================== *)

Lemma gt_true (x y : Q) : Py.gt x y = true <-> (y < x)%Q.
Proof.
  unfold Py.gt. rewrite negb_true_iff.
  split; intro H.
  - apply Qnot_le_lt. intro Hle. apply Qle_bool_iff in Hle. congruence.
  - destruct (Qle_bool x y) eqn:E; [|reflexivity].
    apply Qle_bool_iff in E. exfalso. exact (Qlt_not_le _ _ H E).
Qed.

Lemma gt_false (x y : Q) : Py.gt x y = false <-> (x <= y)%Q.
Proof.
  unfold Py.gt. rewrite negb_false_iff. apply Qle_bool_iff.
Qed.

Lemma lt_true (x y : Q) : Py.lt x y = true <-> (x < y)%Q.
Proof. unfold Py.lt. apply (gt_true y x). Qed.

Lemma lt_false (x y : Q) : Py.lt x y = false <-> (y <= x)%Q.
Proof. unfold Py.lt. apply (gt_false y x). Qed.

Lemma le_true (x y : Q) : Py.le x y = true <-> (x <= y)%Q.
Proof. apply Qle_bool_iff. Qed.

Lemma le_false (x y : Q) : Py.le x y = false <-> (y < x)%Q.
Proof.
  unfold Py.le. rewrite <- negb_true_iff. apply (gt_true x y).
Qed.

(** Splits a conjunction into its conjuncts, and nothing else. *)
Ltac conjuncts := repeat match goal with |- _ /\ _ => split end.

(** Turns every comparison met in the goal or the context into the order
    relation it decides. *)
Ltac reflect_comparisons :=
  repeat match goal with
    | H : Py.gt _ _ = true |- _ => apply gt_true in H
    | H : Py.gt _ _ = false |- _ => apply gt_false in H
    | H : Py.lt _ _ = true |- _ => apply lt_true in H
    | H : Py.lt _ _ = false |- _ => apply lt_false in H
    | H : Py.le _ _ = true |- _ => apply le_true in H
    | H : Py.le _ _ = false |- _ => apply le_false in H
    end.

Ltac case_comparisons :=
  repeat match goal with
    | |- context [Py.gt ?x ?y] =>
        let E := fresh "E" in destruct (Py.gt x y) eqn:E
    | |- context [Py.lt ?x ?y] =>
        let E := fresh "E" in destruct (Py.lt x y) eqn:E
    | |- context [Py.le ?x ?y] =>
        let E := fresh "E" in destruct (Py.le x y) eqn:E
    end; reflect_comparisons.

(** With a non-negative bound, the truth test on the optional number adds
    nothing to the comparison: zero is not above the bound. *)
Lemma present_and_gt_some (x bound : Q) :
  (0 <= bound)%Q -> Py.present_and_gt (Some x) bound = Py.gt x bound.
Proof.
  intro Hb. unfold Py.present_and_gt, Py.truthy.
  destruct (Qeq_bool x 0) eqn:E; simpl; [|reflexivity].
  apply Qeq_bool_iff in E. symmetry. apply gt_false. rewrite E. exact Hb.
Qed.

Lemma present_and_gt_none (bound : Q) :
  Py.present_and_gt None bound = false.
Proof. reflexivity. Qed.

(** The nearest integer is within one half. *)
Lemma round_half_even_close (x : Q) :
  (Qabs (inject_Z (Py.round_half_even x) - x) <= 1 # 2)%Q.
Proof.
  destruct x as [n d]. unfold Py.round_half_even. cbn [Qnum Qden].
  pose proof (Z.div_mod n (Z.pos d) ltac:(lia)) as Hdm.
  pose proof (Z.mod_pos_bound n (Z.pos d) ltac:(lia)) as Hr.
  set (q := (n / Z.pos d)%Z) in *. set (r := (n mod Z.pos d)%Z) in *.
  clearbody q r.
  apply Qabs_Qle_condition.
  assert (Hcases :
    forall z : Z,
      (- Z.pos d <= 2 * (z * Z.pos d - n) <= Z.pos d)%Z ->
      (- (1 # 2) <= inject_Z z - (n # d) <= 1 # 2)%Q).
  { intros z Hz. unfold Qle, Qminus, Qplus, Qopp, inject_Z. cbn.
    rewrite <- Pos2Z.opp_pos. lia. }
  assert (Hdown : (q * Z.pos d - n = - r)%Z) by (rewrite Hdm; ring).
  assert (Hup : ((q + 1) * Z.pos d - n = Z.pos d - r)%Z)
    by (rewrite Hdm; ring).
  clear Hdm.
  destruct (2 * r ?= Z.pos d)%Z eqn:C.
  - apply Z.compare_eq in C.
    destruct (Z.even q); apply Hcases; [rewrite Hdown | rewrite Hup];
      clear Hcases; lia.
  - change (2 * r < Z.pos d)%Z in C. apply Hcases. rewrite Hdown.
    clear Hcases. lia.
  - apply Z.compare_gt_iff in C. apply Hcases. rewrite Hup.
    clear Hcases. lia.
Qed.

(** [round(x, 1)] moves a value by at most 0.05. *)
Lemma round1_close (x : Q) : (Qabs (Py.round1 x - x) <= 1 # 20)%Q.
Proof.
  unfold Py.round1.
  pose proof (round_half_even_close (x * 10)) as H.
  apply Qabs_Qle_condition in H. apply Qabs_Qle_condition.
  set (y := inject_Z (Py.round_half_even (x * 10))) in *.
  unfold Qdiv. change (/ 10)%Q with (1 # 10)%Q.
  destruct H as [H1 H2]. split; lra.
Qed.










(* ===================================================================== *)
(** * EnvironmentAnalyzer: verdict, score and reason                       *)
(* ===================================================================== *)

Section AnalyzerFacts.
Variable float_repr : Q -> string.
Variable file : source_file.

Local Open Scope Q_scope.

Lemma NORMAL_TEMP_MAX_none : Analyzer.NORMAL_TEMP_MAX None == 4.
Proof. reflexivity. Qed.

Lemma NORMAL_TEMP_MAX_cool (x : Q) :
  x <= 20 -> Analyzer.NORMAL_TEMP_MAX (Some x) == 4.
Proof.
  intro Hx. unfold Analyzer.NORMAL_TEMP_MAX, Analyzer.temp_strain_allowance.
  rewrite present_and_gt_some by lra.
  apply gt_false in Hx. rewrite Hx. reflexivity.
Qed.

Lemma NORMAL_TEMP_MAX_warm (x : Q) :
  20 < x ->
  Analyzer.NORMAL_TEMP_MAX (Some x) == 4 + ((x - 20) / 5) * 0.1.
Proof.
  intro Hx. unfold Analyzer.NORMAL_TEMP_MAX, Analyzer.temp_strain_allowance.
  rewrite present_and_gt_some by lra.
  apply gt_true in Hx. rewrite Hx. reflexivity.
Qed.

Lemma NORMAL_TEMP_MAX_at_least_base (e : option Q) :
  4 <= Analyzer.NORMAL_TEMP_MAX e.
Proof.
  destruct e as [x|]; [|rewrite NORMAL_TEMP_MAX_none; lra].
  destruct (Qlt_le_dec 20 x) as [Hx | Hx].
  - rewrite (NORMAL_TEMP_MAX_warm x Hx).
    unfold Qdiv. change (/ 5) with (1 # 5). lra.
  - rewrite (NORMAL_TEMP_MAX_cool x Hx). lra.
Qed.

(** The verdict is the disjunction of the two range tests. *)
Lemma detect_anomaly_verdict (t h : Q) (e : option Q) :
  fst (Analyzer.detect_anomaly float_repr file t h e) = true
  <-> ~ (0 <= t /\ t <= Analyzer.NORMAL_TEMP_MAX e)
      \/ ~ (90 <= h /\ h <= 95).
Proof.
  unfold Analyzer.detect_anomaly, Analyzer.NORMAL_TEMP_MIN,
    Analyzer.NORMAL_HUMIDITY_MIN, Analyzer.NORMAL_HUMIDITY_MAX.
  set (tmax := Analyzer.NORMAL_TEMP_MAX e).
  case_comparisons; cbn; split; intro H;
    try reflexivity; try discriminate H;
    try (left; intros [? ?]; lra); try (right; intros [? ?]; lra);
    destruct H as [H | H]; exfalso; apply H; split; assumption.
Qed.




(** The accumulator equals the sum of the five table rows. *)
Lemma risk_score_is_spec_score (t h : Q) (e : option Q) :
  Analyzer.risk_score t h e == Analyzer.spec_score t h e.
Proof.
  unfold Analyzer.risk_score, Analyzer.spec_score.
  destruct e as [x|].
  - rewrite present_and_gt_some by lra.
    destruct (Py.gt t 4), (Py.lt t 0), (Py.gt h 95), (Py.lt h 85),
      (Py.gt x 25); ring.
  - rewrite present_and_gt_none.
    destruct (Py.gt t 4), (Py.lt t 0), (Py.gt h 95), (Py.lt h 85); ring.
Qed.

Lemma predict_spoilage_bucket (t h : Q) (e : option Q) :
  let score := Analyzer.risk_score t h e in
  (Analyzer.predict_spoilage t h e = "High"%string <-> 70 < score)
  /\ (Analyzer.predict_spoilage t h e = "Medium"%string
      <-> 30 < score /\ score <= 70)
  /\ (Analyzer.predict_spoilage t h e = "Low"%string <-> score <= 30).
Proof.
  intro score. unfold Analyzer.predict_spoilage. fold score.
  destruct (Py.gt score 70) eqn:E1; [|destruct (Py.gt score 30) eqn:E2];
    reflect_comparisons;
    (split; [|split]); (split; intro H);
    try reflexivity; try discriminate H; try lra;
    try (destruct H; lra); try (split; lra).
Qed.

(** C10: an anomalous verdict does not imply an elevated risk: at
    temperature 3.0 and humidity 89.0 without external temperature the
    reading is flagged while the score is 0 and the risk Low; the same
    holds for every temperature in [0,4] and humidity in [85,90). *)
Theorem anomaly_without_risk :
  (fst (Analyzer.detect_anomaly float_repr file 3.0 89.0 None) = true
   /\ Analyzer.risk_score 3.0 89.0 None == 0
   /\ Analyzer.predict_spoilage 3.0 89.0 None = "Low"%string)
  /\ (forall t h : Q,
        0 <= t /\ t <= 4 -> 85 <= h /\ h < 90 ->
        fst (Analyzer.detect_anomaly float_repr file t h None) = true
        /\ Analyzer.risk_score t h None == 0
        /\ Analyzer.predict_spoilage t h None = "Low"%string).
Proof.
  assert (General : forall t h : Q,
        0 <= t /\ t <= 4 -> 85 <= h /\ h < 90 ->
        fst (Analyzer.detect_anomaly float_repr file t h None) = true
        /\ Analyzer.risk_score t h None == 0
        /\ Analyzer.predict_spoilage t h None = "Low"%string).
  { intros t h [Ht1 Ht2] [Hh1 Hh2].
    assert (Hscore : Analyzer.risk_score t h None == 0).
    { rewrite risk_score_is_spec_score. unfold Analyzer.spec_score.
      apply gt_false in Ht2. apply lt_false in Ht1, Hh1.
      assert (Hh3 : Py.gt h 95 = false) by (apply gt_false; lra).
      rewrite Ht1, Ht2, Hh1, Hh3. reflexivity. }
    split; [|split].
    - apply detect_anomaly_verdict. right. intros [? ?]. lra.
    - exact Hscore.
    - apply (predict_spoilage_bucket t h None). rewrite Hscore. lra. }
  split; [|exact General].
  apply General; split; lra.
Qed.


End AnalyzerFacts.

(** C10 at work: 2.0 degrees and 87 percent. *)
Lemma anomaly_without_risk_witness :
  fst (Analyzer.detect_anomaly repr_tenths Main6 2 87 None) = true
  /\ (Analyzer.risk_score 2 87 None == 0)%Q
  /\ Analyzer.predict_spoilage 2 87 None = "Low".
Proof.
  destruct (anomaly_without_risk repr_tenths Main6) as (_ & Hall).
  apply Hall; split; lra.
Defined.




Module Binary64Facts.

Import PrimFloat.
Local Open Scope float_scope.

(** The worked examples of the analysis, recomputed on doubles: the bound
    at 30 degrees outside is the double written 4.2, and the verdicts and
    buckets are those found in exact arithmetic. *)
Lemma binary64_worked_examples :
  Binary64.NORMAL_TEMP_MAX (Some 30) = 0x1.0cccccccccccdp+2
  /\ Binary64.is_anomaly 3 92 (Some 30) = false
  /\ Binary64.is_anomaly 0x1.2p+2 92 None = true
  /\ Binary64.risk_score 6 92 None = 20
  /\ Binary64.predict_spoilage 6 92 None = "Low"%string
  /\ Binary64.risk_score 10 92 None = 60
  /\ Binary64.predict_spoilage 10 92 None = "Medium"%string
  /\ Binary64.risk_score 10 98 (Some 30) = 0x1.4ap+6
  /\ Binary64.predict_spoilage 10 98 (Some 30) = "High"%string
  /\ Binary64.is_anomaly 3 89 None = true
  /\ Binary64.risk_score 3 89 None = 0
  /\ Binary64.predict_spoilage 3 89 None = "Low"%string.
Proof. repeat split; reflexivity. Qed.

(** On doubles too, a reading inside [0,4] x [90,95] without external
    temperature is not flagged. *)
Lemma binary64_in_range_is_normal (t h : float) :
  leb 0 t = true -> leb t 4 = true ->
  leb 90 h = true -> leb h 95 = true ->
  Binary64.is_anomaly t h None = false.
Proof.
  intros Ht1 Ht2 Hh1 Hh2. unfold Binary64.is_anomaly.
  change (Binary64.NORMAL_TEMP_MAX None) with 4.
  rewrite Ht1, Ht2, Hh1, Hh2. reflexivity.
Qed.

End Binary64Facts.

(* ===================================================================== *)
(** * AnalysisEngine: the formulas, on doubles                            *)
(* ===================================================================== *)

Section Binary64Analysis.
Import PrimFloat.
Local Open Scope float_scope.

(** The order of two floats read the other way round. *)
Lemma SFcompare_antisym (a b : SpecFloat.spec_float) :
  SpecFloat.SFcompare b a
  = match SpecFloat.SFcompare a b with
    | Some c => Some (CompOpp c)
    | None => None
    end.
Proof.
  destruct a as [s|s| |s m e], b as [s'|s'| |s' m' e']; cbn;
    try reflexivity; try (destruct s; reflexivity);
    try (destruct s'; reflexivity);
    try (destruct s, s'; reflexivity).
  destruct s, s'; try reflexivity;
    rewrite (Z.compare_antisym e e'); destruct (e ?= e')%Z; cbn;
    try reflexivity;
    pose proof (Pos.compare_cont_antisym m m' Eq) as H; cbn [CompOpp] in H;
    change (PosDef.Pos.compare_cont Eq m' m) with (Pos.compare_cont Eq m' m);
    rewrite <- H; rewrite ?CompOpp_involutive; reflexivity.
Qed.

(** Below or equal excludes above. *)
Lemma leb_true_ltb_false (x y : float) :
  (x <=? y) = true -> (y <? x) = false.
Proof.
  rewrite FloatAxioms.leb_spec, FloatAxioms.ltb_spec.
  unfold SpecFloat.SFleb, SpecFloat.SFltb.
  rewrite (SFcompare_antisym (FloatOps.Prim2SF x) (FloatOps.Prim2SF y)).
  destruct (SpecFloat.SFcompare (FloatOps.Prim2SF x) (FloatOps.Prim2SF y))
    as [[]|]; cbn; intro H; try reflexivity; discriminate H.
Qed.

(** For two numbers, not above is below or equal. *)
Lemma ltb_false_leb_true (x y : float) :
  SpecFloat.SFcompare (FloatOps.Prim2SF x) (FloatOps.Prim2SF y) <> None ->
  (y <? x) = false -> (x <=? y) = true.
Proof.
  rewrite FloatAxioms.leb_spec, FloatAxioms.ltb_spec.
  unfold SpecFloat.SFleb, SpecFloat.SFltb.
  rewrite (SFcompare_antisym (FloatOps.Prim2SF x) (FloatOps.Prim2SF y)).
  destruct (SpecFloat.SFcompare (FloatOps.Prim2SF x) (FloatOps.Prim2SF y))
    as [[]|]; cbn; intros Hc H; try reflexivity; try discriminate H.
  exfalso. apply Hc. reflexivity.
Qed.

(** A float above another is a number, not NaN. *)
Lemma above_is_a_number (c x y : float) :
  (c <? x) = true ->
  FloatOps.Prim2SF y <> SpecFloat.S754_nan ->
  SpecFloat.SFcompare (FloatOps.Prim2SF x) (FloatOps.Prim2SF y) <> None.
Proof.
  rewrite FloatAxioms.ltb_spec. unfold SpecFloat.SFltb.
  intros Hc Hy.
  destruct (FloatOps.Prim2SF x) as [s|s| |s m e].
  - destruct (FloatOps.Prim2SF y); cbn; congruence.
  - destruct (FloatOps.Prim2SF y); cbn; congruence.
  - destruct (FloatOps.Prim2SF c); cbn in Hc; discriminate Hc.
  - destruct (FloatOps.Prim2SF y); cbn; congruence.
Qed.

(** Zero is above no positive bound: the truth test of the external
    temperature never changes the comparison that follows it. *)
Lemma present_and_gt_is_gt (x c : float) :
  (0 <? c) = true ->
  Binary64.present_and_gt (Some x) c = (c <? x).
Proof.
  intro Hc. unfold Binary64.present_and_gt, Binary64.truthy.
  destruct (x =? 0) eqn:E; cbn [negb]; [|reflexivity].
  symmetry. revert Hc E.
  rewrite !FloatAxioms.ltb_spec, FloatAxioms.eqb_spec.
  change (FloatOps.Prim2SF 0) with (SpecFloat.S754_zero false).
  unfold SpecFloat.SFltb, SpecFloat.SFeqb.
  destruct (FloatOps.Prim2SF x) as [s|s| |s m e],
           (FloatOps.Prim2SF c) as [s'|s'| |s' m' e']; cbn;
    try discriminate; try reflexivity;
    try (destruct s; discriminate); try (destruct s'; discriminate);
    try (destruct s'; intros; try discriminate; reflexivity).
Qed.

(** What is above 70 is above 30. *)
Lemma above_70_is_above_30 (x : float) :
  (70 <? x) = true -> (30 <? x) = true.
Proof.
  rewrite !FloatAxioms.ltb_spec.
  change (FloatOps.Prim2SF 70)
    with (SpecFloat.S754_finite false 4925812092436480 (-46)).
  change (FloatOps.Prim2SF 30)
    with (SpecFloat.S754_finite false 8444249301319680 (-48)).
  unfold SpecFloat.SFltb.
  destruct (FloatOps.Prim2SF x) as [s|s| |s m e];
    cbn [SpecFloat.SFcompare];
    try (destruct s; intro H; try discriminate H; reflexivity);
    try discriminate.
  destruct s; [intro H; discriminate H|].
  assert (Hlt : ((-46 ?= e)%Z = Eq \/ (-46 ?= e)%Z = Lt) ->
                (-48 ?= e)%Z = Lt).
  { intros [H | H]; apply Z.compare_lt_iff.
    - apply Z.compare_eq in H. lia.
    - rewrite Z.compare_lt_iff in H. lia. }
  destruct (-46 ?= e)%Z eqn:He; intro H; try discriminate H;
    rewrite Hlt by auto; reflexivity.
Qed.

(** The temperature bound: 4 without an external temperature and with
    one that is not above 20, the formula above 20. *)
Lemma NORMAL_TEMP_MAX_cases (x : float) :
  Binary64.NORMAL_TEMP_MAX None = 4
  /\ ((20 <? x) = false -> Binary64.NORMAL_TEMP_MAX (Some x) = 4)
  /\ ((20 <? x) = true ->
      Binary64.NORMAL_TEMP_MAX (Some x)
      = 4 + ((x - 20) / 5) * 0x1.999999999999ap-4).
Proof.
  unfold Binary64.NORMAL_TEMP_MAX.
  rewrite (present_and_gt_is_gt x 20 eq_refl).
  split; [reflexivity|]. split; intros ->; reflexivity.
Qed.

(** C1: the temperature bound is 4 without an external temperature or
    with one of at most 20 degrees, and 4 + ((externalTemp - 20) / 5) x
    0.1 above 20 degrees, each operation being that of the doubles and
    0.1 the double 0x1.999999999999ap-4; a reading is flagged exactly
    when its temperature is outside [0, adjustedTempMax] or its humidity
    outside [90, 95] (a NaN is outside every range); readings inside
    [0,4] x [90,95] without external temperature are not flagged, nor is
    (3.0, 92) at 30 degrees outside, where the bound is the double 4.2. *)
Theorem detect_anomaly_envelope (t h : float) (e : option float) :
  Binary64.NORMAL_TEMP_MAX None = 4
  /\ (forall x, (x <=? 20) = true -> Binary64.NORMAL_TEMP_MAX (Some x) = 4)
  /\ (forall x, (20 <? x) = false -> Binary64.NORMAL_TEMP_MAX (Some x) = 4)
  /\ (forall x, (20 <? x) = true ->
        Binary64.NORMAL_TEMP_MAX (Some x)
        = 4 + ((x - 20) / 5) * 0x1.999999999999ap-4)
  /\ (Binary64.is_anomaly t h e = true
      <-> ~ ((0 <=? t) = true /\ (t <=? Binary64.NORMAL_TEMP_MAX e) = true)
          \/ ~ ((90 <=? h) = true /\ (h <=? 95) = true))
  /\ ((0 <=? t) = true /\ (t <=? 4) = true ->
      (90 <=? h) = true /\ (h <=? 95) = true ->
      Binary64.is_anomaly t h None = false)
  /\ Binary64.NORMAL_TEMP_MAX (Some 30) = 0x1.0cccccccccccdp+2
  /\ Binary64.is_anomaly 3 92 (Some 30) = false.
Proof.
  conjuncts.
  - reflexivity.
  - intros x Hx. apply (NORMAL_TEMP_MAX_cases x).
    apply leb_true_ltb_false. exact Hx.
  - intros x. apply (NORMAL_TEMP_MAX_cases x).
  - intros x. apply (NORMAL_TEMP_MAX_cases x).
  - unfold Binary64.is_anomaly.
    destruct (0 <=? t), (t <=? Binary64.NORMAL_TEMP_MAX e),
      (90 <=? h), (h <=? 95); cbn [negb andb];
      (split;
       [ intro Hflag; try discriminate Hflag;
         first [ left; intros [A B]; discriminate
               | right; intros [A B]; discriminate ]
       | intro H; try reflexivity;
         destruct H as [H | H]; exfalso; apply H; split; reflexivity ]).
  - intros [Ht1 Ht2] [Hh1 Hh2]. unfold Binary64.is_anomaly.
    change (Binary64.NORMAL_TEMP_MAX None) with 4.
    rewrite Ht1, Ht2, Hh1, Hh2. reflexivity.
  - reflexivity.
  - reflexivity.
Qed.

(** C1 at work: 2.0 degrees and 93 percent, no external temperature. *)
Lemma detect_anomaly_envelope_witness :
  Binary64.is_anomaly 2 93 None = false.
Proof.
  destruct (detect_anomaly_envelope 2 93 None)
    as (_ & _ & _ & _ & _ & Hin & _).
  apply Hin; split; reflexivity.
Defined.

(** The accumulator of the code is the score of the table. *)
Lemma risk_score_is_table_score (t h : float) (e : option float) :
  Binary64.risk_score t h e = Binary64.spec_score t h e.
Proof.
  unfold Binary64.risk_score, Binary64.spec_score, Binary64.score_table.
  cbn [fold_left fst snd].
  destruct e as [x|]; [|reflexivity].
  rewrite (present_and_gt_is_gt x 25 eq_refl). reflexivity.
Qed.

(** C2: the score starts at 0 and receives, in the order of the table,
    the term of every row that applies: (temperature - 4) x 10 above 4,
    |temperature| x 15 below 0, (humidity - 95) x 5 above 95,
    (85 - humidity) x 5 below 85 and (externalTemp - 25) x 1.5 with an
    external temperature above 25, each operation being that of the
    doubles; the bucket is High above 70, Medium above 30 up to 70 and Low
    otherwise; (6, 92) scores 20 and is Low, (10, 92) scores 60 and is
    Medium, (10, 98) at 30 degrees outside scores 82.5 and is High. *)
Theorem predict_spoilage_score_and_bucket (t h : float) (e : option float) :
  let score := Binary64.risk_score t h e in
  score = Binary64.spec_score t h e
  /\ (Binary64.predict_spoilage t h e = "High"%string
      <-> (70 <? score) = true)
  /\ (Binary64.predict_spoilage t h e = "Medium"%string
      <-> (30 <? score) = true /\ (score <=? 70) = true)
  /\ (Binary64.predict_spoilage t h e = "Low"%string
      <-> (30 <? score) = false)
  /\ (Binary64.risk_score 6 92 None = 20
      /\ Binary64.predict_spoilage 6 92 None = "Low"%string)
  /\ (Binary64.risk_score 10 92 None = 60
      /\ Binary64.predict_spoilage 10 92 None = "Medium"%string)
  /\ (Binary64.risk_score 10 98 (Some 30) = 0x1.4ap+6
      /\ Binary64.predict_spoilage 10 98 (Some 30) = "High"%string).
Proof.
  intro score. split; [apply risk_score_is_table_score|].
  unfold Binary64.predict_spoilage. fold score.
  pose proof (above_70_is_above_30 score) as Htrans.
  pose proof (leb_true_ltb_false score 70) as Hle.
  pose proof (fun H => ltb_false_leb_true score 70
                         (above_is_a_number 30 score 70 H
                            ltac:(vm_compute; discriminate))) as Hnot.
  destruct (70 <? score) eqn:E70; destruct (30 <? score) eqn:E30;
    try (specialize (Htrans eq_refl); discriminate Htrans).
  - conjuncts; try (split; reflexivity);
      split; intro H; try discriminate H; try reflexivity.
    destruct H as [_ H]. specialize (Hle H). discriminate Hle.
  - conjuncts; try (split; reflexivity);
      split; intro H; try discriminate H; try reflexivity.
    split; [reflexivity|]. apply Hnot; reflexivity.
  - conjuncts; try (split; reflexivity);
      split; intro H; try discriminate H; try reflexivity.
    destruct H as [H _]. discriminate H.
Qed.

(** The rounding of the doubles decides at the thresholds. At 4.8
    degrees and 80.6 percent the score is 30.000000000000028 and the risk
    Medium; at -4.1 degrees and 83.3 percent the two terms add up to 70.0
    exactly and the risk is Medium; at 25.65 degrees outside the bound is
    4.1129999999999995, and a reading of 4.113 degrees is flagged. *)
Lemma binary64_rounding_at_the_thresholds :
  Binary64.risk_score 0x1.3333333333333p+2 0x1.4266666666666p+6 None
  = 0x1.e000000000008p+4
  /\ Binary64.predict_spoilage 0x1.3333333333333p+2 0x1.4266666666666p+6
                               None = "Medium"%string
  /\ Binary64.risk_score (-0x1.0666666666666p+2) 0x1.4d33333333333p+6 None
     = 70
  /\ Binary64.predict_spoilage (-0x1.0666666666666p+2)
                               0x1.4d33333333333p+6 None = "Medium"%string
  /\ Binary64.NORMAL_TEMP_MAX (Some 0x1.9a66666666666p+4)
     = 0x1.073b645a1cac0p+2
  /\ Binary64.is_anomaly 0x1.073b645a1cac1p+2 92
                         (Some 0x1.9a66666666666p+4) = true.
Proof. repeat split; reflexivity. Qed.

End Binary64Analysis.

(* ===================================================================== *)
(** * SensorSource: bounded retries and the secondary device              *)
(* ===================================================================== *)

Section SensorFacts.
Variable f : source_file.
Variable prefer_ds18b20 : bool.
Variable delay_s : Q.
Variable hw : nat -> Sensor.attempt.

Local Abbreviation succeeds_at j := (Sensor.succeeds f prefer_ds18b20 (hw j)).
Local Abbreviation loop := (Sensor.read_loop f prefer_ds18b20 delay_s hw).

Lemma read_loop_step (n i : nat) :
  loop (S n) i
  = match succeeds_at i with
    | Some last => (Some last, [Sensor.EvAttempt i])
    | None =>
        let '(last, evs) := loop n (S i) in
        (last, Sensor.EvAttempt i :: Sensor.EvSleep delay_s :: evs)
    end.
Proof. reflexivity. Qed.

(** When every attempt of the budget fails, the loop runs it out,
    sleeping after each attempt. *)
Lemma read_loop_all_fail (n i : nat) :
  (forall j, (i <= j < i + n)%nat -> succeeds_at j = None) ->
  loop n i = (None, Sensor.failed_attempts delay_s n i).
Proof.
  revert i. induction n as [|n IH]; intros i Hall; [reflexivity|].
  rewrite read_loop_step, (Hall i) by lia.
  rewrite IH by (intros j Hj; apply Hall; lia). reflexivity.
Qed.

(** The loop stops at the first successful attempt. *)
Lemma read_loop_first_success (k n i : nat) (v : Q * Q) :
  (k < n)%nat ->
  (forall j, (i <= j < i + k)%nat -> succeeds_at j = None) ->
  succeeds_at (i + k) = Some v ->
  loop n i
  = (Some v,
     (Sensor.failed_attempts delay_s k i ++ [Sensor.EvAttempt (i + k)])%list).
Proof.
  revert n i. induction k as [|k IH]; intros n i Hk Hfail Hok.
  - destruct n as [|n]; [lia|]. rewrite Nat.add_0_r in *.
    rewrite read_loop_step, Hok. reflexivity.
  - destruct n as [|n]; [lia|].
    rewrite read_loop_step, (Hfail i) by lia.
    rewrite (IH n (S i));
      [replace (S i + k)%nat with (i + S k)%nat by lia; reflexivity
      |lia| |].
    + intros j Hj. apply Hfail. lia.
    + replace (S i + k)%nat with (i + S k)%nat by lia. exact Hok.
Qed.

Lemma first_success_or_all_fail (n i : nat) :
  (forall j, (i <= j < i + n)%nat -> succeeds_at j = None)
  \/ exists k v, (k < n)%nat
       /\ (forall j, (i <= j < i + k)%nat -> succeeds_at j = None)
       /\ succeeds_at (i + k) = Some v.
Proof.
  revert i. induction n as [|n IH]; intro i.
  - left. intros j Hj. lia.
  - destruct (succeeds_at i) as [v|] eqn:E.
    + right. exists 0%nat, v. rewrite Nat.add_0_r.
      repeat split; [lia| |exact E]. intros j Hj. lia.
    + destruct (IH (S i)) as [Hall | [k [v [Hk [Hfail Hok]]]]].
      * left. intros j Hj.
        destruct (Nat.eq_dec j i) as [-> | Hne]; [exact E|].
        apply Hall. lia.
      * right. exists (S k), v. repeat split; [lia| |].
        -- intros j Hj.
           destruct (Nat.eq_dec j i) as [-> | Hne]; [exact E|].
           apply Hfail. lia.
        -- replace (i + S k)%nat with (S i + k)%nat by lia. exact Hok.
Qed.

Lemma attempts_failed (k i : nat) :
  Sensor.attempts (Sensor.failed_attempts delay_s k i) = k.
Proof.
  revert i. induction k as [|k IH]; intro i; [reflexivity|].
  unfold Sensor.attempts in *. cbn. rewrite IH. reflexivity.
Qed.

Lemma attempts_app (l1 l2 : list Sensor.event) :
  Sensor.attempts (l1 ++ l2)
  = (Sensor.attempts l1 + Sensor.attempts l2)%nat.
Proof.
  unfold Sensor.attempts. rewrite filter_app, length_app. reflexivity.
Qed.

Lemma sleeps_failed (k i : nat) :
  Sensor.sleeps (Sensor.failed_attempts delay_s k i) = repeat delay_s k.
Proof.
  revert i. induction k as [|k IH]; intro i; [reflexivity|].
  unfold Sensor.sleeps in *. cbn. rewrite IH. reflexivity.
Qed.

Lemma sleeps_app (l1 l2 : list Sensor.event) :
  Sensor.sleeps (l1 ++ l2) = (Sensor.sleeps l1 ++ Sensor.sleeps l2)%list.
Proof. unfold Sensor.sleeps. apply flat_map_app. Qed.

(** An attempt succeeds exactly when the humidity is there and the
    temperature kept after the optional override is there: the DS18B20
    value when the device is preferred and its reader yields one, the
    DHT22 value otherwise. *)
Lemma succeeds_iff (a : Sensor.attempt) (t h : Q) :
  Sensor.succeeds f prefer_ds18b20 a = Some (t, h)
  <-> Sensor.dht_humidity a = Ok (Some h)
      /\ exists t0, Sensor.dht_temperature a = Ok t0
         /\ ((prefer_ds18b20 = true
              /\ Sensor._read_ds18b20_temp f (Sensor.bus a) = Some t)
             \/ ((prefer_ds18b20 = false
                  \/ Sensor._read_ds18b20_temp f (Sensor.bus a) = None)
                 /\ t0 = Some t)).
Proof.
  unfold Sensor.succeeds, Sensor.attempt_body, try_except, bind.
  destruct (Sensor.dht_humidity a) as [[h0|]|eh];
    destruct (Sensor.dht_temperature a) as [[t0|]|et];
    destruct prefer_ds18b20;
    destruct (Sensor._read_ds18b20_temp f (Sensor.bus a)) as [tds|];
    split;
    try (intro H; inversion H; subst;
         split; [reflexivity|]; eexists; split; [reflexivity|];
         solve [ left; split; reflexivity
               | right; split; [(left + right); reflexivity | reflexivity] ]);
    try (intro H; discriminate H);
    try (intros [Hh [t1 [Ht Hcase]]];
         try discriminate Hh; try discriminate Ht;
         inversion Hh; inversion Ht; subst;
         destruct Hcase as [[Hp Hds] | [[Hp | Hds] Ht1]];
         try discriminate; try congruence).
Qed.

(** C3, as the code has it: the budget is max(1, retries) attempts; the
    loop stops at the first attempt that yields both values and returns
    them rounded to one decimal place, having slept delay_s after each
    failed attempt and raised nothing; it raises the RuntimeError
    exactly when every attempt of the budget fails. With two null
    attempts followed by a valid one and retries = 3, the values of the
    third attempt are returned rounded. *)
Theorem read_within_budget (retries : Z) :
  let budget := Z.to_nat (Z.max 1 retries) in
  let outcome := Sensor.read f prefer_ds18b20 retries delay_s hw in
  (1 <= Sensor.attempts (snd outcome) <= budget)%nat
  /\ (forall k t h,
        (k < budget)%nat ->
        (forall j, (j < k)%nat -> succeeds_at j = None) ->
        succeeds_at k = Some (t, h) ->
        outcome
        = (Ok (Py.round1 t, Py.round1 h),
           (Sensor.failed_attempts delay_s k 0 ++ [Sensor.EvAttempt k])%list)
        /\ Sensor.attempts (snd outcome) = S k
        /\ Sensor.sleeps (snd outcome) = repeat delay_s k)
  /\ ((forall j, (j < budget)%nat -> succeeds_at j = None)
      <-> fst outcome = Raise Sensor.failed_to_read)
  /\ (is_ok (fst outcome) = false ->
      fst outcome = Raise Sensor.failed_to_read
      /\ Sensor.sleeps (snd outcome) = repeat delay_s budget)
  /\ (forall a t h,
        Sensor.succeeds f prefer_ds18b20 a = Some (t, h) ->
        Sensor.dht_humidity a = Ok (Some h)
        /\ (Sensor.dht_temperature a = Ok (Some t)
            \/ Sensor._read_ds18b20_temp f (Sensor.bus a) = Some t))
  /\ Sensor.read f false 3 delay_s Examples.third_time_lucky
     = (Ok (5.0, 91.3)%Q,
        [Sensor.EvAttempt 0; Sensor.EvSleep delay_s; Sensor.EvAttempt 1;
         Sensor.EvSleep delay_s; Sensor.EvAttempt 2])
  /\ fst (Sensor.read f false 3 delay_s (fun _ => Examples.attempt_null))
     = Raise Sensor.failed_to_read.
Proof.
  intros budget outcome.
  assert (Hbudget : (1 <= budget)%nat) by (unfold budget; lia).
  assert (Hread : outcome
                  = let '(last, evs) := loop budget 0%nat in
                    match last with
                    | None => (Raise Sensor.failed_to_read, evs)
                    | Some (last_temp, last_hum) =>
                        (Ok (Py.round1 last_temp, Py.round1 last_hum), evs)
                    end) by reflexivity.
  assert (Hsuccess : forall k t h,
        (k < budget)%nat ->
        (forall j, (j < k)%nat -> succeeds_at j = None) ->
        succeeds_at k = Some (t, h) ->
        outcome
        = (Ok (Py.round1 t, Py.round1 h),
           (Sensor.failed_attempts delay_s k 0
              ++ [Sensor.EvAttempt k])%list)).
  { intros k t h Hk Hfail Hok. rewrite Hread.
    rewrite (read_loop_first_success k budget 0 (t, h)); auto.
    intros j Hj. apply Hfail. lia. }
  assert (Hfailure :
        (forall j, (j < budget)%nat -> succeeds_at j = None) ->
        outcome = (Raise Sensor.failed_to_read,
                   Sensor.failed_attempts delay_s budget 0)).
  { intro Hall. rewrite Hread, read_loop_all_fail; [reflexivity|].
    intros j Hj. apply Hall. lia. }
  destruct (first_success_or_all_fail budget 0)
    as [Hall | [k [[t h] [Hk [Hfail Hok]]]]].
  - (* every attempt fails *)
    assert (Hall' : forall j, (j < budget)%nat -> succeeds_at j = None)
      by (intros j Hj; apply Hall; lia).
    pose proof (Hfailure Hall') as Hout.
    split; [rewrite Hout; cbn [snd]; rewrite attempts_failed; lia|].
    split.
    { intros k t h Hk _ Hok. rewrite Hall' in Hok by lia. discriminate. }
    split; [split; [intros _; rewrite Hout; reflexivity | intros _; exact Hall']|].
    split.
    { intros _. rewrite Hout. cbn [fst snd]. split; [reflexivity|].
      apply sleeps_failed. }
    split; [|split; reflexivity].
    intros a t h Ha. apply succeeds_iff in Ha.
    destruct Ha as [Hh [t0 [Ht [[_ Hds] | [_ ->]]]]]; auto.
  - (* attempt k is the first to succeed *)
    assert (Hfail' : forall j, (j < k)%nat -> succeeds_at j = None)
      by (intros j Hj; apply Hfail; lia).
    pose proof (Hsuccess k t h Hk Hfail' Hok) as Hout.
    split.
    { rewrite Hout. cbn [snd]. rewrite attempts_app, attempts_failed.
      cbn. lia. }
    split.
    { intros k' t' h' Hk' Hfail'' Hok'.
      pose proof (Hsuccess k' t' h' Hk' Hfail'' Hok') as Hout'.
      split; [exact Hout'|]. rewrite Hout'. cbn [snd].
      rewrite attempts_app, attempts_failed, sleeps_app, sleeps_failed.
      cbn. rewrite app_nil_r. split; [lia|reflexivity]. }
    split.
    { split.
      - intro Hall. rewrite Hall in Hok by lia. discriminate.
      - intro Hraise. rewrite Hout in Hraise. discriminate. }
    split.
    { rewrite Hout. cbn. discriminate. }
    split; [|split; reflexivity].
    intros a t' h' Ha. apply succeeds_iff in Ha.
    destruct Ha as [Hh [t0 [Ht [[_ Hds] | [_ ->]]]]]; auto.
Qed.

End SensorFacts.

(** C3 at work: two null attempts, then a valid one, with retries = 3. *)
Lemma read_within_budget_witness :
  Sensor.read Main5 false 3 2 Examples.third_time_lucky
  = (Ok (Py.round1 5.04, Py.round1 91.26),
     (Sensor.failed_attempts 2 2 0 ++ [Sensor.EvAttempt 2])%list)
  /\ Sensor.attempts
       (snd (Sensor.read Main5 false 3 2 Examples.third_time_lucky)) = 3%nat
  /\ Sensor.sleeps
       (snd (Sensor.read Main5 false 3 2 Examples.third_time_lucky))
     = repeat 2%Q 2.
Proof.
  destruct (read_within_budget Main5 false 2 Examples.third_time_lucky 3)
    as (_ & Hfirst & _).
  apply (Hfirst 2%nat 5.04%Q 91.26%Q).
  - cbn. lia.
  - intros [|[|j]] Hj; [reflexivity | reflexivity | lia].
  - reflexivity.
Defined.


(** C3 as stated fails for a budget below one: with retries = 0 the code
    still makes one attempt, and returns its values when it succeeds. *)
Lemma read_zero_retries_attempts_once :
  let outcome :=
    Sensor.read Delta false 0 2 (fun _ => Examples.attempt_good) in
  outcome = (Ok (5.0, 91.3)%Q, [Sensor.EvAttempt 0])
  /\ Sensor.attempts (snd outcome) = 1%nat
  /\ ~ (Z.of_nat (Sensor.attempts (snd outcome)) <= 0)%Z
  /\ (forall j, (j < Z.to_nat 0)%nat ->
        Sensor.succeeds Delta false Examples.attempt_good = None)
  /\ fst outcome <> Raise Sensor.failed_to_read.
Proof.
  cbv zeta. repeat split; try reflexivity.
  - intro H. vm_compute in H. apply H. reflexivity.
  - intros j Hj. cbn in Hj. lia.
  - discriminate.
Qed.

(** delta.py: the 1-Wire reader never yields a value, whatever the bus
    holds, because the list returned by [split] is used as text. *)
Lemma delta_ds18b20_always_none (bus : Sensor.w1_bus) :
  Sensor._read_ds18b20_temp Delta bus = None.
Proof.
  unfold Sensor._read_ds18b20_temp, Sensor.delta_ds18b20_body,
    Sensor.listdir, Sensor.read_file, try_except, bind.
  destruct (Sensor.w1_isdir bus); [|reflexivity].
  destruct (Sensor.devices_28 (Sensor.w1_entries bus)) as [|dev0 rest];
    [reflexivity|].
  destruct (Sensor.w1_slave bus dev0); reflexivity.
Qed.

(** C8 fails in delta.py: with the DS18B20 preferred and answering 23.125
    degrees, delta.py returns the DHT22 temperature, while main5.py, on
    the same input, returns the DS18B20 temperature. *)
Theorem delta_ignores_reachable_ds18b20 :
  (forall bus, Sensor._read_ds18b20_temp Delta bus = None)
  /\ Sensor._read_ds18b20_temp Main5 Examples.bus_ds18b20 = Some 23.125%Q
  /\ fst (Sensor.read Delta true 3 2 (fun _ => Examples.attempt_good))
     = Ok (5.0, 91.3)%Q
  /\ fst (Sensor.read Main5 true 3 2 (fun _ => Examples.attempt_good))
     = Ok (23.1, 91.3)%Q.
Proof.
  split; [exact delta_ds18b20_always_none|].
  repeat split; reflexivity.
Qed.

(* ===================================================================== *)
(** * Notifier and weather: what they can do to a cycle or a request      *)
(* ===================================================================== *)

Lemma only_prints_refl (w : world) : only_prints w w.
Proof.
  repeat split. exists []. symmetry. apply app_nil_r.
Qed.

Lemma only_prints_trans (w1 w2 w3 : world) :
  only_prints w1 w2 -> only_prints w2 w3 -> only_prints w1 w3.
Proof.
  intros (A1 & A2 & A3 & A4 & A5 & A6 & l1 & A7)
         (B1 & B2 & B3 & B4 & B5 & B6 & l2 & B7).
  repeat split; try congruence.
  exists (l1 ++ l2)%list. rewrite B7, A7, app_assoc. reflexivity.
Qed.

Lemma print_only_prints (line : string) (w : world) :
  print line w = (Ok tt, snd (print line w))
  /\ only_prints w (snd (print line w)).
Proof.
  split; [reflexivity|]. repeat split. exists [line]. reflexivity.
Qed.

(** The notifier touches nothing but the console, whatever the server
    does. *)
Lemma send_email_alert_only_prints
      (f : source_file) (credentials : bool) (receiver : string)
      (env : Notifier.smtp) (msg : string) (w : world) :
  only_prints w
    (snd (Notifier.send_email_alert f credentials receiver env msg w)).
Proof.
  unfold Notifier.send_email_alert, Notifier.close_server, try_finally,
    try_catch, bindM, lift, ret.
  destruct credentials; cbn;
    [|repeat split; eexists; cbn; rewrite <- app_assoc; reflexivity].
  destruct env as [[[]|e1] [[]|e2] [[]|e3]], f; cbn;
    repeat split; eexists; cbn; rewrite <- app_assoc; reflexivity.
Qed.

(** main5.py and main6.py: no failure of the server leaves the
    notifier. *)
Lemma send_email_alert_guarded
      (f : source_file) (credentials : bool) (receiver : string)
      (env : Notifier.smtp) (msg : string) (w : world) :
  f <> Delta ->
  fst (Notifier.send_email_alert f credentials receiver env msg w) = Ok tt.
Proof.
  intro Hf.
  unfold Notifier.send_email_alert, Notifier.close_server, try_finally,
    try_catch, bindM, lift, ret.
  destruct credentials; cbn; [|reflexivity].
  destruct env as [[[]|e1] [[]|e2] [[]|e3]], f; cbn;
    try reflexivity; congruence.
Qed.

(** delta.py: the notifier lets an exception out exactly when the
    connection was made and the closing QUIT raises. *)
Lemma send_email_alert_delta_outcome
      (credentials : bool) (receiver : string)
      (env : Notifier.smtp) (msg : string) (w : world) :
  fst (Notifier.send_email_alert Delta credentials receiver env msg w)
  = if credentials && is_ok (Notifier.smtp_connect env)
    then Notifier.smtp_quit env else Ok tt.
Proof.
  unfold Notifier.send_email_alert, Notifier.close_server, try_finally,
    try_catch, bindM, lift, ret.
  destruct credentials; cbn; [|reflexivity].
  destruct env as [[[]|e1] [[]|e2] [[]|e3]]; reflexivity.
Qed.

(** A failure reported by the weather provider is handed on as "no
    external temperature"; it is not an exception. *)
Lemma weather_error_is_no_adjustment
      (f : source_file) (api_key msg : string) :
  exists snapshot,
    Weather.get_weather_forecast f api_key (Weather.RequestException msg)
    = Ok snapshot
    /\ Weather.external_temp snapshot = None.
Proof.
  unfold Weather.get_weather_forecast.
  destruct (negb (Weather.api_key_usable f api_key));
    eexists; split; reflexivity.
Qed.

(* ===================================================================== *)
(** * Manual entry: what add_data stores                                  *)
(* ===================================================================== *)

Section ManualFacts.
Variable py_float : string -> option Q.
Variable float_repr : Q -> string.

(** A successful request has stored the submitted pair as it came,
    together with the alert when the pair is anomalous. *)
Lemma add_data_success_stores
      (f : source_file) (cfg : Manual.config) (e : Manual.env)
      (form : list (string * string)) (w w' : world)
      (ttext htext : string) (t h : Q) :
  Manual.form_get form "temperature" = Ok ttext ->
  py_float ttext = Some t ->
  Manual.form_get form "humidity" = Ok htext ->
  py_float htext = Some h ->
  Manual.add_data py_float float_repr f cfg e form w
  = (Ok Manual.success, w') ->
  exists ext,
    committed w'
    = (committed w ++ pending w
         ++ RowReading {| temperature := t; humidity := h |}
         :: alert_rows float_repr f t h ext)%list.
Proof.
  intros Ht1 Ht2 Hh1 Hh2 H.
  unfold Manual.add_data, try_catch, bindM, lift, Manual.to_float in H.
  rewrite Ht1, Ht2, Hh1, Hh2 in H.
  destruct (Weather.get_weather_forecast f (Manual.api_key cfg)
                                         (Manual.reply e)) as [snap|ex].
  2:{ unfold session_rollback, ret in H.
      destruct (Manual.rollback_outcome e); inversion H. }
  exists (Weather.external_temp snap). unfold alert_rows.
  destruct (Analyzer.detect_anomaly float_repr f t h
              (Weather.external_temp snap)) as [anomalous reason].
  cbn [fst snd]. unfold session_add at 1 in H. cbn beta iota in H.
  destruct anomalous.
  - match type of H with
    | context [Notifier.send_email_alert ?a ?b ?c ?d ?m ?w0] =>
        pose proof (send_email_alert_only_prints a b c d m w0) as Hp;
        destruct (Notifier.send_email_alert a b c d m w0) as [r w2]
    end.
    cbn [snd] in Hp.
    destruct Hp as (P1 & P2 & P3 & P4 & P5 & P6 & lines & P7).
    cbn in P2, P3.
    destruct r as [[]|ex];
      unfold session_add, session_commit, session_rollback, ret in H;
      cbn beta iota in H.
    + destruct (Manual.commit_outcome e) as [[]|ex];
        [|destruct (Manual.rollback_outcome e); inversion H].
      inversion H. cbn. rewrite P2, P3.
      rewrite <- ?app_assoc. reflexivity.
    + destruct (Manual.rollback_outcome e); inversion H.
  - unfold session_commit, session_rollback, ret in H. cbn in H.
    destruct (Manual.commit_outcome e) as [[]|ex];
      [|destruct (Manual.rollback_outcome e); inversion H].
    inversion H. cbn. rewrite <- ?app_assoc. reflexivity.
Qed.

(** A request answered with an error has stored nothing: every
    exception inside the [try] leads to the rollback. *)
Lemma add_data_error_stores_nothing
      (f : source_file) (cfg : Manual.config) (e : Manual.env)
      (form : list (string * string)) (w w' : world)
      (resp : Manual.response) :
  Manual.add_data py_float float_repr f cfg e form w = (Ok resp, w') ->
  Manual.status resp = "error" ->
  committed w' = committed w /\ pending w' = [].
Proof.
  intros H Hs.
  unfold Manual.add_data, try_catch, bindM, lift, Manual.to_float in H.
  assert (Hrollback : forall (ex : exn) (w1 : world),
    committed w1 = committed w ->
    (let '(r, w2) := session_rollback (Manual.rollback_outcome e) w1 in
     match r with
     | Ok _ => ret (Manual.error 400 ex) w2
     | Raise e0 => (Raise e0, w2)
     end) = (Ok resp, w') ->
    committed w' = committed w /\ pending w' = []).
  { intros ex w1 Hc. unfold session_rollback, ret.
    destruct (Manual.rollback_outcome e); intro H1; inversion H1.
    subst. cbn. auto. }
  destruct (Manual.form_get form "temperature") as [ttext|ex];
    [|exact (Hrollback ex w eq_refl H)].
  destruct (py_float ttext) as [t|];
    [|exact (Hrollback _ w eq_refl H)].
  destruct (Manual.form_get form "humidity") as [htext|ex];
    [|exact (Hrollback ex w eq_refl H)].
  destruct (py_float htext) as [h|];
    [|exact (Hrollback _ w eq_refl H)].
  destruct (Weather.get_weather_forecast f (Manual.api_key cfg)
                                         (Manual.reply e)) as [snap|ex];
    [|exact (Hrollback ex w eq_refl H)].
  destruct (Analyzer.detect_anomaly float_repr f t h
              (Weather.external_temp snap)) as [anomalous reason].
  unfold session_add at 1 in H. cbn beta iota in H.
  destruct anomalous.
  - match type of H with
    | context [Notifier.send_email_alert ?a ?b ?c ?d ?m ?w0] =>
        pose proof (send_email_alert_only_prints a b c d m w0) as Hp;
        destruct (Notifier.send_email_alert a b c d m w0) as [r w2]
    end.
    cbn [snd] in Hp.
    destruct Hp as (P1 & P2 & P3 & P4 & P5 & P6 & lines & P7).
    cbn in P2.
    destruct r as [[]|ex];
      [|exact (Hrollback ex w2 P2 H)].
    unfold session_add, session_commit in H. cbn beta iota in H.
    destruct (Manual.commit_outcome e) as [[]|ex].
    + unfold ret in H. inversion H. subst resp. discriminate Hs.
    + refine (Hrollback ex _ _ H). exact P2.
  - unfold ret at 1 in H. cbn beta iota in H. unfold session_commit in H.
    destruct (Manual.commit_outcome e) as [[]|ex].
    + unfold ret in H. inversion H. subst resp. discriminate Hs.
    + refine (Hrollback ex _ _ H). reflexivity.
Qed.

(** main5.py: whatever the SMTP server does, a request whose fields
    parse, whose weather call returns and whose commit works is
    answered with success and stored. *)
Lemma add_data_main5_notifier_cannot_block
      (cfg : Manual.config) (e : Manual.env)
      (form : list (string * string)) (w : world)
      (ttext htext : string) (t h : Q) :
  Manual.form_get form "temperature" = Ok ttext ->
  py_float ttext = Some t ->
  Manual.form_get form "humidity" = Ok htext ->
  py_float htext = Some h ->
  is_ok (Weather.get_weather_forecast Main5 (Manual.api_key cfg)
                                      (Manual.reply e)) = true ->
  Manual.commit_outcome e = Ok tt ->
  fst (Manual.add_data py_float float_repr Main5 cfg e form w)
  = Ok Manual.success.
Proof.
  intros Ht1 Ht2 Hh1 Hh2 Hw Hc.
  unfold Manual.add_data, try_catch, bindM, lift, Manual.to_float.
  rewrite Ht1, Ht2, Hh1, Hh2.
  destruct (Weather.get_weather_forecast Main5 (Manual.api_key cfg)
                                         (Manual.reply e)) as [snap|ex];
    [|discriminate Hw].
  destruct (Analyzer.detect_anomaly float_repr Main5 t h
              (Weather.external_temp snap)) as [anomalous reason].
  unfold session_add at 1. cbn beta iota. rewrite Hc.
  destruct anomalous; [|reflexivity].
  match goal with
  | |- context [Notifier.send_email_alert ?a ?b ?c ?d ?m ?w0] =>
      pose proof (send_email_alert_guarded a b c d m w0
                    ltac:(discriminate)) as Hg;
      destruct (Notifier.send_email_alert a b c d m w0) as [r w2]
  end.
  cbn [fst] in Hg. subst r. reflexivity.
Qed.

End ManualFacts.

(** C9 fails in delta.py: a temperature of 10 degrees is submitted, the
    SMTP server drops the connection; the notifier logs the failed
    delivery, but its unguarded [server.quit()] raises, the request is
    answered with an error and neither the Reading nor the AlertLog is
    stored. main5.py, whose notifier guards the QUIT, stores both. *)
Theorem delta_notifier_failure_blocks_commit :
  let run f :=
    Manual.add_data float_of_literal repr_tenths f Examples.manual_config
      (Examples.manual_env Examples.smtp_dropped)
      (Examples.form "10" "92") Examples.world0 in
  let reason :=
    ("Temperature 10.0" ++ Analyzer.degree Delta
       ++ "C is out of the acceptable range (0.0" ++ Analyzer.degree Delta
       ++ "C - 4.0" ++ Analyzer.degree Delta ++ "C).")%string in
  fst (run Delta)
  = Ok {| Manual.status_code := 400; Manual.status := "error";
          Manual.error_message := Some "please run connect() first" |}
  /\ committed (snd (run Delta)) = []
  /\ pending (snd (run Delta)) = []
  /\ In "ERROR sending email: Connection unexpectedly closed"
        (console (snd (run Delta)))
  /\ fst (run Main5) = Ok Manual.success
  /\ committed (snd (run Main5))
     = [RowReading {| temperature := 10; humidity := 92 |};
        RowAlert {| message := reason |}].
Proof.
  cbv zeta. repeat split; try reflexivity.
  vm_compute. right. left. reflexivity.
Qed.

(* ===================================================================== *)
(** * Scheduler: discovery, one cycle, the loop                           *)
(* ===================================================================== *)

Section SchedulerFacts.
Variable float_repr : Q -> string.
Variable cfg : Scheduler.config.

(** The notifier, the analysis and the number format are used through
    their lemmas only. *)
Local Opaque Notifier.send_email_alert Analyzer.detect_anomaly Py.fixed1.

Lemma repeat_snoc {A} (x : A) (k : nat) :
  (repeat x k ++ [x])%list = repeat x (S k).
Proof.
  induction k as [|k IH]; [reflexivity|]. cbn. rewrite IH. reflexivity.
Qed.

(** Trying the candidates never raises; it leaves the database alone,
    sleeps one second per device created, and either adopts a candidate
    whose creation and trial read both worked or leaves the handle as it
    was. *)
Lemma try_candidates_frame (e : Scheduler.env)
      (cands : list (string * pin)) (w : world) :
  exists b w',
    Scheduler.try_candidates e cands w = (Ok b, w')
    /\ committed w' = committed w /\ pending w' = pending w
    /\ discoveries w' = discoveries w
    /\ (exists k, slept w' = (slept w ++ repeat 1%Q k)%list)
    /\ (b = false -> sensor w' = sensor w)
    /\ (b = true ->
        exists name p, In (name, p) cands /\ sensor w' = Some p
          /\ Scheduler.dht_create e p = Ok tt
          /\ Scheduler.dht_probe e p = Ok tt).
Proof.
  revert w. induction cands as [|[name p] rest IH]; intro w.
  - exists false, w. cbn. conjuncts; auto.
    + exists 0%nat. cbn. symmetry. apply app_nil_r.
    + discriminate.
  - cbn [Scheduler.try_candidates].
    unfold bindM, try_catch, print, lift, time_sleep, set_sensor, ret.
    destruct (Scheduler.dht_create e p) as [[]|ex1] eqn:Hc;
      [destruct (Scheduler.dht_probe e p) as [[]|ex2] eqn:Hp|]; cbn.
    + eexists true, _. split; [reflexivity|]. cbn.
      conjuncts; auto.
      * exists 1%nat. reflexivity.
      * discriminate.
      * intros _. exists name, p. conjuncts; auto.
    + match goal with
      | |- context [Scheduler.try_candidates e rest ?w2] =>
          destruct (IH w2) as (b & w' & Heq & A1 & A2 & A3 & [k A4] & A5 & A6)
      end.
      rewrite Heq. exists b, w'. split; [reflexivity|].
      cbn in A1, A2, A3, A4, A5. conjuncts; auto.
      * exists (S k). rewrite A4, <- app_assoc. reflexivity.
      * intro Hb. destruct (A6 Hb) as (n' & p' & Hin & Hs).
        exists n', p'. split; [right; exact Hin | exact Hs].
    + match goal with
      | |- context [Scheduler.try_candidates e rest ?w2] =>
          destruct (IH w2) as (b & w' & Heq & A1 & A2 & A3 & [k A4] & A5 & A6)
      end.
      rewrite Heq. exists b, w'. split; [reflexivity|].
      cbn in A1, A2, A3, A4, A5. conjuncts; auto.
      * exists k. exact A4.
      * intro Hb. destruct (A6 Hb) as (n' & p' & Hin & Hs).
        exists n', p'. split; [right; exact Hin | exact Hs].
Qed.

(** [_try_init_sensor] never raises and counts as one discovery. *)
Lemma try_init_sensor_frame (e : Scheduler.env) (w : world) :
  exists w',
    Scheduler._try_init_sensor cfg e w = (Ok tt, w')
    /\ committed w' = committed w /\ pending w' = pending w
    /\ discoveries w' = S (discoveries w)
    /\ (exists k, slept w' = (slept w ++ repeat 1%Q k)%list)
    /\ (sensor w' = sensor w
        \/ exists name p,
             In (name, p) (Scheduler.candidates cfg)
             /\ sensor w' = Some p
             /\ Scheduler.dht_create e p = Ok tt
             /\ Scheduler.dht_probe e p = Ok tt).
Proof.
  unfold Scheduler._try_init_sensor, bindM, count_discovery.
  destruct (Scheduler.SENSOR_AVAILABLE cfg); cbn.
  - match goal with
    | |- context [Scheduler.try_candidates e ?cs ?w2] =>
        destruct (try_candidates_frame e cs w2)
          as (b & w' & Heq & A1 & A2 & A3 & A4 & A5 & A6)
    end.
    rewrite Heq. cbn in A1, A2, A3, A4, A5.
    destruct b; cbn.
    + eexists. split; [reflexivity|]. conjuncts; auto.
    + eexists. split; [reflexivity|]. cbn. conjuncts; auto.
  - eexists. split; [reflexivity|]. cbn. conjuncts; auto.
    exists 0%nat. cbn. symmetry. apply app_nil_r.
Qed.

(** When no candidate can be created and probed, the handle stays
    empty. *)
Lemma try_init_sensor_all_fail (e : Scheduler.env) (w : world) :
  sensor w = None ->
  (forall name p, In (name, p) (Scheduler.candidates cfg) ->
     is_ok (Scheduler.dht_create e p) && is_ok (Scheduler.dht_probe e p)
     = false) ->
  sensor (snd (Scheduler._try_init_sensor cfg e w)) = None.
Proof.
  intros Hs Hall.
  destruct (try_init_sensor_frame e w)
    as (w' & Heq & _ & _ & _ & _ & [Hsame | (n' & p' & Hin & _ & Hc & Hp)]).
  - rewrite Heq. cbn. congruence.
  - specialize (Hall n' p' Hin). rewrite Hc, Hp in Hall. discriminate.
Qed.

(** The branch that reads and stores: it never touches the handle, the
    discovery count or the time slept; when it raises nothing has been
    stored; when it returns, the reading was there and has been stored
    as it came, with its alert. *)
Lemma read_and_store_frame (e : Scheduler.env) (d : pin) (w : world) :
  let r := fst (Scheduler.read_and_store float_repr cfg e d w) in
  let w1 := snd (Scheduler.read_and_store float_repr cfg e d w) in
  sensor w1 = sensor w /\ slept w1 = slept w
  /\ discoveries w1 = discoveries w
  /\ (forall ex, r = Raise ex -> committed w1 = committed w)
  /\ (r = Ok tt ->
      exists t h ext,
        Scheduler.read_humidity e d = Ok (Some h)
        /\ Scheduler.read_temperature e d = Ok (Some t)
        /\ committed w1
           = (committed w ++ pending w
                ++ RowReading {| temperature := t; humidity := h |}
                :: alert_rows float_repr Main6 t h ext)%list).
Proof.
  unfold Scheduler.read_and_store, bindM, lift, raise.
  destruct (Scheduler.read_humidity e d) as [[h|]|ex1];
    [destruct (Scheduler.read_temperature e d) as [[t|]|ex2]| |];
    cbn; try (conjuncts; auto; discriminate).
  2:{ destruct (Scheduler.read_temperature e d) as [[t|]|ex2];
        cbn; conjuncts; auto; discriminate. }
  destruct (Weather.get_weather_forecast Main6 (Scheduler.api_key cfg)
              (Scheduler.reply e)) as [snap|ex3];
    cbn; [|conjuncts; auto; discriminate].
  unfold alert_rows.
  destruct (Analyzer.detect_anomaly float_repr Main6 t h
              (Weather.external_temp snap)) as [anomalous reason] eqn:D.
  destruct anomalous.
  - match goal with
    | |- context [Notifier.send_email_alert ?a ?b ?c ?x ?m ?w0] =>
        pose proof (send_email_alert_only_prints a b c x m w0) as Hp;
        pose proof (send_email_alert_guarded a b c x m w0
                      ltac:(discriminate)) as Hg;
        destruct (Notifier.send_email_alert a b c x m w0) as [r w2]
    end.
    cbn [fst snd] in Hp, Hg. subst r.
    destruct Hp as (P1 & P2 & P3 & P4 & P5 & P6 & lines & P7).
    cbn in P1, P2, P3, P4, P6.
    unfold session_commit, print.
    destruct (Scheduler.commit_outcome e) as [[]|ex4]; cbn.
    + conjuncts; auto; try discriminate.
      intros _. exists t, h, (Weather.external_temp snap).
      rewrite D. cbn. rewrite P2, P3, <- ?app_assoc. auto.
    + conjuncts; auto; try discriminate.
  - unfold session_commit, print, ret. cbn.
    destruct (Scheduler.commit_outcome e) as [[]|ex4]; cbn.
    + conjuncts; auto; try discriminate.
      intros _. exists t, h, (Weather.external_temp snap).
      rewrite D. cbn. rewrite <- ?app_assoc. auto.
    + conjuncts; auto; discriminate.
Qed.


(** The [except] clause prints the error and rolls back as far as it
    can; it never raises and stores nothing. *)
Lemma cycle_handler_effect (e : Scheduler.env) (ex : exn) (w : world) :
  let w' := snd (Scheduler.cycle_handler e ex w) in
  fst (Scheduler.cycle_handler e ex w) = Ok tt
  /\ console w'
     = (console w ++ [("ERROR in background read loop: " ++ exn_message ex)%string])%list
  /\ committed w' = committed w /\ sensor w' = sensor w
  /\ slept w' = slept w /\ discoveries w' = discoveries w.
Proof.
  unfold Scheduler.cycle_handler, bindM, print, try_catch,
    session_rollback, ret.
  destruct (Scheduler.rollback_outcome e) as [[]|ex']; cbn; conjuncts; auto.
Qed.

(** One iteration, step by step: the tick, the body, the handler when
    the body raised, the sleep; it always ends with [Ok]. *)
Lemma cycle_unfolded (e : Scheduler.env) (w : world) :
  Scheduler.cycle float_repr cfg e w
  = let w0 := snd (set_tick (Scheduler.utcnow e) w) in
    let w2 :=
      match Scheduler.cycle_body float_repr cfg e w0 with
      | (Ok _, w1) => w1
      | (Raise ex, w1) => snd (Scheduler.cycle_handler e ex w1)
      end in
    (Ok tt, snd (time_sleep (Scheduler.READ_INTERVAL_SEC cfg) w2)).
Proof.
  unfold Scheduler.cycle, bindM, try_finally, try_catch.
  cbn [set_tick snd].
  destruct (Scheduler.cycle_body float_repr cfg e _) as [[[]|ex] w1].
  - reflexivity.
  - pose proof (cycle_handler_effect e ex w1) as [Hok _].
    destruct (Scheduler.cycle_handler e ex w1) as [r w2].
    cbn [fst] in Hok. subst r. reflexivity.
Qed.

(** With a device in hand the body is the reading branch. *)
Lemma cycle_body_with_device (e : Scheduler.env) (w : world) (d : pin) :
  sensor w = Some d ->
  Scheduler.cycle_body float_repr cfg e w
  = Scheduler.read_and_store float_repr cfg e d w.
Proof.
  intro Hs. unfold Scheduler.cycle_body, bindM, Scheduler.get_sensor, ret.
  rewrite Hs. cbn. rewrite Hs. reflexivity.
Qed.

(** Without a device the body runs the discovery once and then either
    reads from the adopted device or prints the warning. *)
Lemma cycle_body_without_device (e : Scheduler.env) (w : world) :
  sensor w = None ->
  let w' := snd (Scheduler._try_init_sensor cfg e w) in
  Scheduler.cycle_body float_repr cfg e w
  = match sensor w' with
    | None =>
        print "WARN: Sensor not initialized; will retry next cycle." w'
    | Some d => Scheduler.read_and_store float_repr cfg e d w'
    end.
Proof.
  intro Hs. unfold Scheduler.cycle_body, bindM, Scheduler.get_sensor, ret.
  rewrite Hs.
  destruct (try_init_sensor_frame e w) as (w' & Heq & _).
  rewrite Heq. cbn [snd]. destruct (sensor w'); reflexivity.
Qed.

Lemma cycle_body_frame (e : Scheduler.env) (w : world) :
  let r := fst (Scheduler.cycle_body float_repr cfg e w) in
  let w1 := snd (Scheduler.cycle_body float_repr cfg e w) in
  (exists k, slept w1 = (slept w ++ repeat 1%Q k)%list)
  /\ (forall d, sensor w = Some d ->
        sensor w1 = Some d /\ discoveries w1 = discoveries w)
  /\ (sensor w = None -> discoveries w1 = S (discoveries w))
  /\ (forall ex, r = Raise ex -> committed w1 = committed w)
  /\ (sensor w1 = None ->
      r = Ok tt /\ committed w1 = committed w /\ pending w1 = pending w).
Proof.
  cbv zeta. destruct (sensor w) as [d|] eqn:Hs.
  - rewrite (cycle_body_with_device e w d Hs).
    pose proof (read_and_store_frame e d w) as (F1 & F2 & F3 & F4 & F5).
    conjuncts.
    + exists 0%nat. rewrite F2. symmetry. apply app_nil_r.
    + intros d' Hd. inversion Hd. subst d'. split; congruence.
    + discriminate.
    + exact F4.
    + intro Hnone. rewrite F1, Hs in Hnone. discriminate.
  - rewrite (cycle_body_without_device e w Hs).
    destruct (try_init_sensor_frame e w)
      as (w' & Heq & A1 & A2 & A3 & A4 & A5).
    rewrite Heq. cbn [snd].
    destruct (sensor w') as [d|] eqn:Hs'.
    + pose proof (read_and_store_frame e d w') as (F1 & F2 & F3 & F4 & F5).
      conjuncts.
      * destruct A4 as [k A4]. exists k. rewrite F2. exact A4.
      * discriminate.
      * intros _. rewrite F3. exact A3.
      * intros ex Hr. rewrite (F4 ex Hr). exact A1.
      * intro Hnone. rewrite F1, Hs' in Hnone. discriminate.
    + cbn. conjuncts; auto; discriminate.
Qed.

(** Every iteration ends with [Ok], having slept the interval last. *)
Lemma cycle_always_sleeps (e : Scheduler.env) (w : world) :
  fst (Scheduler.cycle float_repr cfg e w) = Ok tt
  /\ exists k,
       slept (snd (Scheduler.cycle float_repr cfg e w))
       = (slept w ++ repeat 1%Q k
            ++ [Scheduler.READ_INTERVAL_SEC cfg])%list.
Proof.
  rewrite cycle_unfolded. cbn zeta. split; [reflexivity|].
  set (w0 := snd (set_tick (Scheduler.utcnow e) w)).
  pose proof (cycle_body_frame e w0) as ([k Hk] & _).
  exists k. cbn [snd time_sleep slept].
  destruct (Scheduler.cycle_body float_repr cfg e w0) as [[[]|ex] w1];
    cbn [snd] in Hk.
  - rewrite Hk, <- app_assoc. reflexivity.
  - pose proof (cycle_handler_effect e ex w1) as (_ & _ & _ & _ & H5 & _).
    rewrite H5, Hk, <- app_assoc. reflexivity.
Qed.

(** An exception raised by the body is logged by the loop, and the
    cycle ends without having stored anything. *)
Lemma cycle_exception_logged (e : Scheduler.env) (w w1 : world) (ex : exn) :
  Scheduler.cycle_body float_repr cfg e
    (snd (set_tick (Scheduler.utcnow e) w)) = (Raise ex, w1) ->
  console (snd (Scheduler.cycle float_repr cfg e w))
  = (console w1
       ++ [("ERROR in background read loop: " ++ exn_message ex)%string])%list
  /\ committed (snd (Scheduler.cycle float_repr cfg e w)) = committed w.
Proof.
  intro Hbody. rewrite cycle_unfolded. cbn zeta.
  pose proof (cycle_body_frame e (snd (set_tick (Scheduler.utcnow e) w)))
    as (_ & _ & _ & Hraise & _).
  rewrite Hbody in *. cbn [fst snd] in Hraise.
  pose proof (cycle_handler_effect e ex w1) as (_ & H2 & H3 & _).
  cbn [snd time_sleep console committed].
  split; [exact H2|]. rewrite H3, (Hraise ex eq_refl). reflexivity.
Qed.

(** The device handle after one iteration. *)
Lemma cycle_handle (e : Scheduler.env) (w : world) :
  let w' := snd (Scheduler.cycle float_repr cfg e w) in
  (forall d, sensor w = Some d ->
     sensor w' = Some d /\ discoveries w' = discoveries w)
  /\ (sensor w = None -> discoveries w' = S (discoveries w))
  /\ (sensor w' = None -> committed w' = committed w)
  /\ (sensor w = None ->
      (forall name p, In (name, p) (Scheduler.candidates cfg) ->
         is_ok (Scheduler.dht_create e p)
         && is_ok (Scheduler.dht_probe e p) = false) ->
      sensor w' = None)
  /\ (sensor w = None -> forall p, sensor w' = Some p ->
      exists name, In (name, p) (Scheduler.candidates cfg)
        /\ Scheduler.dht_create e p = Ok tt
        /\ Scheduler.dht_probe e p = Ok tt).
Proof.
  rewrite cycle_unfolded. cbn zeta.
  set (w0 := snd (set_tick (Scheduler.utcnow e) w)).
  assert (Hs0 : sensor w0 = sensor w) by reflexivity.
  assert (Hd0 : discoveries w0 = discoveries w) by reflexivity.
  assert (Hc0 : committed w0 = committed w) by reflexivity.
  pose proof (cycle_body_frame e w0) as (_ & B2 & B3 & B4 & B5).
  assert (Hinit : sensor w = None ->
            Scheduler.cycle_body float_repr cfg e w0
            = match sensor (snd (Scheduler._try_init_sensor cfg e w0)) with
              | None =>
                  print "WARN: Sensor not initialized; will retry next cycle."
                        (snd (Scheduler._try_init_sensor cfg e w0))
              | Some d =>
                  Scheduler.read_and_store float_repr cfg e d
                    (snd (Scheduler._try_init_sensor cfg e w0))
              end).
  { intro Hn. apply cycle_body_without_device. congruence. }
  assert (Hafter : forall w2,
            w2 = match Scheduler.cycle_body float_repr cfg e w0 with
                 | (Ok _, w1) => w1
                 | (Raise ex, w1) => snd (Scheduler.cycle_handler e ex w1)
                 end ->
            sensor w2 = sensor (snd (Scheduler.cycle_body float_repr cfg e w0))
            /\ discoveries w2
               = discoveries (snd (Scheduler.cycle_body float_repr cfg e w0))
            /\ committed w2
               = committed (snd (Scheduler.cycle_body float_repr cfg e w0))).
  { intros w2 ->.
    destruct (Scheduler.cycle_body float_repr cfg e w0) as [[[]|ex] w1];
      cbn [snd]; [auto|].
    pose proof (cycle_handler_effect e ex w1) as (_ & _ & H3 & H4 & _ & H6).
    auto. }
  destruct (Hafter _ eq_refl) as (S1 & S2 & S3).
  cbn [snd time_sleep sensor discoveries committed].
  rewrite S1, S2, S3. clear Hafter S1 S2 S3.
  conjuncts.
  - intros d Hd. apply B2. congruence.
  - intro Hn. rewrite B3; congruence.
  - intro Hn. destruct (B5 Hn) as (_ & Hc & _). congruence.
  - intros Hn Hall. rewrite (Hinit Hn).
    pose proof (try_init_sensor_all_fail e w0 ltac:(congruence) Hall) as Hnone.
    rewrite Hnone. cbn. exact Hnone.
  - intros Hn p Hp. rewrite (Hinit Hn) in Hp.
    destruct (try_init_sensor_frame e w0)
      as (w' & Heq & _ & _ & _ & _ & A5).
    rewrite Heq in Hp. cbn [snd] in Hp.
    assert (Hsp : sensor w' = Some p).
    { destruct (sensor w') as [d|] eqn:Hs'.
      - pose proof (read_and_store_frame e d w') as (F1 & _).
        rewrite F1, Hs' in Hp. exact Hp.
      - cbn in Hp. congruence. }
    destruct A5 as [Hsame | (name & p' & Hin & Hsp' & Hc & Hpr)].
    + congruence.
    + rewrite Hsp' in Hsp. inversion Hsp. subst p'.
      exists name. auto.
Qed.

(** The loop never stops: any number of iterations completes. *)
Lemma background_reader_runs (envs : nat -> Scheduler.env) (n i : nat)
      (w : world) :
  let w' := snd (Scheduler._background_reader float_repr cfg envs n i w) in
  fst (Scheduler._background_reader float_repr cfg envs n i w) = Ok tt
  /\ (exists added,
        slept w' = (slept w ++ added)%list /\ (n <= List.length added)%nat)
  /\ (forall d, sensor w = Some d ->
        sensor w' = Some d /\ discoveries w' = discoveries w).
Proof.
  revert i w. induction n as [|n IH]; intros i w.
  - cbn. conjuncts; auto.
    exists []. split; [symmetry; apply app_nil_r | cbn; lia].
  - cbn [Scheduler._background_reader]. unfold bindM.
    pose proof (cycle_always_sleeps (envs i) w) as [Hok [k Hk]].
    pose proof (cycle_handle (envs i) w) as (Hkeep & _).
    destruct (Scheduler.cycle float_repr cfg (envs i) w) as [r w1].
    cbn [fst snd] in *. subst r.
    destruct (IH (S i) w1) as (I1 & (added & I2 & I3) & I4).
    conjuncts.
    + exact I1.
    + exists ((repeat 1%Q k ++ [Scheduler.READ_INTERVAL_SEC cfg]) ++ added)%list.
      split.
      * rewrite I2, Hk, <- !app_assoc. reflexivity.
      * rewrite !length_app. cbn. lia.
    + intros d Hd. destruct (Hkeep d Hd) as [K1 K2].
      destruct (I4 d K1) as [K3 K4]. split; congruence.
Qed.


End SchedulerFacts.

(* ===================================================================== *)
(** * The scheduler: what each kind of failure does to a cycle            *)
(* ===================================================================== *)

(** A failure to connect or to deliver is logged by the notifier. *)
Lemma send_email_alert_logs_failure
      (f : source_file) (receiver : string) (env : Notifier.smtp)
      (msg : string) (w : world) (ex : exn) :
  Notifier.smtp_connect env = Raise ex
  \/ (Notifier.smtp_connect env = Ok tt
      /\ Notifier.smtp_deliver env = Raise ex) ->
  exists lines,
    console (snd (Notifier.send_email_alert f true receiver env msg w))
    = (console w ++ lines)%list
    /\ In ("ERROR sending email: " ++ exn_message ex)%string lines.
Proof.
  intro H.
  unfold Notifier.send_email_alert, Notifier.close_server, try_finally,
    try_catch, bindM, lift, ret, print.
  destruct env as [c dl q]. cbn in H.
  destruct H as [-> | [-> ->]]; cbn; destruct f, q as [[]|e3]; cbn;
    eexists; (split; [rewrite <- ?app_assoc; reflexivity | cbn; auto]).
Qed.

Section SchedulerFailureFacts.
Variable float_repr : Q -> string.
Variable cfg : Scheduler.config.

Local Opaque Notifier.send_email_alert Analyzer.detect_anomaly Py.fixed1.

(** The discovery only adds lines to the console. *)
Lemma try_candidates_console (e : Scheduler.env)
      (cands : list (string * pin)) (w : world) :
  exists lines,
    console (snd (Scheduler.try_candidates e cands w))
    = (console w ++ lines)%list.
Proof.
  revert w. induction cands as [|[name p] cands IH]; intro w.
  - exists []. cbn. symmetry. apply app_nil_r.
  - cbn [Scheduler.try_candidates].
    unfold bindM, try_catch, print, lift, time_sleep, set_sensor, ret.
    destruct (Scheduler.dht_create e p) as [[]|ex1];
      [destruct (Scheduler.dht_probe e p) as [[]|ex2]|]; cbn.
    + eexists. rewrite <- app_assoc. reflexivity.
    + match goal with
      | |- context [Scheduler.try_candidates e cands ?w2] =>
          destruct (IH w2) as [lines Hl]
      end.
      rewrite Hl. cbn. eexists. rewrite <- !app_assoc. reflexivity.
    + match goal with
      | |- context [Scheduler.try_candidates e cands ?w2] =>
          destruct (IH w2) as [lines Hl]
      end.
      rewrite Hl. cbn. eexists. rewrite <- !app_assoc. reflexivity.
Qed.

Lemma try_init_sensor_console (e : Scheduler.env) (w : world) :
  exists lines,
    console (snd (Scheduler._try_init_sensor cfg e w))
    = (console w ++ lines)%list.
Proof.
  unfold Scheduler._try_init_sensor, bindM, count_discovery, print, ret.
  destruct (negb (Scheduler.SENSOR_AVAILABLE cfg)).
  - cbn. eexists. reflexivity.
  - match goal with
    | |- context [Scheduler.try_candidates e ?c ?w0] =>
        destruct (try_candidates_console e c w0) as [lines Hl];
        destruct (try_candidates_frame e c w0) as (b & w1 & Heq & _)
    end.
    rewrite Heq in *. cbn [snd] in Hl. cbn in Hl.
    destruct b; cbn; rewrite Hl; eexists;
      rewrite <- ?app_assoc; reflexivity.
Qed.

(** The [except] clause empties the session when the rollback works and
    leaves it as it is when the rollback itself raises. *)
Lemma cycle_handler_rolls_back (e : Scheduler.env) (ex : exn) (w : world) :
  let w' := snd (Scheduler.cycle_handler e ex w) in
  (Scheduler.rollback_outcome e = Ok tt -> pending w' = [])
  /\ (forall ex', Scheduler.rollback_outcome e = Raise ex' ->
        pending w' = pending w).
Proof.
  unfold Scheduler.cycle_handler, bindM, print, try_catch,
    session_rollback, ret.
  destruct (Scheduler.rollback_outcome e) as [[]|ex0]; cbn; split;
    intros; try reflexivity; discriminate.
Qed.

(** An exception raised by the body of a cycle is caught: the loop logs
    it, rolls the session back, stores nothing and sleeps. *)
Lemma cycle_failure_handled (e : Scheduler.env) (w w1 : world) (ex : exn) :
  Scheduler.cycle_body float_repr cfg e
    (snd (set_tick (Scheduler.utcnow e) w)) = (Raise ex, w1) ->
  let w' := snd (Scheduler.cycle float_repr cfg e w) in
  console w'
  = (console w1
       ++ [("ERROR in background read loop: " ++ exn_message ex)%string])%list
  /\ committed w' = committed w
  /\ (Scheduler.rollback_outcome e = Ok tt -> pending w' = [])
  /\ (forall ex', Scheduler.rollback_outcome e = Raise ex' ->
        pending w' = pending w1).
Proof.
  intro Hbody. cbv zeta.
  destruct (cycle_exception_logged float_repr cfg e w w1 ex Hbody)
    as [Hconsole Hcommitted].
  split; [exact Hconsole|]. split; [exact Hcommitted|].
  rewrite cycle_unfolded. cbv zeta. rewrite Hbody.
  cbn [snd time_sleep pending].
  apply cycle_handler_rolls_back.
Qed.

(** The reading branch raises in five cases and in no other: a query of
    the device raises, a value is null, the weather call lets an
    exception out, or the commit raises. *)
Lemma read_and_store_raises_iff (e : Scheduler.env) (d : pin) (w : world)
      (ex : exn) :
  fst (Scheduler.read_and_store float_repr cfg e d w) = Raise ex
  <-> Scheduler.read_humidity e d = Raise ex
      \/ (exists hum, Scheduler.read_humidity e d = Ok hum
            /\ Scheduler.read_temperature e d = Raise ex)
      \/ (exists hum temp,
            Scheduler.read_humidity e d = Ok hum
            /\ Scheduler.read_temperature e d = Ok temp
            /\ (hum = None \/ temp = None)
            /\ ex = Exn RuntimeError "Null reading from DHT22.")
      \/ (exists h t,
            Scheduler.read_humidity e d = Ok (Some h)
            /\ Scheduler.read_temperature e d = Ok (Some t)
            /\ (Weather.get_weather_forecast Main6 (Scheduler.api_key cfg)
                  (Scheduler.reply e) = Raise ex
                \/ (is_ok (Weather.get_weather_forecast Main6
                             (Scheduler.api_key cfg) (Scheduler.reply e))
                    = true
                    /\ Scheduler.commit_outcome e = Raise ex))).
Proof.
  unfold Scheduler.read_and_store, bindM, lift, raise.
  destruct (Scheduler.read_humidity e d) as [[h|]|ex1];
    [destruct (Scheduler.read_temperature e d) as [[t|]|ex2];
     [destruct (Weather.get_weather_forecast Main6 (Scheduler.api_key cfg)
                  (Scheduler.reply e)) as [snap|ex3];
      [destruct (Analyzer.detect_anomaly float_repr Main6 t h
                   (Weather.external_temp snap)) as [[] reason];
       unfold session_add at 1; cbn beta iota;
       [ unfold session_add at 1; cbn beta iota;
         match goal with
         | |- context [Notifier.send_email_alert ?a ?b ?c ?x ?m ?w0] =>
             pose proof (send_email_alert_guarded a b c x m w0
                           ltac:(discriminate)) as Hg;
             destruct (Notifier.send_email_alert a b c x m w0) as [r w2];
             cbn [fst] in Hg; subst r
         end
       | unfold ret at 1 ];
       cbn beta iota; unfold session_commit, print;
       destruct (Scheduler.commit_outcome e) as [[]|ex4]
      |] | |]
    | destruct (Scheduler.read_temperature e d) as [[t|]|ex2] |];
    cbn [fst is_ok];
    (split;
     [ intro H; try discriminate H; inversion H; subst; eauto 15
     | intro H;
       repeat match goal with
         | H : _ \/ _ |- _ => destruct H
         | H : exists _, _ |- _ => destruct H
         | H : _ /\ _ |- _ => destruct H
         end; try discriminate; congruence ]).
Qed.

(** With both values read, the weather call returning and the commit
    working, the reading branch runs to its last line whatever the mail
    server does: reading and alert are stored, the session is empty, the
    line that reports the reading is the last one printed, and a failure
    of the mail server is in the lines of the notifier. *)
Lemma read_and_store_completes (e : Scheduler.env) (d : pin) (w : world)
      (t h : Q) (snap : Weather.snapshot) :
  Scheduler.read_humidity e d = Ok (Some h) ->
  Scheduler.read_temperature e d = Ok (Some t) ->
  Weather.get_weather_forecast Main6 (Scheduler.api_key cfg)
                               (Scheduler.reply e) = Ok snap ->
  Scheduler.commit_outcome e = Ok tt ->
  exists w1 lines,
    Scheduler.read_and_store float_repr cfg e d w = (Ok tt, w1)
    /\ committed w1
       = (committed w ++ pending w
            ++ RowReading {| temperature := t; humidity := h |}
            :: alert_rows float_repr Main6 t h
                 (Weather.external_temp snap))%list
    /\ pending w1 = []
    /\ console w1
       = (console w ++ lines
            ++ [("INFO: Logged reading: " ++ Py.fixed1 t
                   ++ Analyzer.degree Main6 ++ "C, "
                   ++ Py.fixed1 h ++ "%")%string])%list
    /\ (fst (Analyzer.detect_anomaly float_repr Main6 t h
               (Weather.external_temp snap)) = false -> lines = [])
    /\ (fst (Analyzer.detect_anomaly float_repr Main6 t h
               (Weather.external_temp snap)) = true ->
        Scheduler.credentials cfg = true ->
        forall ex,
          Notifier.smtp_connect (Scheduler.smtp e) = Raise ex
          \/ (Notifier.smtp_connect (Scheduler.smtp e) = Ok tt
              /\ Notifier.smtp_deliver (Scheduler.smtp e) = Raise ex) ->
          In ("ERROR sending email: " ++ exn_message ex)%string lines).
Proof.
  intros Hh Ht Hw Hc.
  unfold Scheduler.read_and_store, bindM, lift. rewrite Hh, Ht, Hw.
  cbn beta iota. unfold alert_rows.
  destruct (Analyzer.detect_anomaly float_repr Main6 t h
              (Weather.external_temp snap)) as [anomalous reason].
  rewrite Hc. unfold session_add at 1. cbn beta iota.
  destruct anomalous.
  - unfold session_add at 1. cbn beta iota.
    match goal with
    | |- context [Notifier.send_email_alert ?a ?b ?c ?x ?m ?w0] =>
        pose proof (send_email_alert_only_prints a b c x m w0) as Hp;
        pose proof (send_email_alert_guarded a b c x m w0
                      ltac:(discriminate)) as Hg;
        pose proof (fun ex => send_email_alert_logs_failure a c x m w0 ex)
          as Hlog;
        remember (Notifier.send_email_alert a b c x m w0) as out eqn:Hout;
        destruct out as [r w2]
    end.
    cbn [fst snd] in Hp, Hg. subst r.
    destruct Hp as (P1 & P2 & P3 & P4 & P5 & P6 & lines & P7).
    cbn in P2, P3, P7. unfold session_commit, print. cbn.
    eexists. exists lines. split; [reflexivity|]. cbn.
    rewrite P2, P3, P7, <- ?app_assoc. conjuncts; auto.
    + intro H. discriminate H.
    + intros _ Hcred ex Hfail. rewrite Hcred in Hout.
      destruct (Hlog ex Hfail) as (lines' & L1 & L2).
      rewrite <- Hout in L1. cbn in L1. rewrite P7 in L1.
      apply app_inv_head in L1. subst lines'. exact L2.
  - unfold session_commit, print, ret. cbn.
    eexists. exists []. split; [reflexivity|]. cbn.
    rewrite <- ?app_assoc. conjuncts; auto. intro H. discriminate H.
Qed.

(** The same for a whole cycle that starts with the device in hand. *)
Lemma cycle_completes (e : Scheduler.env) (w : world) (d : pin) (t h : Q)
      (snap : Weather.snapshot) :
  sensor w = Some d ->
  Scheduler.read_humidity e d = Ok (Some h) ->
  Scheduler.read_temperature e d = Ok (Some t) ->
  Weather.get_weather_forecast Main6 (Scheduler.api_key cfg)
                               (Scheduler.reply e) = Ok snap ->
  Scheduler.commit_outcome e = Ok tt ->
  let w' := snd (Scheduler.cycle float_repr cfg e w) in
  committed w'
  = (committed w ++ pending w
       ++ RowReading {| temperature := t; humidity := h |}
       :: alert_rows float_repr Main6 t h (Weather.external_temp snap))%list
  /\ pending w' = []
  /\ exists lines,
       console w'
       = (console w ++ lines
            ++ [("INFO: Logged reading: " ++ Py.fixed1 t
                   ++ Analyzer.degree Main6 ++ "C, "
                   ++ Py.fixed1 h ++ "%")%string])%list
       /\ (fst (Analyzer.detect_anomaly float_repr Main6 t h
                  (Weather.external_temp snap)) = false -> lines = [])
       /\ (fst (Analyzer.detect_anomaly float_repr Main6 t h
                  (Weather.external_temp snap)) = true ->
           Scheduler.credentials cfg = true ->
           forall ex,
             Notifier.smtp_connect (Scheduler.smtp e) = Raise ex
             \/ (Notifier.smtp_connect (Scheduler.smtp e) = Ok tt
                 /\ Notifier.smtp_deliver (Scheduler.smtp e) = Raise ex) ->
             In ("ERROR sending email: " ++ exn_message ex)%string lines).
Proof.
  intros Hs Hh Ht Hw Hc. cbv zeta.
  rewrite cycle_unfolded. cbv zeta.
  set (w0 := snd (set_tick (Scheduler.utcnow e) w)).
  rewrite (cycle_body_with_device float_repr cfg e w0 d Hs).
  destruct (read_and_store_completes e d w0 t h snap Hh Ht Hw Hc)
    as (w1 & lines & Heq & C1 & C2 & C3 & C4 & C5).
  rewrite Heq. cbn [snd time_sleep committed pending console].
  split; [exact C1|]. split; [exact C2|].
  exists lines. auto.
Qed.

(** A cycle that ends without a device has not raised: the warning is
    the last line printed and the store and the session are as they
    were. *)
Lemma cycle_skipped (e : Scheduler.env) (w : world) :
  let w' := snd (Scheduler.cycle float_repr cfg e w) in
  sensor w' = None ->
  fst (Scheduler.cycle_body float_repr cfg e
         (snd (set_tick (Scheduler.utcnow e) w))) = Ok tt
  /\ committed w' = committed w /\ pending w' = pending w
  /\ exists lines,
       console w'
       = (console w ++ lines
            ++ ["WARN: Sensor not initialized; will retry next cycle."])%list.
Proof.
  cbv zeta. rewrite cycle_unfolded. cbv zeta.
  set (w0 := snd (set_tick (Scheduler.utcnow e) w)).
  pose proof (cycle_body_frame float_repr cfg e w0) as (_ & B2 & _ & _ & B5).
  destruct (sensor w0) as [d|] eqn:Hs0.
  - (* the handle is kept: the premise is absurd *)
    destruct (B2 d eq_refl) as [Hkeep _].
    destruct (Scheduler.cycle_body float_repr cfg e w0) as [[[]|ex] w1];
      cbn [fst snd] in *; intro Hnone;
      cbn [snd time_sleep sensor] in Hnone.
    + congruence.
    + pose proof (cycle_handler_effect e ex w1) as (_ & _ & _ & H4 & _).
      congruence.
  - rewrite (cycle_body_without_device float_repr cfg e w0 Hs0) in *.
    destruct (try_init_sensor_console e w0) as [lines Hlines].
    destruct (try_init_sensor_frame cfg e w0)
      as (wi & Heq & A1 & A2 & _).
    rewrite Heq in *. cbn [snd] in *.
    destruct (sensor wi) as [d|] eqn:Hsi.
    + pose proof (read_and_store_frame float_repr cfg e d wi) as (F1 & _).
      destruct (Scheduler.read_and_store float_repr cfg e d wi)
        as [[[]|ex] w1]; cbn [fst snd] in *; intro Hnone;
        cbn [snd time_sleep sensor] in Hnone.
      * congruence.
      * pose proof (cycle_handler_effect e ex w1) as (_ & _ & _ & H4 & _).
        congruence.
    + intros _. cbn. split; [reflexivity|].
      split; [exact A1|]. split; [exact A2|].
      exists lines. rewrite Hlines, <- app_assoc. reflexivity.
Qed.

(** The discovery does not look at the weather service. *)
Lemma try_candidates_with_reply (e : Scheduler.env)
      (r : Weather.http_reply) (cands : list (string * pin)) (w : world) :
  Scheduler.try_candidates (Scheduler.with_reply e r) cands w
  = Scheduler.try_candidates e cands w.
Proof.
  revert w. induction cands as [|[name p] cands IH]; intro w; [reflexivity|].
  cbn [Scheduler.try_candidates]. unfold bindM, try_catch.
  cbn [Scheduler.with_reply Scheduler.dht_create Scheduler.dht_probe].
  match goal with
  | |- match (match ?x with _ => _ end) with _ => _ end = _ =>
      destruct x as [[[]|ex] w1]
  end; try reflexivity; apply IH.
Qed.

(** Two answers of the weather service that give the same external
    temperature give the same cycle: nothing else of the answer is read,
    printed or stored. *)
Lemma cycle_reads_only_the_external_temperature
      (e : Scheduler.env) (r r' : Weather.http_reply)
      (s s' : Weather.snapshot) (w : world) :
  Weather.get_weather_forecast Main6 (Scheduler.api_key cfg) r = Ok s ->
  Weather.get_weather_forecast Main6 (Scheduler.api_key cfg) r' = Ok s' ->
  Weather.external_temp s = Weather.external_temp s' ->
  Scheduler.cycle float_repr cfg (Scheduler.with_reply e r) w
  = Scheduler.cycle float_repr cfg (Scheduler.with_reply e r') w.
Proof.
  intros Hr Hr' Hext.
  assert (Hread : forall d w0,
            Scheduler.read_and_store float_repr cfg
              (Scheduler.with_reply e r) d w0
            = Scheduler.read_and_store float_repr cfg
                (Scheduler.with_reply e r') d w0).
  { intros d w0. unfold Scheduler.read_and_store, bindM, lift.
    cbn [Scheduler.with_reply Scheduler.read_humidity
         Scheduler.read_temperature Scheduler.reply Scheduler.smtp
         Scheduler.commit_outcome].
    rewrite Hr, Hr'. cbv zeta. rewrite Hext. reflexivity. }
  assert (Hinit : forall w0,
            Scheduler._try_init_sensor cfg (Scheduler.with_reply e r) w0
            = Scheduler._try_init_sensor cfg (Scheduler.with_reply e r') w0).
  { intro w0. unfold Scheduler._try_init_sensor, bindM.
    destruct (count_discovery w0) as [[[]|ex] w1]; [|reflexivity].
    destruct (negb (Scheduler.SENSOR_AVAILABLE cfg)); [reflexivity|].
    rewrite !try_candidates_with_reply. reflexivity. }
  assert (Hbody : forall w0,
            Scheduler.cycle_body float_repr cfg (Scheduler.with_reply e r) w0
            = Scheduler.cycle_body float_repr cfg
                (Scheduler.with_reply e r') w0).
  { intro w0. unfold Scheduler.cycle_body, bindM, Scheduler.get_sensor, ret.
    destruct (sensor w0) as [d|].
    - cbn beta iota. destruct (sensor w0); [apply Hread | reflexivity].
    - rewrite Hinit.
      destruct (Scheduler._try_init_sensor cfg (Scheduler.with_reply e r') w0)
        as [[[]|ex] w1]; [|reflexivity].
      destruct (sensor w1); [apply Hread | reflexivity]. }
  rewrite !cycle_unfolded. cbv zeta.
  cbn [Scheduler.with_reply Scheduler.utcnow]. rewrite Hbody. reflexivity.
Qed.

(** Every answer of the weather service but a 200 is handed on as "no
    external temperature", and so is a 200 without a temperature. *)
Lemma weather_failure_is_no_temperature (api_key : string)
      (r : Weather.http_reply) :
  (forall t, r <> Weather.Reply200 t) ->
  exists s,
    Weather.get_weather_forecast Main6 api_key r = Ok s
    /\ Weather.external_temp s = None.
Proof.
  intro Hr. unfold Weather.get_weather_forecast.
  destruct (negb (Weather.api_key_usable Main6 api_key));
    [eexists; split; reflexivity|].
  destruct r as [msg | t | code [msg|msg|ex]];
    [ | exfalso; apply (Hr t); reflexivity | | | ];
    eexists; split; reflexivity.
Qed.

Lemma weather_null_is_no_temperature (api_key : string) :
  exists s,
    Weather.get_weather_forecast Main6 api_key
      (Weather.Reply200 (Some None)) = Ok s
    /\ Weather.external_temp s = None.
Proof.
  unfold Weather.get_weather_forecast.
  destruct (negb (Weather.api_key_usable Main6 api_key));
    eexists; split; reflexivity.
Qed.

End SchedulerFailureFacts.

(* ===================================================================== *)
(** * The scheduler and the store: the stated properties                  *)
(* ===================================================================== *)

(** C4, as the code has it: no cycle can stop the loop, and every cycle
    ends by sleeping the fixed interval. An exception raised inside the
    cycle is caught and logged by the loop, the session is rolled back and
    the cycle ends without storing anything; with the device in hand these
    exceptions are exactly: a query of the device raises, a value read is
    null, an exception leaves the weather call, the commit raises. A
    sensor that cannot be initialised is logged and the cycle is skipped
    without an exception. A failure reported by the weather provider and
    a failure of the mail server are not such exceptions: the first is
    passed on as "no external temperature" and leaves no other trace (the
    cycle is the one of a good answer without a temperature), the second
    is logged inside the notifier, and in both cases the cycle runs to
    its last line with the reading, and the alert, committed. *)
Theorem background_loop_survives_every_cycle
        (float_repr : Q -> string) (cfg : Scheduler.config) :
  (forall envs n i w,
     fst (Scheduler._background_reader float_repr cfg envs n i w) = Ok tt)
  /\ (forall envs n i w,
        exists added,
          slept (snd (Scheduler._background_reader float_repr cfg envs n i w))
          = (slept w ++ added)%list
          /\ (n <= List.length added)%nat)
  /\ (forall e w,
        fst (Scheduler.cycle float_repr cfg e w) = Ok tt
        /\ exists k,
             slept (snd (Scheduler.cycle float_repr cfg e w))
             = (slept w ++ repeat 1%Q k
                  ++ [Scheduler.READ_INTERVAL_SEC cfg])%list)
  /\ (forall e w w1 ex,
        Scheduler.cycle_body float_repr cfg e
          (snd (set_tick (Scheduler.utcnow e) w)) = (Raise ex, w1) ->
        let w' := snd (Scheduler.cycle float_repr cfg e w) in
        console w'
        = (console w1
             ++ [("ERROR in background read loop: " ++ exn_message ex)%string])%list
        /\ committed w' = committed w
        /\ (Scheduler.rollback_outcome e = Ok tt -> pending w' = [])
        /\ (forall ex', Scheduler.rollback_outcome e = Raise ex' ->
              pending w' = pending w1))
  /\ (forall e w d ex,
        sensor w = Some d ->
        fst (Scheduler.cycle_body float_repr cfg e
               (snd (set_tick (Scheduler.utcnow e) w))) = Raise ex
        <-> Scheduler.read_humidity e d = Raise ex
            \/ (exists hum, Scheduler.read_humidity e d = Ok hum
                  /\ Scheduler.read_temperature e d = Raise ex)
            \/ (exists hum temp,
                  Scheduler.read_humidity e d = Ok hum
                  /\ Scheduler.read_temperature e d = Ok temp
                  /\ (hum = None \/ temp = None)
                  /\ ex = Exn RuntimeError "Null reading from DHT22.")
            \/ (exists h t,
                  Scheduler.read_humidity e d = Ok (Some h)
                  /\ Scheduler.read_temperature e d = Ok (Some t)
                  /\ (Weather.get_weather_forecast Main6
                        (Scheduler.api_key cfg) (Scheduler.reply e)
                      = Raise ex
                      \/ (is_ok (Weather.get_weather_forecast Main6
                                   (Scheduler.api_key cfg)
                                   (Scheduler.reply e)) = true
                          /\ Scheduler.commit_outcome e = Raise ex))))
  /\ (forall e w,
        let w' := snd (Scheduler.cycle float_repr cfg e w) in
        sensor w' = None ->
        fst (Scheduler.cycle_body float_repr cfg e
               (snd (set_tick (Scheduler.utcnow e) w))) = Ok tt
        /\ committed w' = committed w /\ pending w' = pending w
        /\ exists lines,
             console w'
             = (console w ++ lines
                  ++ ["WARN: Sensor not initialized; will retry next cycle."])%list)
  /\ (forall api_key r,
        (forall t, r <> Weather.Reply200 t) ->
        exists snapshot,
          Weather.get_weather_forecast Main6 api_key r = Ok snapshot
          /\ Weather.external_temp snapshot = None)
  /\ (forall e w r,
        (forall t, r <> Weather.Reply200 t) ->
        Scheduler.cycle float_repr cfg (Scheduler.with_reply e r) w
        = Scheduler.cycle float_repr cfg
            (Scheduler.with_reply e (Weather.Reply200 (Some None))) w)
  /\ (forall credentials receiver server msg w,
        fst (Notifier.send_email_alert Main6 credentials receiver server msg w)
        = Ok tt)
  /\ (forall e w d t h snap,
        sensor w = Some d ->
        Scheduler.read_humidity e d = Ok (Some h) ->
        Scheduler.read_temperature e d = Ok (Some t) ->
        Weather.get_weather_forecast Main6 (Scheduler.api_key cfg)
                                     (Scheduler.reply e) = Ok snap ->
        Scheduler.commit_outcome e = Ok tt ->
        let w' := snd (Scheduler.cycle float_repr cfg e w) in
        committed w'
        = (committed w ++ pending w
             ++ RowReading {| temperature := t; humidity := h |}
             :: alert_rows float_repr Main6 t h
                  (Weather.external_temp snap))%list
        /\ pending w' = []
        /\ exists lines,
             console w'
             = (console w ++ lines
                  ++ [("INFO: Logged reading: " ++ Py.fixed1 t
                         ++ Analyzer.degree Main6 ++ "C, "
                         ++ Py.fixed1 h ++ "%")%string])%list
             /\ (fst (Analyzer.detect_anomaly float_repr Main6 t h
                        (Weather.external_temp snap)) = false ->
                 lines = [])
             /\ (fst (Analyzer.detect_anomaly float_repr Main6 t h
                        (Weather.external_temp snap)) = true ->
                 Scheduler.credentials cfg = true ->
                 forall ex,
                   Notifier.smtp_connect (Scheduler.smtp e) = Raise ex
                   \/ (Notifier.smtp_connect (Scheduler.smtp e) = Ok tt
                       /\ Notifier.smtp_deliver (Scheduler.smtp e)
                          = Raise ex) ->
                   In ("ERROR sending email: " ++ exn_message ex)%string
                      lines)).
Proof.
  conjuncts.
  - intros envs n i w. apply (background_reader_runs float_repr cfg envs n i w).
  - intros envs n i w. apply (background_reader_runs float_repr cfg envs n i w).
  - intros e w. apply cycle_always_sleeps.
  - intros e w w1 ex. apply cycle_failure_handled.
  - intros e w d ex Hs.
    rewrite (cycle_body_with_device float_repr cfg e
               (snd (set_tick (Scheduler.utcnow e) w)) d Hs).
    apply read_and_store_raises_iff.
  - intros e w. apply cycle_skipped.
  - intros api_key r. apply weather_failure_is_no_temperature.
  - intros e w r Hr.
    destruct (weather_failure_is_no_temperature (Scheduler.api_key cfg) r Hr)
      as (s & Hs & Hext).
    destruct (weather_null_is_no_temperature (Scheduler.api_key cfg))
      as (s' & Hs' & Hext').
    apply (cycle_reads_only_the_external_temperature
             float_repr cfg e r _ s s' w Hs Hs').
    congruence.
  - intros credentials receiver server msg w.
    apply send_email_alert_guarded. discriminate.
  - intros e w d t h snap. apply cycle_completes.
Qed.

(** C4 at work: the read of the adopted device raises; the loop logs the
    error, rolls the session back, stores nothing and goes on. *)
Lemma background_loop_survives_every_cycle_witness :
  console (snd (Scheduler.cycle repr_tenths Examples.scheduler_config
                  Examples.cycle_read_fails Examples.world_adopted))
  = ["ERROR in background read loop: DHT sensor not found, check wiring"]
  /\ committed (snd (Scheduler.cycle repr_tenths Examples.scheduler_config
                       Examples.cycle_read_fails Examples.world_adopted))
     = []
  /\ pending (snd (Scheduler.cycle repr_tenths Examples.scheduler_config
                     Examples.cycle_read_fails Examples.world_adopted))
     = [].
Proof.
  destruct (background_loop_survives_every_cycle
              repr_tenths Examples.scheduler_config)
    as (_ & _ & _ & Hlogged & _).
  destruct (Hlogged Examples.cycle_read_fails Examples.world_adopted
              (snd (Scheduler.cycle_body repr_tenths
                      Examples.scheduler_config Examples.cycle_read_fails
                      (snd (set_tick 0 Examples.world_adopted))))
              (Exn RuntimeError "DHT sensor not found, check wiring")
              eq_refl) as (H1 & H2 & H3 & _).
  conjuncts; [exact H1 | exact H2 | apply H3; reflexivity].
Defined.


(** C4 as stated fails for two of the failures it lists: when the weather
    request times out the cycle stores the reading and logs no error, and
    when the mail server drops the connection the cycle stores the reading
    and the alert. *)
Lemma weather_or_mail_failure_does_not_end_cycle :
  let after_weather :=
    snd (Scheduler.cycle repr_tenths Examples.scheduler_config
           Examples.cycle_weather_down Examples.world_adopted) in
  let after_mail :=
    snd (Scheduler.cycle repr_tenths Examples.scheduler_config
           Examples.cycle_mail_down Examples.world_adopted) in
  committed after_weather
  = [RowReading {| temperature := 3; humidity := 92 |}]
  /\ console after_weather
     = [("INFO: Logged reading: 3.0" ++ Analyzer.degree Main6
           ++ "C, 92.0%")%string]
  /\ List.length (committed after_mail) = 2%nat
  /\ hd_error (committed after_mail)
     = Some (RowReading {| temperature := 10; humidity := 92 |})
  /\ In "ERROR sending email: Connection unexpectedly closed"
        (console after_mail).
Proof.
  cbv zeta. conjuncts; try reflexivity.
  vm_compute. right. left. reflexivity.
Qed.

(** C5, as the code has it: an adopted device is kept by every later
    cycle, whether its reads succeed or fail, and no discovery is run
    while it is held; without a device every cycle runs the discovery
    once, and when no candidate can be created and probed the handle stays
    empty and the cycle is skipped without stopping the loop, so that the
    next cycle tries again. A device that is adopted is a candidate whose
    creation and trial read worked. *)
Theorem adopted_device_is_kept
        (float_repr : Q -> string) (cfg : Scheduler.config) :
  (forall e w d,
     sensor w = Some d ->
     fst (Scheduler.cycle float_repr cfg e w) = Ok tt
     /\ sensor (snd (Scheduler.cycle float_repr cfg e w)) = Some d
     /\ discoveries (snd (Scheduler.cycle float_repr cfg e w))
        = discoveries w)
  /\ (forall envs n i w d,
        sensor w = Some d ->
        sensor (snd (Scheduler._background_reader float_repr cfg envs n i w))
        = Some d
        /\ discoveries
             (snd (Scheduler._background_reader float_repr cfg envs n i w))
           = discoveries w)
  /\ (forall e w,
        sensor w = None ->
        fst (Scheduler.cycle float_repr cfg e w) = Ok tt
        /\ discoveries (snd (Scheduler.cycle float_repr cfg e w))
           = S (discoveries w))
  /\ (forall e w,
        sensor w = None ->
        (forall name p, In (name, p) (Scheduler.candidates cfg) ->
           is_ok (Scheduler.dht_create e p)
           && is_ok (Scheduler.dht_probe e p) = false) ->
        sensor (snd (Scheduler.cycle float_repr cfg e w)) = None
        /\ committed (snd (Scheduler.cycle float_repr cfg e w))
           = committed w)
  /\ (forall e w p,
        sensor w = None ->
        sensor (snd (Scheduler.cycle float_repr cfg e w)) = Some p ->
        exists name, In (name, p) (Scheduler.candidates cfg)
          /\ Scheduler.dht_create e p = Ok tt
          /\ Scheduler.dht_probe e p = Ok tt).
Proof.
  conjuncts.
  - intros e w d Hd.
    pose proof (cycle_always_sleeps float_repr cfg e w) as [Hok _].
    pose proof (cycle_handle float_repr cfg e w) as (Hkeep & _).
    destruct (Hkeep d Hd). auto.
  - intros envs n i w d Hd.
    apply (background_reader_runs float_repr cfg envs n i w). exact Hd.
  - intros e w Hn.
    pose proof (cycle_always_sleeps float_repr cfg e w) as [Hok _].
    pose proof (cycle_handle float_repr cfg e w) as (_ & Hdisc & _).
    auto.
  - intros e w Hn Hall.
    pose proof (cycle_handle float_repr cfg e w) as (_ & _ & Hskip & Hfail & _).
    split; [apply Hfail; assumption|]. apply Hskip, Hfail; assumption.
  - intros e w p Hn Hp.
    pose proof (cycle_handle float_repr cfg e w) as (_ & _ & _ & _ & Hadopt).
    apply Hadopt; assumption.
Qed.

(** C5 at work: with the device on pin D4 adopted, a cycle whose read
    raises keeps it; with no device on any pin, the handle stays empty. *)
Lemma adopted_device_is_kept_witness :
  (sensor (snd (Scheduler.cycle repr_tenths Examples.scheduler_config
                  Examples.cycle_read_fails Examples.world_adopted))
   = Some 4%nat
   /\ discoveries (snd (Scheduler.cycle repr_tenths Examples.scheduler_config
                          Examples.cycle_read_fails Examples.world_adopted))
      = 1%nat)
  /\ (sensor (snd (Scheduler.cycle repr_tenths Examples.scheduler_config
                     Examples.cycle_no_device Examples.world0)) = None
      /\ committed (snd (Scheduler.cycle repr_tenths Examples.scheduler_config
                           Examples.cycle_no_device Examples.world0)) = []).
Proof.
  destruct (adopted_device_is_kept repr_tenths Examples.scheduler_config)
    as (Hkeep & _ & _ & Hfail & _).
  split.
  - apply (Hkeep Examples.cycle_read_fails Examples.world_adopted 4%nat).
    reflexivity.
  - apply (Hfail Examples.cycle_no_device Examples.world0).
    + reflexivity.
    + intros name p _. reflexivity.
Defined.


(** C5 as stated fails on a read failure: the cycle is skipped and
    logged, but the handle still holds the device, and the next cycle
    reads from it without any new discovery. *)
Lemma read_failure_keeps_the_handle :
  let after_failure :=
    snd (Scheduler.cycle repr_tenths Examples.scheduler_config
           Examples.cycle_read_fails Examples.world_adopted) in
  let after_next :=
    snd (Scheduler.cycle repr_tenths Examples.scheduler_config
           Examples.cycle_weather_down after_failure) in
  sensor Examples.world_adopted = Some 4%nat
  /\ console after_failure
     = ["ERROR in background read loop: DHT sensor not found, check wiring"]
  /\ committed after_failure = []
  /\ sensor after_failure = Some 4%nat
  /\ sensor after_failure <> None
  /\ discoveries after_next = discoveries Examples.world_adopted
  /\ committed after_next
     = [RowReading {| temperature := 3; humidity := 92 |}].
Proof.
  cbv zeta. conjuncts; try reflexivity. discriminate.
Qed.




(* ===================================================================== *)
(** * Further properties of the analysis                                  *)
(* ===================================================================== *)

Section AnalyzerMore.
Variable float_repr : Q -> string.
Variable file : source_file.

Local Open Scope Q_scope.

(** The external term is the only difference between the score with and
    without an external temperature. *)
Lemma risk_score_external_term (t h x : Q) :
  Analyzer.risk_score t h (Some x)
  == Analyzer.risk_score t h None
     + (if Py.gt x 25 then (x - 25) * 1.5 else 0).
Proof.
  rewrite !risk_score_is_spec_score. unfold Analyzer.spec_score. ring.
Qed.

Lemma external_term_nonneg (x : Q) :
  0 <= (if Py.gt x 25 then (x - 25) * 1.5 else 0).
Proof. case_comparisons; lra. Qed.

(** Up to 25 degrees outside the risk is the one without weather. *)
Lemma external_heat_never_lowers_risk_aux (t h x : Q) :
  x <= 25 ->
  Analyzer.predict_spoilage t h (Some x) = Analyzer.predict_spoilage t h None.
Proof.
  intro Hx. pose proof (risk_score_external_term t h x) as Hterm.
  apply gt_false in Hx. rewrite Hx in Hterm.
  assert (Hsame : Analyzer.risk_score t h (Some x)
                  == Analyzer.risk_score t h None) by (rewrite Hterm; ring).
  unfold Analyzer.predict_spoilage.
  assert (Hgt : forall b, Py.gt (Analyzer.risk_score t h (Some x)) b
                          = Py.gt (Analyzer.risk_score t h None) b).
  { intro b. unfold Py.gt. rewrite Hsame. reflexivity. }
  rewrite !Hgt. reflexivity.
Qed.

(** X1: the score is never negative, and it is zero exactly when the
    temperature is in [0,4], the humidity in [85,95] and the external
    temperature absent or at most 25 degrees. *)
Theorem risk_score_zero_exactly_in_safe_ranges (t h : Q) (e : option Q) :
  0 <= Analyzer.risk_score t h e
  /\ (Analyzer.risk_score t h e == 0
      <-> (0 <= t /\ t <= 4) /\ (85 <= h /\ h <= 95)
          /\ match e with Some x => x <= 25 | None => True end).
Proof.
  rewrite risk_score_is_spec_score. unfold Analyzer.spec_score.
  assert (Habs : t < 0 -> Qabs t == - t)
    by (intro Ht; apply Qabs_neg; lra).
  destruct e as [x|]; case_comparisons;
    try (rewrite Habs by assumption);
    (split; [lra|]); (split; [intro H | intros [[? ?] [[? ?] ?]]]);
    try lra; repeat split; try lra; exact I.
Qed.

(** X2: an external temperature never lowers the risk: the score with it
    is at least the score without it, a High risk stays High, a Low risk
    with it is Low without it, and up to 25 degrees it changes nothing. *)
Theorem external_heat_never_lowers_risk (t h x : Q) :
  Analyzer.risk_score t h None <= Analyzer.risk_score t h (Some x)
  /\ (Analyzer.predict_spoilage t h None = "High"%string ->
      Analyzer.predict_spoilage t h (Some x) = "High"%string)
  /\ (Analyzer.predict_spoilage t h (Some x) = "Low"%string ->
      Analyzer.predict_spoilage t h None = "Low"%string)
  /\ (x <= 25 ->
      Analyzer.predict_spoilage t h (Some x)
      = Analyzer.predict_spoilage t h None).
Proof.
  pose proof (risk_score_external_term t h x) as Hterm.
  pose proof (external_term_nonneg x) as Hpos.
  pose proof (predict_spoilage_bucket t h None) as (N1 & N2 & N3).
  pose proof (predict_spoilage_bucket t h (Some x)) as (S1 & S2 & S3).
  cbv zeta in N1, N2, N3, S1, S2, S3.
  split; [rewrite Hterm; lra|].
  split; [intro H; apply S1; apply N1 in H; rewrite Hterm; lra|].
  split; [intro H; apply N3; apply S3 in H; rewrite Hterm in H; lra|].
  apply external_heat_never_lowers_risk_aux.
Qed.

Lemma NORMAL_TEMP_MAX_monotone (x y : Q) :
  x <= y ->
  Analyzer.NORMAL_TEMP_MAX (Some x) <= Analyzer.NORMAL_TEMP_MAX (Some y).
Proof.
  intro Hxy.
  destruct (Qlt_le_dec 20 x) as [Hx | Hx];
    destruct (Qlt_le_dec 20 y) as [Hy | Hy].
  - rewrite (NORMAL_TEMP_MAX_warm x Hx), (NORMAL_TEMP_MAX_warm y Hy).
    unfold Qdiv. change (/ 5) with (1 # 5). lra.
  - lra.
  - rewrite (NORMAL_TEMP_MAX_cool x Hx), (NORMAL_TEMP_MAX_warm y Hy).
    unfold Qdiv. change (/ 5) with (1 # 5). lra.
  - rewrite (NORMAL_TEMP_MAX_cool x Hx), (NORMAL_TEMP_MAX_cool y Hy). lra.
Qed.

(** X3: heat outside only widens the envelope: the upper temperature
    bound grows with the external temperature and never falls below 4, so
    a reading flagged at some external temperature is flagged at every
    lower one and without any. *)
Theorem hotter_outside_never_flags_more (t h x y : Q) :
  4 <= Analyzer.NORMAL_TEMP_MAX (Some x)
  /\ (x <= y ->
      Analyzer.NORMAL_TEMP_MAX (Some x) <= Analyzer.NORMAL_TEMP_MAX (Some y))
  /\ (fst (Analyzer.detect_anomaly float_repr file t h (Some x)) = true ->
      fst (Analyzer.detect_anomaly float_repr file t h None) = true)
  /\ (x <= y ->
      fst (Analyzer.detect_anomaly float_repr file t h (Some y)) = true ->
      fst (Analyzer.detect_anomaly float_repr file t h (Some x)) = true).
Proof.
  pose proof (NORMAL_TEMP_MAX_at_least_base (Some x)) as Hbase.
  split; [exact Hbase|]. split; [apply NORMAL_TEMP_MAX_monotone|].
  split.
  - intro H. apply (detect_anomaly_verdict float_repr file) in H.
    apply (detect_anomaly_verdict float_repr file).
    rewrite NORMAL_TEMP_MAX_none.
    destruct H as [H | H]; [left | right; exact H].
    intros [H1 H2]. apply H. split; lra.
  - intros Hxy H. pose proof (NORMAL_TEMP_MAX_monotone x y Hxy) as Hmono.
    apply (detect_anomaly_verdict float_repr file) in H.
    apply (detect_anomaly_verdict float_repr file).
    destruct H as [H | H]; [left | right; exact H].
    intros [H1 H2]. apply H. split; lra.
Qed.

(** X4: a reading that is not flagged, taken while the external
    temperature is absent or at most 25 degrees, scores at most 1 and is
    of Low risk. *)
Theorem normal_reading_in_mild_weather_is_low_risk (t h : Q) (e : option Q) :
  fst (Analyzer.detect_anomaly float_repr file t h e) = false ->
  match e with Some x => x <= 25 | None => True end ->
  Analyzer.risk_score t h e <= 1
  /\ Analyzer.predict_spoilage t h e = "Low"%string.
Proof.
  intros Hflag Hmild.
  assert (Hin : (0 <= t /\ t <= Analyzer.NORMAL_TEMP_MAX e)
                /\ (90 <= h /\ h <= 95)).
  { destruct (Qlt_le_dec t 0) as [A|A];
      [|destruct (Qlt_le_dec (Analyzer.NORMAL_TEMP_MAX e) t) as [B|B];
        [|destruct (Qlt_le_dec h 90) as [C|C];
          [|destruct (Qlt_le_dec 95 h) as [D|D]; [|repeat split; lra]]]];
      exfalso;
      assert (Hflag' : fst (Analyzer.detect_anomaly float_repr file t h e)
                       = true)
        by (apply detect_anomaly_verdict;
            first [ left; intros [? ?]; lra | right; intros [? ?]; lra ]);
      congruence. }
  destruct Hin as [[Ht1 Ht2] [Hh1 Hh2]].
  assert (Hmax : Analyzer.NORMAL_TEMP_MAX e <= 4 + (1 # 10)).
  { destruct e as [x|]; [|rewrite NORMAL_TEMP_MAX_none; lra].
    destruct (Qlt_le_dec 20 x) as [Hx | Hx].
    - rewrite (NORMAL_TEMP_MAX_warm x Hx).
      unfold Qdiv. change (/ 5) with (1 # 5). lra.
    - rewrite (NORMAL_TEMP_MAX_cool x Hx). lra. }
  assert (Hscore : Analyzer.risk_score t h e <= 1).
  { rewrite risk_score_is_spec_score. unfold Analyzer.spec_score.
    apply lt_false in Ht1.
    assert (H95 : Py.gt h 95 = false) by (apply gt_false; lra).
    assert (H85 : Py.lt h 85 = false) by (apply lt_false; lra).
    rewrite Ht1, H95, H85.
    assert (Hext : match e with
                   | Some x => if Py.gt x 25 then (x - 25) * 1.5 else 0
                   | None => 0
                   end == 0).
    { destruct e as [x|]; [|reflexivity].
      apply gt_false in Hmild. rewrite Hmild. reflexivity. }
    rewrite Hext. case_comparisons; lra. }
  split; [exact Hscore|].
  apply (predict_spoilage_bucket t h e). lra.
Qed.

(** X5: the analysis of main1.py is the later analysis without an
    external temperature: same risk, same verdict; and it is still the
    later analysis while the external temperature is at most 20 degrees
    (verdict) or 25 degrees (risk). *)
Theorem main1_analysis_is_the_no_weather_case (t h x : Q) :
  Main1.predict_spoilage t h = Analyzer.predict_spoilage t h None
  /\ fst (Main1.detect_anomaly float_repr t h)
     = fst (Analyzer.detect_anomaly float_repr file t h None)
  /\ (x <= 20 ->
      fst (Main1.detect_anomaly float_repr t h)
      = fst (Analyzer.detect_anomaly float_repr file t h (Some x)))
  /\ (x <= 25 ->
      Main1.predict_spoilage t h = Analyzer.predict_spoilage t h (Some x)).
Proof.
  assert (Hrisk : Main1.predict_spoilage t h
                  = Analyzer.predict_spoilage t h None) by reflexivity.
  assert (Hflag : forall e,
            Analyzer.NORMAL_TEMP_MAX e == 4 ->
            fst (Main1.detect_anomaly float_repr t h)
            = fst (Analyzer.detect_anomaly float_repr file t h e)).
  { intros e He.
    unfold Main1.detect_anomaly, Analyzer.detect_anomaly,
      Analyzer.NORMAL_TEMP_MIN, Analyzer.NORMAL_HUMIDITY_MIN,
      Analyzer.NORMAL_HUMIDITY_MAX.
    assert (Hle : Py.le t (Analyzer.NORMAL_TEMP_MAX e) = Py.le t 4)
      by (unfold Py.le; rewrite He; reflexivity).
    rewrite Hle.
    destruct (Py.le 0 t), (Py.le t 4), (Py.le 90 h), (Py.le h 95);
      reflexivity. }
  split; [exact Hrisk|].
  split; [apply Hflag, NORMAL_TEMP_MAX_none|].
  split; [intro Hx; apply Hflag, NORMAL_TEMP_MAX_cool, Hx|].
  intro Hx. rewrite Hrisk. symmetry.
  apply (external_heat_never_lowers_risk_aux t h x Hx).
Qed.

End AnalyzerMore.

(** X4 at work: 4.05 degrees and 92 percent at 24 degrees outside. *)
Lemma normal_reading_in_mild_weather_is_low_risk_witness :
  (Analyzer.risk_score 4.05 92 (Some 24) <= 1)%Q
  /\ Analyzer.predict_spoilage 4.05 92 (Some 24) = "Low"%string.
Proof.
  apply (normal_reading_in_mild_weather_is_low_risk repr_tenths Delta
           4.05 92 (Some 24%Q)).
  - reflexivity.
  - vm_compute. discriminate.
Defined.

(* ===================================================================== *)
(** * Further properties of the weather call and of the notifier          *)
(* ===================================================================== *)

(** X6: the external temperature handed to the analysis is a number only
    when the API key is usable and the reply is a 200 carrying one; every
    error answer of the provider carries no temperature, so that the test
    of its error field never changes the value. The call raises only on a
    200 whose payload lacks a field, and in delta.py also on an error
    status whose body is JSON but not an object; a body that is not JSON
    at all makes no file raise: delta.py reports it as a network error,
    main5.py and main6.py by the status code. *)
Theorem external_temperature_only_from_a_good_reply
        (f : source_file) (api_key : string) (reply : Weather.http_reply) :
  (forall snap,
     Weather.get_weather_forecast f api_key reply = Ok snap ->
     Weather.external_temp snap = Weather.w_temperature snap
     /\ (forall t,
           Weather.external_temp snap = Some t
           <-> Weather.api_key_usable f api_key = true
               /\ reply = Weather.Reply200 (Some (Some t))))
  /\ (is_ok (Weather.get_weather_forecast f api_key reply) = false
      <-> Weather.api_key_usable f api_key = true
          /\ (reply = Weather.Reply200 None
              \/ (f = Delta
                  /\ exists code ex,
                       reply = Weather.ReplyStatus code
                                 (Weather.BodyNotAnObject ex))))
  /\ (forall code msg,
        Weather.api_key_usable f api_key = true ->
        reply = Weather.ReplyStatus code (Weather.BodyUndecodable msg) ->
        Weather.get_weather_forecast f api_key reply
        = Ok {| Weather.w_temperature := None;
                Weather.w_error :=
                  Some (match f with
                        | Delta => "Network error fetching weather: " ++ msg
                        | Main5 | Main6 =>
                            "Weather API error: HTTP " ++ Py.decimal code
                        end) |}).
Proof.
  unfold Weather.get_weather_forecast.
  destruct (Weather.api_key_usable f api_key) eqn:Hkey; cbn [negb].
  - conjuncts.
    + intros snap Hsnap.
      destruct reply as [msg | [[t0|]|] | code [msg|msg|ex]];
        try destruct f; inversion Hsnap; subst; cbn;
        (split; [reflexivity|]); intro t; (split; [intro H | intros [_ H]]);
        try discriminate H; try (inversion H; subst; auto).
    + destruct reply as [msg | [[t0|]|] | code [msg|msg|ex]];
        try destruct f; cbn;
        (split;
         [ intro H; try discriminate H; (split; [reflexivity|]);
           first [ left; reflexivity
                 | right; split; [reflexivity|]; eexists _, _; reflexivity ]
         | intros [_ [H | [Hf (c & x & H)]]];
           try discriminate H; try discriminate Hf; reflexivity ]).
    + intros code msg _ ->. destruct f; reflexivity.
  - conjuncts.
    + intros snap Hsnap. inversion Hsnap; subst; cbn.
      split; [reflexivity|]. intro t.
      split; [intro H; discriminate H | intros [H _]; discriminate H].
    + cbn. split; [intro H; discriminate H | intros [H _]; discriminate H].
    + intros code msg H. discriminate H.
Qed.

(** X7: the notifier changes nothing but the console, whatever the mail
    server does; without the three credentials it contacts no server and
    prints the banner and the skip line only. *)
Theorem notifier_only_prints
        (f : source_file) (credentials : bool) (receiver : string)
        (server : Notifier.smtp) (msg : string) (w : world) :
  let out :=
    Notifier.send_email_alert f credentials receiver server msg w in
  only_prints w (snd out)
  /\ (credentials = false ->
      out
      = (Ok tt,
         {| sensor := sensor w; committed := committed w;
            pending := pending w;
            console :=
              (console w
                 ++ [(Notifier.rule20 ++ Notifier.nl
                        ++ "EMAIL ALERT TRIGGERED: " ++ msg
                        ++ Notifier.nl ++ Notifier.rule20)%string;
                     "DEBUG: Email credentials not set. Skipping email."])%list;
            slept := slept w;
            last_background_tick := last_background_tick w;
            discoveries := discoveries w |})).
Proof.
  cbv zeta. split; [apply send_email_alert_only_prints|].
  intros ->. unfold Notifier.send_email_alert, bindM, print. cbn.
  rewrite <- app_assoc. reflexivity.
Qed.

(** X8: the notifier lets an exception out in delta.py only, and there
    exactly when the credentials are set, the connection was made and the
    closing QUIT raises: the exception is the one of QUIT. A failure to
    connect or to deliver never leaves it, in any file. *)
Theorem notifier_raises_only_on_unguarded_quit
        (f : source_file) (credentials : bool) (receiver : string)
        (server : Notifier.smtp) (msg : string) (w : world) :
  fst (Notifier.send_email_alert f credentials receiver server msg w)
  = match f with
    | Delta =>
        if credentials && is_ok (Notifier.smtp_connect server)
        then Notifier.smtp_quit server else Ok tt
    | Main5 | Main6 => Ok tt
    end.
Proof.
  destruct f.
  - apply send_email_alert_delta_outcome.
  - apply send_email_alert_guarded. discriminate.
  - apply send_email_alert_guarded. discriminate.
Qed.

(* ===================================================================== *)
(** * Further properties of manual entry                                  *)
(* ===================================================================== *)

Section ManualMore.
Variable py_float : string -> option Q.
Variable float_repr : Q -> string.

Local Opaque Notifier.send_email_alert Analyzer.detect_anomaly.

(** A field of the form as [add_data] reads it. *)
Local Abbreviation field form key :=
  (bind (Manual.form_get form key) (Manual.to_float py_float)).

(** X9: while the rollback works, add_data always answers: with the
    success body and code 200, or with an error body and code 400; in both
    cases no row is left pending in the session, and an error answer has
    stored nothing. *)
Theorem add_data_always_answers
        (f : source_file) (cfg : Manual.config) (e : Manual.env)
        (form : list (string * string)) (w : world) :
  Manual.rollback_outcome e = Ok tt ->
  exists resp w',
    Manual.add_data py_float float_repr f cfg e form w = (Ok resp, w')
    /\ pending w' = []
    /\ (resp = Manual.success
        \/ (Manual.status resp = "error" /\ Manual.status_code resp = 400%Z
            /\ committed w' = committed w)).
Proof.
  intro Hrb.
  destruct (Manual.add_data py_float float_repr f cfg e form w)
    as [r w'] eqn:Hrun.
  assert (Hshape : exists resp,
             r = Ok resp /\ pending w' = []
             /\ (resp = Manual.success
                 \/ (Manual.status resp = "error"
                     /\ Manual.status_code resp = 400%Z))).
  { revert Hrun.
    unfold Manual.add_data, try_catch, bindM, lift, Manual.to_float,
      session_add, session_commit, session_rollback, ret.
    rewrite Hrb.
    repeat (cbv beta iota zeta;
            match goal with
            | |- context [match ?x with _ => _ end] =>
                lazymatch x with
                | context [match _ with _ => _ end] => fail
                | _ => destruct x
                end
            end);
      cbv beta iota zeta; intro H; inversion H; subst;
      eexists; (split; [reflexivity|]); (split; [reflexivity|]);
      first [ left; reflexivity | right; split; reflexivity ]. }
  destruct Hshape as (resp & -> & Hpending & Hresp).
  exists resp, w'. split; [reflexivity|]. split; [exact Hpending|].
  destruct Hresp as [-> | [Hs Hc]]; [left; reflexivity|].
  right. split; [exact Hs|]. split; [exact Hc|].
  apply (add_data_error_stores_nothing py_float float_repr
           f cfg e form w w' resp Hrun Hs).
Qed.

(** X10: a form with a missing or unreadable temperature or humidity is
    turned down before anything else happens: nothing is printed, no time
    is spent, nothing is stored, and while the rollback works the answer
    is an error with code 400. *)
Theorem add_data_rejects_bad_fields
        (f : source_file) (cfg : Manual.config) (e : Manual.env)
        (form : list (string * string)) (w : world) :
  is_ok (field form "temperature") && is_ok (field form "humidity") = false ->
  let out := Manual.add_data py_float float_repr f cfg e form w in
  console (snd out) = console w
  /\ committed (snd out) = committed w
  /\ slept (snd out) = slept w
  /\ (Manual.rollback_outcome e = Ok tt ->
      exists ex,
        out = (Ok (Manual.error 400 ex),
               {| sensor := sensor w; committed := committed w;
                  pending := []; console := console w; slept := slept w;
                  last_background_tick := last_background_tick w;
                  discoveries := discoveries w |})).
Proof.
  intro Hbad. cbv zeta.
  unfold Manual.add_data, try_catch, bindM, lift, Manual.to_float,
    session_rollback, ret in *.
  unfold bind, Manual.to_float in Hbad.
  destruct (Manual.form_get form "temperature") as [ttext|ex1];
    [destruct (py_float ttext) as [t|]|];
    (destruct (Manual.form_get form "humidity") as [htext|ex2];
     [destruct (py_float htext) as [h|]|]);
    try discriminate Hbad;
    destruct (Manual.rollback_outcome e) as [[]|ex3]; cbn;
    repeat split; try (intro H; discriminate H);
    intros _; eexists; reflexivity.
Qed.

(** X11: in main5.py no behaviour of the mail server can keep a manual
    reading from being stored: when the two fields parse, the weather call
    returns and the commit works, the answer is the success body and the
    reading is stored with its alert. *)
Theorem main5_manual_entry_survives_the_mail_server
        (cfg : Manual.config) (e : Manual.env)
        (form : list (string * string)) (w : world)
        (ttext htext : string) (t h : Q) :
  Manual.form_get form "temperature" = Ok ttext ->
  py_float ttext = Some t ->
  Manual.form_get form "humidity" = Ok htext ->
  py_float htext = Some h ->
  is_ok (Weather.get_weather_forecast Main5 (Manual.api_key cfg)
                                      (Manual.reply e)) = true ->
  Manual.commit_outcome e = Ok tt ->
  let out := Manual.add_data py_float float_repr Main5 cfg e form w in
  fst out = Ok Manual.success
  /\ exists ext,
       committed (snd out)
       = (committed w ++ pending w
            ++ RowReading {| temperature := t; humidity := h |}
            :: alert_rows float_repr Main5 t h ext)%list.
Proof.
  intros Ht1 Ht2 Hh1 Hh2 Hw Hc. cbv zeta.
  pose proof (add_data_main5_notifier_cannot_block py_float float_repr
                cfg e form w ttext htext t h Ht1 Ht2 Hh1 Hh2 Hw Hc) as Hok.
  split; [exact Hok|].
  destruct (Manual.add_data py_float float_repr Main5 cfg e form w)
    as [r w'] eqn:Hrun.
  cbn [fst snd] in *. subst r.
  apply (add_data_success_stores py_float float_repr Main5 cfg e form w w'
           ttext htext t h Ht1 Ht2 Hh1 Hh2 Hrun).
Qed.

End ManualMore.

(** X9 at work: a form without humidity. *)
Lemma add_data_always_answers_witness :
  exists resp w',
    Manual.add_data float_of_literal repr_tenths Delta
      Examples.manual_config (Examples.manual_env Examples.smtp_ok)
      [("temperature", "3.0")] Examples.world0 = (Ok resp, w')
    /\ pending w' = []
    /\ (resp = Manual.success
        \/ (Manual.status resp = "error" /\ Manual.status_code resp = 400%Z
            /\ committed w' = committed Examples.world0)).
Proof.
  apply (add_data_always_answers float_of_literal repr_tenths Delta
           Examples.manual_config (Examples.manual_env Examples.smtp_ok)
           [("temperature", "3.0")] Examples.world0).
  reflexivity.
Defined.

(** X10 at work: a temperature that is not a number. *)
Lemma add_data_rejects_bad_fields_witness :
  console
    (snd (Manual.add_data float_of_literal repr_tenths Main5
            Examples.manual_config (Examples.manual_env Examples.smtp_ok)
            (Examples.form "warm" "92") Examples.world0)) = []
  /\ committed
       (snd (Manual.add_data float_of_literal repr_tenths Main5
               Examples.manual_config (Examples.manual_env Examples.smtp_ok)
               (Examples.form "warm" "92") Examples.world0)) = [].
Proof.
  destruct (add_data_rejects_bad_fields float_of_literal repr_tenths Main5
              Examples.manual_config (Examples.manual_env Examples.smtp_ok)
              (Examples.form "warm" "92") Examples.world0 eq_refl)
    as (Hconsole & Hcommitted & _).
  split; assumption.
Defined.

(** X11 at work: 10 degrees submitted while the mail server drops the
    connection. *)
Lemma main5_manual_entry_survives_the_mail_server_witness :
  fst (Manual.add_data float_of_literal repr_tenths Main5
         Examples.manual_config (Examples.manual_env Examples.smtp_dropped)
         (Examples.form "10" "92") Examples.world0) = Ok Manual.success.
Proof.
  apply (main5_manual_entry_survives_the_mail_server
           float_of_literal repr_tenths
           Examples.manual_config (Examples.manual_env Examples.smtp_dropped)
           (Examples.form "10" "92") Examples.world0
           "10" "92" 10%Q 92%Q);
    reflexivity.
Defined.

(* ===================================================================== *)
(** * Further properties of SensorReader.read and of read_sensor          *)
(* ===================================================================== *)

(** The two ways [read] can end. *)
Lemma read_cases (f : source_file) (prefer_ds18b20 : bool) (retries : Z)
      (delay_s : Q) (hw : nat -> Sensor.attempt) :
  let budget := Z.to_nat (Z.max 1 retries) in
  (exists k t h,
     (k < budget)%nat
     /\ (forall j, (j < k)%nat ->
           Sensor.succeeds f prefer_ds18b20 (hw j) = None)
     /\ Sensor.succeeds f prefer_ds18b20 (hw k) = Some (t, h)
     /\ Sensor.read f prefer_ds18b20 retries delay_s hw
        = (Ok (Py.round1 t, Py.round1 h),
           (Sensor.failed_attempts delay_s k 0 ++ [Sensor.EvAttempt k])%list))
  \/ ((forall j, (j < budget)%nat ->
         Sensor.succeeds f prefer_ds18b20 (hw j) = None)
      /\ Sensor.read f prefer_ds18b20 retries delay_s hw
         = (Raise Sensor.failed_to_read,
            Sensor.failed_attempts delay_s budget 0)).
Proof.
  intro budget. unfold Sensor.read. fold budget.
  destruct (first_success_or_all_fail f prefer_ds18b20 hw budget 0)
    as [Hall | (k & [t h] & Hk & Hfail & Hok)].
  - right. split; [intros j Hj; apply Hall; lia|].
    rewrite (read_loop_all_fail f prefer_ds18b20 delay_s hw budget 0 Hall).
    reflexivity.
  - left. exists k, t, h. split; [exact Hk|].
    split; [intros j Hj; apply Hfail; lia|]. split; [exact Hok|].
    rewrite (read_loop_first_success f prefer_ds18b20 delay_s hw
               k budget 0 (t, h) Hk Hfail Hok).
    reflexivity.
Qed.

(** X12: the time [read] spends sleeping is bounded by its budget: it
    sleeps delay_s once per failed attempt, so k times with k at most
    max(1, retries), and exactly max(1, retries) times when it gives
    up. *)
Theorem read_sleeps_at_most_the_budget
        (f : source_file) (prefer_ds18b20 : bool) (retries : Z)
        (delay_s : Q) (hw : nat -> Sensor.attempt) :
  let budget := Z.to_nat (Z.max 1 retries) in
  let out := Sensor.read f prefer_ds18b20 retries delay_s hw in
  exists k,
    (k <= budget)%nat
    /\ Sensor.sleeps (snd out) = repeat delay_s k
    /\ Sensor.attempts (snd out) = (if is_ok (fst out) then S k else k)
    /\ (is_ok (fst out) = false <-> k = budget).
Proof.
  intros budget out.
  destruct (read_cases f prefer_ds18b20 retries delay_s hw)
    as [(k & t & h & Hk & _ & _ & Hout) | (_ & Hout)];
    fold budget in Hk || idtac; unfold out; rewrite Hout; cbn [fst snd is_ok].
  - exists k. rewrite sleeps_app, sleeps_failed, attempts_app, attempts_failed.
    cbn. rewrite app_nil_r.
    split; [lia|]. split; [reflexivity|]. split; [lia|].
    split; [discriminate | lia].
  - exists budget. rewrite sleeps_failed, attempts_failed.
    split; [lia|]. repeat split; reflexivity.
Qed.

(** X13: the pair [read] returns is the pair of the first successful
    attempt rounded: each value is a whole number of tenths and lies
    within 0.05 of the value read. *)
Theorem read_returns_tenths
        (f : source_file) (prefer_ds18b20 : bool) (retries : Z)
        (delay_s : Q) (hw : nat -> Sensor.attempt) (t' h' : Q) :
  fst (Sensor.read f prefer_ds18b20 retries delay_s hw) = Ok (t', h') ->
  exists k t h,
    (k < Z.to_nat (Z.max 1 retries))%nat
    /\ Sensor.succeeds f prefer_ds18b20 (hw k) = Some (t, h)
    /\ (Qabs (t' - t) <= 1 # 20)%Q /\ (Qabs (h' - h) <= 1 # 20)%Q
    /\ exists n m : Z,
         t' = (inject_Z n / 10)%Q /\ h' = (inject_Z m / 10)%Q.
Proof.
  intro Hout.
  destruct (read_cases f prefer_ds18b20 retries delay_s hw)
    as [(k & t & h & Hk & _ & Hok & Hread) | (_ & Hread)];
    rewrite Hread in Hout; cbn [fst] in Hout; [|discriminate Hout].
  inversion Hout; subst t' h'.
  exists k, t, h. split; [exact Hk|]. split; [exact Hok|].
  split; [apply round1_close|]. split; [apply round1_close|].
  eexists _, _. split; reflexivity.
Qed.

(** X13 at work: the valid attempt after two null ones. *)
Lemma read_returns_tenths_witness :
  exists k t h,
    (k < 3)%nat
    /\ Sensor.succeeds Main5 false (Examples.third_time_lucky k) = Some (t, h)
    /\ (Qabs (5.0 - t) <= 1 # 20)%Q /\ (Qabs (91.3 - h) <= 1 # 20)%Q
    /\ exists n m : Z,
         5.0%Q = (inject_Z n / 10)%Q /\ 91.3%Q = (inject_Z m / 10)%Q.
Proof.
  apply (read_returns_tenths Main5 false 3 2 Examples.third_time_lucky
           5.0%Q 91.3%Q).
  reflexivity.
Defined.

Section OnDemandFacts.
Variable float_repr : Q -> string.

Local Opaque Notifier.send_email_alert Analyzer.detect_anomaly Sensor.read.

(** The lines printed along a trace of failed attempts. *)
Lemma printed_failed (f : source_file) (prefer_ds18b20 : bool)
      (hw : nat -> Sensor.attempt) (delay_s : Q) (k i : nat) :
  Sensor.printed f prefer_ds18b20 hw (Sensor.failed_attempts delay_s k i)
  = flat_map (fun j => Sensor.attempt_lines f prefer_ds18b20 j (hw j))
             (seq i k).
Proof.
  revert i. induction k as [|k IH]; intro i; [reflexivity|].
  cbn [Sensor.failed_attempts seq flat_map]. unfold Sensor.printed in *.
  cbn [flat_map app]. rewrite IH. reflexivity.
Qed.

(** An attempt prints at most one line, and none in delta.py. *)
Lemma attempt_lines_at_most_one (f : source_file) (prefer_ds18b20 : bool)
      (i : nat) (a : Sensor.attempt) :
  (List.length (Sensor.attempt_lines f prefer_ds18b20 i a) <= 1)%nat
  /\ (f = Delta -> Sensor.attempt_lines f prefer_ds18b20 i a = []).
Proof.
  unfold Sensor.attempt_lines. split.
  - destruct f; cbn; try lia.
    destruct (Sensor.dht_humidity a); cbn; try lia.
    destruct (Sensor.dht_temperature a); cbn; try lia.
    destruct prefer_ds18b20; cbn; try lia.
    destruct (Sensor.main5_ds18b20_body (Sensor.bus a)); cbn; lia.
  - intros ->. reflexivity.
Qed.

Lemma flat_map_length_bound {A B : Type} (g : A -> list B) (l : list A) :
  (forall a, List.length (g a) <= 1)%nat ->
  (List.length (flat_map g l) <= List.length l)%nat.
Proof.
  intro Hg. induction l as [|a l IH]; cbn; [lia|].
  rewrite length_app. specialize (Hg a). lia.
Qed.

(** X14: without a sensor object read_sensor answers 500 at once and
    touches nothing; with one, when every attempt of the default budget
    fails, it has slept two seconds per attempt, contacted neither the
    weather service nor the mail server, stored nothing, printed only
    what the reader prints for each attempt in turn (at most one line per
    attempt, one for every attempt whose DHT22 query raises in main5.py,
    nothing in delta.py), and (while the rollback works) answers 500 with
    the message of the reader. *)
Theorem read_sensor_failures
        (f : source_file) (cfg : OnDemand.config) (e : OnDemand.env)
        (w : world) :
  let budget := Z.to_nat (Z.max 1 (OnDemand.default_retries f)) in
  let out := OnDemand.read_sensor float_repr f cfg e w in
  let lines :=
    flat_map (fun j => Sensor.attempt_lines f (OnDemand.prefer_ds18b20 cfg)
                         j (OnDemand.hw e j))
             (seq 0 budget) in
  (sensor w = None ->
   out = (Ok (OnDemand.failure 500 "Sensor not initialized"), w))
  /\ (sensor w <> None ->
      (forall j, (j < budget)%nat ->
         Sensor.succeeds f (OnDemand.prefer_ds18b20 cfg) (OnDemand.hw e j)
         = None) ->
      slept (snd out) = (slept w ++ repeat 2%Q budget)%list
      /\ console (snd out) = (console w ++ lines)%list
      /\ (List.length lines <= budget)%nat
      /\ (f = Delta -> console (snd out) = console w)
      /\ (f = Main5 ->
          forall j ex, (j < budget)%nat ->
            Sensor.dht_humidity (OnDemand.hw e j) = Raise ex ->
            In ("DHT read attempt " ++ Py.decimal (Z.of_nat (S j))
                  ++ " failed: " ++ exn_message ex)%string
               (console (snd out)))
      /\ committed (snd out) = committed w
      /\ (OnDemand.rollback_outcome e = Ok tt ->
          fst out
          = Ok (OnDemand.failure 500
                  "Failed to read from DHT22/DS18B20 sensors."))).
Proof.
  cbv zeta. unfold OnDemand.read_sensor, bindM, Scheduler.get_sensor.
  split.
  - intros ->. reflexivity.
  - intros Hs Hall. destruct (sensor w) as [d|] eqn:Hd; [|congruence].
    unfold try_catch, OnDemand.sensor_read.
    destruct (read_cases f (OnDemand.prefer_ds18b20 cfg)
                (OnDemand.default_retries f) 2 (OnDemand.hw e))
      as [(k & t & h & Hk & _ & Hok & _) | (_ & Hread)].
    + rewrite Hall in Hok by exact Hk. discriminate Hok.
    + rewrite Hread. cbn beta iota. rewrite sleeps_failed, printed_failed.
      set (budget := Z.to_nat (Z.max 1 (OnDemand.default_retries f))).
      set (lines := flat_map _ (seq 0 budget)).
      assert (Hlen : (List.length lines <= budget)%nat).
      { unfold lines.
        match goal with
        | |- (List.length (flat_map ?g ?l) <= _)%nat =>
            pose proof (flat_map_length_bound g l) as Hb
        end.
        rewrite length_seq in Hb. apply Hb. intro j.
        apply attempt_lines_at_most_one. }
      assert (Hdelta : f = Delta -> lines = []).
      { intro Hf. unfold lines. clear Hlen lines.
        induction (seq 0 budget) as [|j l IH]; [reflexivity|].
        cbn [flat_map]. rewrite IH.
        rewrite (proj2 (attempt_lines_at_most_one f _ j _) Hf).
        reflexivity. }
      assert (Hmain5 : f = Main5 ->
                forall j ex, (j < budget)%nat ->
                  Sensor.dht_humidity (OnDemand.hw e j) = Raise ex ->
                  In ("DHT read attempt " ++ Py.decimal (Z.of_nat (S j))
                        ++ " failed: " ++ exn_message ex)%string lines).
      { intros Hf j ex Hj Hraise. unfold lines. apply in_flat_map.
        exists j. split; [apply in_seq; lia|].
        unfold Sensor.attempt_lines. rewrite Hf, Hraise. left. reflexivity. }
      unfold session_rollback, ret.
      destruct (OnDemand.rollback_outcome e) as [[]|ex]; cbn [fst snd];
        cbn [slept console committed];
        (conjuncts;
         [ reflexivity | reflexivity | exact Hlen
         | intro Hf; rewrite (Hdelta Hf); apply app_nil_r
         | intros Hf j ex' Hj Hraise; apply in_or_app; right;
           exact (Hmain5 Hf j ex' Hj Hraise)
         | reflexivity
         | intro H; first [reflexivity | discriminate H] ]).
Qed.

(** X15: when read_sensor answers with success, the temperature and the
    humidity of the answer are the ones stored, with the alert if they
    are anomalous, and both are whole numbers of tenths. *)
Theorem read_sensor_stores_what_it_answers
        (f : source_file) (cfg : OnDemand.config) (e : OnDemand.env)
        (w w' : world) (resp : OnDemand.response) :
  OnDemand.read_sensor float_repr f cfg e w = (Ok resp, w') ->
  OnDemand.status resp = "success" ->
  exists t h ext,
    OnDemand.json_temperature resp = Some t
    /\ OnDemand.json_humidity resp = Some h
    /\ committed w'
       = (committed w ++ pending w
            ++ RowReading {| temperature := t; humidity := h |}
            :: alert_rows float_repr f t h ext)%list
    /\ exists n m : Z,
         t = (inject_Z n / 10)%Q /\ h = (inject_Z m / 10)%Q.
Proof.
  intros Hrun Hstatus.
  unfold OnDemand.read_sensor, bindM, Scheduler.get_sensor in Hrun.
  destruct (sensor w) as [d|];
    [|inversion Hrun; subst; discriminate Hstatus].
  unfold try_catch, OnDemand.sensor_read in Hrun.
  assert (Hrollback : forall (ex : exn) (w1 : world),
    (let '(r, w2) := session_rollback (OnDemand.rollback_outcome e) w1 in
     match r with
     | Ok _ => ret (OnDemand.failure 500 (exn_message ex)) w2
     | Raise e0 => (Raise e0, w2)
     end) = (Ok resp, w') -> False).
  { intros ex w1. unfold session_rollback, ret.
    destruct (OnDemand.rollback_outcome e); intro H; inversion H.
    subst. discriminate Hstatus. }
  destruct (read_cases f (OnDemand.prefer_ds18b20 cfg)
              (OnDemand.default_retries f) 2 (OnDemand.hw e))
    as [(k & t & h & _ & _ & _ & Hread) | (_ & Hread)];
    rewrite Hread in Hrun; cbn beta iota in Hrun;
    [|exfalso; exact (Hrollback _ _ Hrun)].
  unfold lift in Hrun.
  destruct (Weather.get_weather_forecast f (OnDemand.api_key cfg)
              (OnDemand.reply e)) as [snap|ex];
    [|exfalso; exact (Hrollback _ _ Hrun)].
  exists (Py.round1 t), (Py.round1 h), (Weather.external_temp snap).
  unfold alert_rows.
  destruct (Analyzer.detect_anomaly float_repr f (Py.round1 t) (Py.round1 h)
              (Weather.external_temp snap)) as [anomalous reason].
  cbn [fst snd]. unfold session_add at 1 in Hrun. cbn beta iota in Hrun.
  assert (Htenths : exists n m : Z,
            Py.round1 t = (inject_Z n / 10)%Q
            /\ Py.round1 h = (inject_Z m / 10)%Q)
    by (eexists _, _; split; reflexivity).
  destruct anomalous.
  - match type of Hrun with
    | context [Notifier.send_email_alert ?a ?b ?c ?x ?m ?w0] =>
        pose proof (send_email_alert_only_prints a b c x m w0) as Hp;
        destruct (Notifier.send_email_alert a b c x m w0) as [r w2]
    end.
    cbn [snd] in Hp.
    destruct Hp as (P1 & P2 & P3 & P4 & P5 & P6 & lines & P7).
    cbn in P2, P3.
    destruct r as [[]|ex]; [|exfalso; exact (Hrollback _ _ Hrun)].
    unfold session_add, session_commit in Hrun. cbn beta iota in Hrun.
    destruct (OnDemand.commit_outcome e) as [[]|ex];
      [|exfalso; exact (Hrollback _ _ Hrun)].
    unfold ret in Hrun. inversion Hrun. subst. cbn.
    rewrite P2, P3, <- ?app_assoc. auto.
  - unfold ret at 1 in Hrun. cbn beta iota in Hrun.
    unfold session_commit in Hrun.
    destruct (OnDemand.commit_outcome e) as [[]|ex];
      [|exfalso; exact (Hrollback _ _ Hrun)].
    unfold ret in Hrun. inversion Hrun. subst. cbn.
    rewrite <- ?app_assoc. auto.
Qed.

End OnDemandFacts.

(** X15 at work: the third attempt answers (5.04, 91.26). *)
Lemma read_sensor_stores_what_it_answers_witness :
  exists t h ext,
    Some 5.0%Q = Some t /\ Some 91.3%Q = Some h
    /\ committed
         (snd (OnDemand.read_sensor repr_tenths Main5
                 MoreExamples.ondemand_config
                 (MoreExamples.ondemand_env Examples.third_time_lucky)
                 Examples.world_adopted))
       = (RowReading {| temperature := t; humidity := h |}
            :: alert_rows repr_tenths Main5 t h ext)
    /\ exists n m : Z,
         t = (inject_Z n / 10)%Q /\ h = (inject_Z m / 10)%Q.
Proof.
  apply (read_sensor_stores_what_it_answers repr_tenths Main5
           MoreExamples.ondemand_config
           (MoreExamples.ondemand_env Examples.third_time_lucky)
           Examples.world_adopted _
           {| OnDemand.status_code := 200; OnDemand.status := "success";
              OnDemand.error_message := None;
              OnDemand.json_temperature := Some 5.0%Q;
              OnDemand.json_humidity := Some 91.3%Q |});
    reflexivity.
Defined.

(** X14 at work: five attempts of main5.py on which the DHT22 raises. *)
Lemma read_sensor_failures_witness :
  slept (snd (OnDemand.read_sensor repr_tenths Main5
                MoreExamples.ondemand_config
                (MoreExamples.ondemand_env (fun _ => Examples.attempt_error))
                Examples.world_adopted))
  = [2; 2; 2; 2; 2]%Q
  /\ console (snd (OnDemand.read_sensor repr_tenths Main5
                     MoreExamples.ondemand_config
                     (MoreExamples.ondemand_env
                        (fun _ => Examples.attempt_error))
                     Examples.world_adopted))
     = ["DHT read attempt 1 failed: Checksum did not validate. Try again.";
        "DHT read attempt 2 failed: Checksum did not validate. Try again.";
        "DHT read attempt 3 failed: Checksum did not validate. Try again.";
        "DHT read attempt 4 failed: Checksum did not validate. Try again.";
        "DHT read attempt 5 failed: Checksum did not validate. Try again."]
  /\ committed (snd (OnDemand.read_sensor repr_tenths Main5
                       MoreExamples.ondemand_config
                       (MoreExamples.ondemand_env
                          (fun _ => Examples.attempt_error))
                       Examples.world_adopted)) = [].
Proof.
  destruct (read_sensor_failures repr_tenths Main5
              MoreExamples.ondemand_config
              (MoreExamples.ondemand_env (fun _ => Examples.attempt_error))
              Examples.world_adopted) as (_ & Hfail).
  destruct Hfail as (H1 & H2 & _ & _ & _ & H3 & _).
  - discriminate.
  - intros j _. reflexivity.
  - conjuncts; [exact H1 | exact H2 | exact H3].
Defined.

(* ===================================================================== *)
(** * Further properties of the discovery and of the loop                 *)
(* ===================================================================== *)

(** X16: the discovery adopts the first candidate, in the order of the
    list, whose creation and trial read both work: the candidates before
    it are tried and given up, those after it are not tried (at most one
    second is slept per candidate up to the adopted one), and the database
    is left alone. *)
Theorem discovery_adopts_first_working_candidate
        (e : Scheduler.env) (pre post : list (string * pin))
        (name : string) (p : pin) (w : world) :
  (forall name' p', In (name', p') pre ->
     is_ok (Scheduler.dht_create e p') && is_ok (Scheduler.dht_probe e p')
     = false) ->
  Scheduler.dht_create e p = Ok tt ->
  Scheduler.dht_probe e p = Ok tt ->
  exists w',
    Scheduler.try_candidates e (pre ++ (name, p) :: post)%list w
    = (Ok true, w')
    /\ sensor w' = Some p
    /\ committed w' = committed w /\ pending w' = pending w
    /\ exists k, (k <= List.length pre)%nat
         /\ slept w' = (slept w ++ repeat 1%Q (S k))%list.
Proof.
  intros Hpre Hc Hp. revert w.
  induction pre as [|[name' p'] pre IH]; intro w.
  - cbn [app Scheduler.try_candidates].
    unfold bindM, try_catch, print, lift, time_sleep, set_sensor, ret.
    rewrite Hc, Hp. cbn. eexists. split; [reflexivity|]. cbn.
    repeat split. exists 0%nat. split; [lia | reflexivity].
  - assert (Hrest : forall n0 p0, In (n0, p0) pre ->
              is_ok (Scheduler.dht_create e p0)
              && is_ok (Scheduler.dht_probe e p0) = false)
      by (intros n0 p0 Hin; apply (Hpre n0 p0); right; exact Hin).
    specialize (IH Hrest).
    pose proof (Hpre name' p' (or_introl eq_refl)) as Hhead.
    cbn [app Scheduler.try_candidates].
    unfold bindM, try_catch, print, lift, time_sleep, set_sensor, ret.
    destruct (Scheduler.dht_create e p') as [[]|ex1];
      [destruct (Scheduler.dht_probe e p') as [[]|ex2];
       [discriminate Hhead|]|]; cbn.
    + match goal with
      | |- context [Scheduler.try_candidates e _ ?w2] =>
          destruct (IH w2) as (w' & Heq & A1 & A2 & A3 & k & A4 & A5)
      end.
      rewrite Heq. exists w'. split; [reflexivity|].
      cbn in A2, A3, A5. repeat split; auto.
      exists (S k). split; [cbn; lia|].
      rewrite A5, <- app_assoc. reflexivity.
    + match goal with
      | |- context [Scheduler.try_candidates e _ ?w2] =>
          destruct (IH w2) as (w' & Heq & A1 & A2 & A3 & k & A4 & A5)
      end.
      rewrite Heq. exists w'. split; [reflexivity|].
      cbn in A2, A3, A5. repeat split; auto.
      exists k. split; [cbn; lia | exact A5].
Qed.

(** X16 at work: the preferred pin D17 carries no device, D4 does. *)
Lemma discovery_adopts_first_working_candidate_witness :
  exists w',
    Scheduler.try_candidates MoreExamples.device_on_d4
      [("ENV", 17%nat); ("D4", 4%nat)] Examples.world0 = (Ok true, w')
    /\ sensor w' = Some 4%nat
    /\ committed w' = [] /\ pending w' = []
    /\ exists k, (k <= 1)%nat /\ slept w' = repeat 1%Q (S k).
Proof.
  apply (discovery_adopts_first_working_candidate MoreExamples.device_on_d4
           [("ENV", 17%nat)] [] "D4" 4%nat Examples.world0).
  - intros name' p' [Hin | []]. inversion Hin. reflexivity.
  - reflexivity.
  - reflexivity.
Defined.

Section SchedulerMore.
Variable float_repr : Q -> string.
Variable cfg : Scheduler.config.

Local Opaque Notifier.send_email_alert Analyzer.detect_anomaly Py.fixed1.

(** One cycle without the hardware libraries. *)
Lemma cycle_without_board (e : Scheduler.env) (w : world) :
  Scheduler.board cfg = None ->
  sensor w = None ->
  Scheduler.cycle float_repr cfg e w
  = (Ok tt,
     {| sensor := None; committed := committed w; pending := pending w;
        console :=
          (console w
             ++ ["DEBUG: SENSOR_AVAILABLE=False; cannot init sensor.";
                 "WARN: Sensor not initialized; will retry next cycle."])%list;
        slept := (slept w ++ [Scheduler.READ_INTERVAL_SEC cfg])%list;
        last_background_tick := Some (Scheduler.utcnow e);
        discoveries := S (discoveries w) |}).
Proof.
  intros Hboard Hs. destruct w as [s c p o sl tk n]. cbn in Hs. subst s.
  unfold Scheduler.cycle, Scheduler.cycle_body, Scheduler._try_init_sensor,
    Scheduler.SENSOR_AVAILABLE, Scheduler.get_sensor, bindM, try_finally,
    try_catch, set_tick, count_discovery, print, time_sleep, ret.
  rewrite Hboard. cbn. rewrite <- app_assoc. reflexivity.
Qed.

(** X17: when the hardware libraries are missing the loop idles for
    ever: after any number n of cycles the handle is still empty, the
    database and the session are untouched, the discovery has been called
    n times and the loop has slept n intervals and nothing else. *)
Theorem loop_idles_without_hardware
        (envs : nat -> Scheduler.env) (n i : nat) (w : world) :
  Scheduler.board cfg = None ->
  sensor w = None ->
  let out := Scheduler._background_reader float_repr cfg envs n i w in
  fst out = Ok tt
  /\ sensor (snd out) = None
  /\ committed (snd out) = committed w
  /\ pending (snd out) = pending w
  /\ discoveries (snd out) = (n + discoveries w)%nat
  /\ slept (snd out)
     = (slept w ++ repeat (Scheduler.READ_INTERVAL_SEC cfg) n)%list.
Proof.
  intros Hboard. revert i w.
  induction n as [|n IH]; intros i w Hs; cbv zeta.
  - cbn. conjuncts; auto. symmetry. apply app_nil_r.
  - cbn [Scheduler._background_reader]. unfold bindM.
    rewrite (cycle_without_board (envs i) w Hboard Hs).
    match goal with
    | |- context [Scheduler._background_reader _ _ _ n (S i) ?w1] =>
        pose proof (IH (S i) w1 eq_refl) as (I1 & I2 & I3 & I4 & I5 & I6)
    end.
    cbn [sensor committed pending discoveries slept] in I3, I4, I5, I6.
    conjuncts; auto.
    + rewrite I5. lia.
    + rewrite I6, <- app_assoc. reflexivity.
Qed.

(** The reading branch when everything works, exactly. *)
Lemma read_and_store_exact (e : Scheduler.env) (d : pin) (w : world)
      (t h : Q) (snap : Weather.snapshot) :
  Scheduler.read_humidity e d = Ok (Some h) ->
  Scheduler.read_temperature e d = Ok (Some t) ->
  Weather.get_weather_forecast Main6 (Scheduler.api_key cfg)
                               (Scheduler.reply e) = Ok snap ->
  Scheduler.commit_outcome e = Ok tt ->
  let out := Scheduler.read_and_store float_repr cfg e d w in
  fst out = Ok tt
  /\ pending (snd out) = []
  /\ committed (snd out)
     = (committed w ++ pending w
          ++ RowReading {| temperature := t; humidity := h |}
          :: alert_rows float_repr Main6 t h (Weather.external_temp snap))%list.
Proof.
  intros Hh Ht Hw Hc. cbv zeta.
  assert (H : exists w',
             Scheduler.read_and_store float_repr cfg e d w = (Ok tt, w')
             /\ pending w' = []
             /\ committed w'
                = (committed w ++ pending w
                     ++ RowReading {| temperature := t; humidity := h |}
                     :: alert_rows float_repr Main6 t h
                          (Weather.external_temp snap))%list).
  { unfold Scheduler.read_and_store, bindM, lift. rewrite Hh, Ht, Hw.
    cbn beta iota. unfold alert_rows.
    destruct (Analyzer.detect_anomaly float_repr Main6 t h
                (Weather.external_temp snap)) as [anomalous reason].
    rewrite Hc. unfold session_add at 1. cbn beta iota.
    destruct anomalous.
    - unfold session_add at 1. cbn beta iota.
      match goal with
      | |- context [Notifier.send_email_alert ?a ?b ?c ?x ?m ?w0] =>
          pose proof (send_email_alert_only_prints a b c x m w0) as Hp;
          pose proof (send_email_alert_guarded a b c x m w0
                        ltac:(discriminate)) as Hg;
          destruct (Notifier.send_email_alert a b c x m w0) as [r w2]
      end.
      cbn [fst snd] in Hp, Hg. subst r.
      destruct Hp as (P1 & P2 & P3 & P4 & P5 & P6 & lines & P7).
      cbn in P2, P3. unfold session_commit, print. cbn.
      eexists. split; [reflexivity|]. cbn.
      rewrite P2, P3, <- ?app_assoc. auto.
    - unfold session_commit, print, ret. cbn.
      eexists. split; [reflexivity|]. cbn. rewrite <- ?app_assoc. auto. }
  destruct H as (w' & Heq & H1 & H2). rewrite Heq. cbn [fst snd]. auto.
Qed.

(** The session after the reading branch: empty when it returned, grown
    by what had been added when it raised. *)
Lemma read_and_store_session (e : Scheduler.env) (d : pin) (w : world) :
  let out := Scheduler.read_and_store float_repr cfg e d w in
  (fst out = Ok tt ->
   pending (snd out) = []
   /\ exists rows, committed (snd out)
                   = (committed w ++ pending w ++ rows)%list
        /\ (List.length rows <= 2)%nat)
  /\ (forall ex, fst out = Raise ex -> committed (snd out) = committed w).
Proof.
  cbv zeta. split.
  - intro Hok.
    pose proof (read_and_store_frame float_repr cfg e d w)
      as (_ & _ & _ & _ & F5).
    destruct (F5 Hok) as (t & h & ext & Hh & Ht & Hcommitted).
    assert (Hw : exists snap,
               Weather.get_weather_forecast Main6 (Scheduler.api_key cfg)
                 (Scheduler.reply e) = Ok snap
               /\ Scheduler.commit_outcome e = Ok tt).
    { revert Hok. unfold Scheduler.read_and_store, bindM, lift.
      rewrite Hh, Ht.
      destruct (Weather.get_weather_forecast Main6 (Scheduler.api_key cfg)
                  (Scheduler.reply e)) as [snap|ex];
        [|intro H; discriminate H].
      cbn beta iota.
      destruct (Analyzer.detect_anomaly float_repr Main6 t h
                  (Weather.external_temp snap)) as [anomalous reason].
      destruct (Scheduler.commit_outcome e) as [[]|ex];
        [intros _; exists snap; auto|].
      unfold session_add at 1. cbn beta iota.
      destruct anomalous.
      - unfold session_add at 1. cbn beta iota.
        match goal with
        | |- context [Notifier.send_email_alert ?a ?b ?c ?x ?m ?w0] =>
            destruct (Notifier.send_email_alert a b c x m w0) as [[[]|ex'] w2]
        end; cbn; intro H; discriminate H.
      - cbn. intro H; discriminate H. }
    destruct Hw as (snap & Hw & Hc).
    pose proof (read_and_store_exact e d w t h snap Hh Ht Hw Hc)
      as (_ & E2 & E3).
    split; [exact E2|]. eexists. split; [exact E3|].
    unfold alert_rows.
    destruct (fst (Analyzer.detect_anomaly float_repr Main6 t h
                     (Weather.external_temp snap))); cbn; lia.
  - apply (read_and_store_frame float_repr cfg e d w).
Qed.

(** What one cycle does to the store while the rollback works and the
    session starts empty: the session ends empty and at most two rows are
    appended. *)
Lemma cycle_store_step (e : Scheduler.env) (w : world) :
  Scheduler.rollback_outcome e = Ok tt ->
  pending w = [] ->
  let w' := snd (Scheduler.cycle float_repr cfg e w) in
  pending w' = []
  /\ exists added, committed w' = (committed w ++ added)%list
       /\ (List.length added <= 2)%nat.
Proof.
  intros Hrb Hpending. rewrite cycle_unfolded. cbv zeta.
  set (w0 := snd (set_tick (Scheduler.utcnow e) w)).
  assert (Hp0 : pending w0 = []) by exact Hpending.
  assert (Hc0 : committed w0 = committed w) by reflexivity.
  cbn [snd time_sleep pending committed].
  assert (Hbranch : forall d w1,
            pending w1 = [] -> committed w1 = committed w ->
            let w2 :=
              match Scheduler.read_and_store float_repr cfg e d w1 with
              | (Ok _, w3) => w3
              | (Raise ex, w3) => snd (Scheduler.cycle_handler e ex w3)
              end in
            pending w2 = []
            /\ exists added, committed w2 = (committed w ++ added)%list
                 /\ (List.length added <= 2)%nat).
  { intros d w1 Hp1 Hc1. cbv zeta.
    pose proof (read_and_store_session e d w1) as (Sok & Sraise).
    destruct (Scheduler.read_and_store float_repr cfg e d w1)
      as [[[]|ex] w3]; cbn [fst snd] in *.
    - destruct (Sok eq_refl) as (Q1 & rows & Q2 & Q3).
      split; [exact Q1|]. exists rows. rewrite Q2, Hp1, Hc1. auto.
    - unfold Scheduler.cycle_handler, bindM, print, try_catch,
        session_rollback, ret. rewrite Hrb. cbn.
      split; [reflexivity|]. exists []. rewrite (Sraise ex eq_refl), Hc1.
      split; [symmetry; apply app_nil_r | cbn; lia]. }
  destruct (sensor w0) as [d|] eqn:Hs.
  - rewrite (cycle_body_with_device float_repr cfg e w0 d Hs).
    apply (Hbranch d w0 Hp0 Hc0).
  - rewrite (cycle_body_without_device float_repr cfg e w0 Hs).
    destruct (try_init_sensor_frame cfg e w0)
      as (wi & Heq & A1 & A2 & _).
    rewrite Heq. cbn [snd].
    destruct (sensor wi) as [d|].
    + apply (Hbranch d wi); congruence.
    + cbn. split; [congruence|]. exists [].
      split; [rewrite A1, Hc0; symmetry; apply app_nil_r | cbn; lia].
Qed.

(** X18: while every rollback works and the session starts empty, the
    loop only ever appends to the database: after n cycles the rows stored
    before are still there, in place, at most 2n rows have been added (one
    reading and at most one alert per cycle), and no row is left pending
    between cycles. *)
Theorem loop_appends_at_most_two_rows_per_cycle
        (envs : nat -> Scheduler.env) (n i : nat) (w : world) :
  (forall j, Scheduler.rollback_outcome (envs j) = Ok tt) ->
  pending w = [] ->
  let w' := snd (Scheduler._background_reader float_repr cfg envs n i w) in
  pending w' = []
  /\ exists added, committed w' = (committed w ++ added)%list
       /\ (List.length added <= 2 * n)%nat.
Proof.
  intro Hrb. revert i w.
  induction n as [|n IH]; intros i w Hp; cbv zeta.
  - cbn. split; [exact Hp|]. exists [].
    split; [symmetry; apply app_nil_r | cbn; lia].
  - cbn [Scheduler._background_reader]. unfold bindM.
    pose proof (cycle_store_step (envs i) w (Hrb i) Hp)
      as (C1 & added1 & C2 & C3).
    pose proof (cycle_always_sleeps float_repr cfg (envs i) w) as [Hok _].
    destruct (Scheduler.cycle float_repr cfg (envs i) w) as [r w1].
    cbn [fst snd] in *. subst r.
    destruct (IH (S i) w1 C1) as (I1 & added2 & I2 & I3).
    split; [exact I1|].
    exists (added1 ++ added2)%list.
    split; [rewrite I2, C2, <- app_assoc; reflexivity|].
    rewrite length_app. lia.
Qed.

(** One cycle with the device in hand when everything works, exactly. *)
Lemma cycle_exact (e : Scheduler.env) (w : world) (d : pin) (t h : Q)
      (snap : Weather.snapshot) :
  sensor w = Some d ->
  Scheduler.read_humidity e d = Ok (Some h) ->
  Scheduler.read_temperature e d = Ok (Some t) ->
  Weather.get_weather_forecast Main6 (Scheduler.api_key cfg)
                               (Scheduler.reply e) = Ok snap ->
  Scheduler.commit_outcome e = Ok tt ->
  let w' := snd (Scheduler.cycle float_repr cfg e w) in
  sensor w' = Some d /\ pending w' = []
  /\ committed w'
     = (committed w ++ pending w
          ++ RowReading {| temperature := t; humidity := h |}
          :: alert_rows float_repr Main6 t h (Weather.external_temp snap))%list.
Proof.
  intros Hs Hh Ht Hw Hc. cbv zeta.
  pose proof (cycle_handle float_repr cfg e w) as (Hkeep & _).
  destruct (Hkeep d Hs) as [Hsame _]. split; [exact Hsame|].
  rewrite cycle_unfolded. cbv zeta.
  set (w0 := snd (set_tick (Scheduler.utcnow e) w)).
  rewrite (cycle_body_with_device float_repr cfg e w0 d Hs).
  pose proof (read_and_store_exact e d w0 t h snap Hh Ht Hw Hc)
    as (E1 & E2 & E3).
  destruct (Scheduler.read_and_store float_repr cfg e d w0) as [r w1].
  cbn [fst snd] in *. subst r. cbn [snd time_sleep pending committed].
  split; [exact E2 | exact E3].
Qed.

(** X19: the loop keeps no memory of what it has alerted on: n cycles in
    which the adopted device gives the same reading, the weather answer is
    the same and the commit works store the same reading, and with it the
    same alert when it is anomalous, n times over. *)
Theorem identical_cycles_store_identical_rows
        (e : Scheduler.env) (n i : nat) (w : world) (d : pin) (t h : Q)
        (snap : Weather.snapshot) :
  sensor w = Some d ->
  pending w = [] ->
  Scheduler.read_humidity e d = Ok (Some h) ->
  Scheduler.read_temperature e d = Ok (Some t) ->
  Weather.get_weather_forecast Main6 (Scheduler.api_key cfg)
                               (Scheduler.reply e) = Ok snap ->
  Scheduler.commit_outcome e = Ok tt ->
  committed
    (snd (Scheduler._background_reader float_repr cfg (fun _ => e) n i w))
  = (committed w
       ++ List.concat
            (repeat
               (RowReading {| temperature := t; humidity := h |}
                :: alert_rows float_repr Main6 t h
                     (Weather.external_temp snap)) n))%list.
Proof.
  intros Hs Hp Hh Ht Hw Hc. revert i w Hs Hp.
  induction n as [|n IH]; intros i w Hs Hp.
  - cbn. symmetry. apply app_nil_r.
  - cbn [Scheduler._background_reader]. unfold bindM.
    pose proof (cycle_exact e w d t h snap Hs Hh Ht Hw Hc) as (C1 & C2 & C3).
    pose proof (cycle_always_sleeps float_repr cfg e w) as [Hok _].
    destruct (Scheduler.cycle float_repr cfg e w) as [r w1].
    cbn [fst snd] in *. subst r.
    rewrite (IH (S i) w1 C1 C2), C3, Hp. cbn [repeat List.concat app].
    rewrite <- !app_assoc. reflexivity.
Qed.

End SchedulerMore.

(** X17 at work: three cycles without the hardware libraries. *)
Lemma loop_idles_without_hardware_witness :
  fst (Scheduler._background_reader repr_tenths MoreExamples.no_board_config
         (fun _ => Examples.cycle_weather_down) 3 0 Examples.world0) = Ok tt
  /\ sensor (snd (Scheduler._background_reader repr_tenths
                    MoreExamples.no_board_config
                    (fun _ => Examples.cycle_weather_down) 3 0
                    Examples.world0)) = None.
Proof.
  destruct (loop_idles_without_hardware repr_tenths
              MoreExamples.no_board_config
              (fun _ => Examples.cycle_weather_down) 3 0 Examples.world0
              eq_refl eq_refl) as (H1 & H2 & _).
  split; assumption.
Defined.

(** X18 at work: two cycles on the adopted device, the first failing to
    read. *)
Lemma loop_appends_at_most_two_rows_per_cycle_witness :
  pending
    (snd (Scheduler._background_reader repr_tenths Examples.scheduler_config
            (fun j => if Nat.eqb j 0 then Examples.cycle_read_fails
                      else Examples.cycle_mail_down)
            2 0 Examples.world_adopted)) = []
  /\ exists added,
       committed
         (snd (Scheduler._background_reader repr_tenths
                 Examples.scheduler_config
                 (fun j => if Nat.eqb j 0 then Examples.cycle_read_fails
                           else Examples.cycle_mail_down)
                 2 0 Examples.world_adopted))
       = added
       /\ (List.length added <= 4)%nat.
Proof.
  apply (loop_appends_at_most_two_rows_per_cycle repr_tenths
           Examples.scheduler_config
           (fun j => if Nat.eqb j 0 then Examples.cycle_read_fails
                     else Examples.cycle_mail_down)
           2 0 Examples.world_adopted).
  - intro j. destruct (Nat.eqb j 0); reflexivity.
  - reflexivity.
Defined.

(** X19 at work: the same 10 degrees twice, two alerts. *)
Lemma identical_cycles_store_identical_rows_witness :
  committed
    (snd (Scheduler._background_reader repr_tenths Examples.scheduler_config
            (fun _ => Examples.cycle_mail_down) 2 0 Examples.world_adopted))
  = List.concat
      (repeat
         (RowReading {| temperature := 10; humidity := 92 |}
          :: alert_rows repr_tenths Main6 10 92 (Some 12%Q)) 2).
Proof.
  apply (identical_cycles_store_identical_rows repr_tenths
           Examples.scheduler_config Examples.cycle_mail_down 2 0
           Examples.world_adopted 4%nat 10%Q 92%Q
           {| Weather.w_temperature := Some 12%Q; Weather.w_error := None |});
    reflexivity.
Defined.

(* ===================================================================== *)
(** * The candidate pins and their resolution                             *)
(* ===================================================================== *)

Lemma upper_char_idempotent (c : ascii) :
  Text.upper_char (Text.upper_char c) = Text.upper_char c.
Proof.
  destruct c as [[] [] [] [] [] [] [] []]; vm_compute; reflexivity.
Qed.

Lemma upper_idempotent (s : string) : Text.upper (Text.upper s) = Text.upper s.
Proof.
  induction s as [|c s IH]; cbn; [reflexivity|].
  rewrite upper_char_idempotent, IH. reflexivity.
Qed.

(** X20: the pin resolver of main6.py does not look at the case of the
    name, answers with pin D17 for a name the board does not have or that
    does not begin with D, and finds no pin only when the board itself
    has no D17. *)
Theorem resolver_ignores_case_and_falls_back_to_D17
        (cfg : Scheduler.config) (attribute : string -> option pin)
        (name : string) :
  Scheduler.board cfg = Some attribute ->
  Scheduler._resolve_board_pin cfg (Text.upper name)
  = Scheduler._resolve_board_pin cfg name
  /\ (Text.startswith (Text.upper name) "D" = false ->
      Scheduler._resolve_board_pin cfg name = attribute "D17")
  /\ (attribute (Text.upper name) = None ->
      Scheduler._resolve_board_pin cfg name = attribute "D17")
  /\ (Scheduler._resolve_board_pin cfg name = None ->
      attribute "D17" = None)
  /\ (forall p, Scheduler._resolve_board_pin cfg name = Some p ->
      attribute "D17" = Some p
      \/ (Text.startswith (Text.upper name) "D" = true
          /\ attribute (Text.upper name) = Some p)).
Proof.
  intro Hboard. unfold Scheduler._resolve_board_pin. rewrite Hboard.
  rewrite !upper_idempotent. cbv zeta.
  destruct (Text.startswith (Text.upper name) "D") eqn:Hd; cbn [negb].
  - rewrite !upper_idempotent.
    destruct (attribute (Text.upper name)) as [p|] eqn:Ha; conjuncts;
      try reflexivity; try discriminate; auto.
  - change (Text.upper "D17") with "D17".
    destruct (attribute "D17") as [p|] eqn:Ha; conjuncts;
      try reflexivity; try discriminate; auto.
Qed.

(** X20 at work: d4 in small letters is pin D4. *)
Lemma resolver_ignores_case_and_falls_back_to_D17_witness :
  Scheduler._resolve_board_pin Examples.scheduler_config "D4"
  = Scheduler._resolve_board_pin Examples.scheduler_config "d4".
Proof.
  exact (proj1 (resolver_ignores_case_and_falls_back_to_D17
                  Examples.scheduler_config Examples.board_attr "d4"
                  eq_refl)).
Defined.

(** X21: the resolver of main5.py against that of main6.py. On a board
    with a pin D17 the two agree on every name written in capitals; on a
    board without D17 the resolver of main5.py raises AttributeError for
    every name, also for a pin the board has, because the default
    [board.D17] is evaluated before the lookup. *)
Theorem main5_resolver_needs_D17
        (cfg : Scheduler.config) (attribute : string -> option pin)
        (name : string) :
  Scheduler.board cfg = Some attribute ->
  (forall d17, attribute "D17" = Some d17 ->
     Text.upper name = name ->
     Main5Pins._resolve_board_pin (Some attribute) name
     = Ok (Scheduler._resolve_board_pin cfg name))
  /\ (attribute "D17" = None ->
      exists ex, Main5Pins._resolve_board_pin (Some attribute) name
                 = Raise ex
                 /\ exn_class ex = AttributeError).
Proof.
  intro Hboard. split.
  - intros d17 H17 Hup.
    unfold Main5Pins._resolve_board_pin, Scheduler._resolve_board_pin.
    rewrite Hboard, Hup, H17. cbv zeta.
    destruct (Text.startswith name "D"); cbn [negb].
    + rewrite Hup. destruct (attribute name); reflexivity.
    + change (Text.upper "D17") with "D17". rewrite ?H17. reflexivity.
  - intro H17. unfold Main5Pins._resolve_board_pin. rewrite H17.
    eexists. split; reflexivity.
Qed.

(** X21 at work: pin D4 of the board with D4 and D17. *)
Lemma main5_resolver_needs_D17_witness :
  Main5Pins._resolve_board_pin (Some Examples.board_attr) "D4"
  = Ok (Some 4%nat).
Proof.
  exact (proj1 (main5_resolver_needs_D17 Examples.scheduler_config
                  Examples.board_attr "D4" eq_refl)
               17%nat eq_refl eq_refl).
Defined.

(** X22: the list of pins the discovery tries. It has at most five
    entries and none without the hardware libraries; every entry is a pin
    the resolver gives for its name (ENV standing for the configured
    name); the configured pin comes first whenever it resolves; and no
    later entry repeats the pin of the first. *)
Theorem candidates_are_resolved_pins (cfg : Scheduler.config) :
  (List.length (Scheduler.candidates cfg) <= 5)%nat
  /\ (Scheduler.board cfg = None -> Scheduler.candidates cfg = [])
  /\ (forall name p, In (name, p) (Scheduler.candidates cfg) ->
        (name = "ENV"
         /\ Scheduler._resolve_board_pin cfg (Scheduler.DHT_GPIO_PIN cfg)
            = Some p)
        \/ (In name ["D4"; "D17"; "D27"; "D22"]
            /\ Scheduler._resolve_board_pin cfg name = Some p))
  /\ (forall p, Scheduler._resolve_board_pin cfg (Scheduler.DHT_GPIO_PIN cfg)
                = Some p ->
        exists rest, Scheduler.candidates cfg = ("ENV", p) :: rest)
  /\ (forall name0 p0 rest,
        Scheduler.candidates cfg = (name0, p0) :: rest ->
        forall name p, In (name, p) rest -> p <> p0).
Proof.
  assert (Hnone : Scheduler.board cfg = None ->
                  forall name, Scheduler._resolve_board_pin cfg name = None).
  { intros H name. unfold Scheduler._resolve_board_pin. rewrite H.
    reflexivity. }
  unfold Scheduler.candidates. cbn [fold_left].
  destruct (Scheduler._resolve_board_pin cfg (Scheduler.DHT_GPIO_PIN cfg))
    as [p0|] eqn:E0;
  destruct (Scheduler._resolve_board_pin cfg "D4") as [p1|] eqn:E1;
  destruct (Scheduler._resolve_board_pin cfg "D17") as [p2|] eqn:E2;
  destruct (Scheduler._resolve_board_pin cfg "D27") as [p3|] eqn:E3;
  destruct (Scheduler._resolve_board_pin cfg "D22") as [p4|] eqn:E4;
  cbn [app];
  repeat match goal with
    | |- context [Nat.eqb ?a ?b] =>
        let E := fresh "N" in
        destruct (Nat.eqb a b) eqn:E;
        [|apply Nat.eqb_neq in E]; cbn [negb app]
    end;
  (conjuncts;
   [ cbn; lia
   | intro Hb;
     repeat match goal with
       | H : Scheduler._resolve_board_pin _ _ = Some _ |- _ =>
           rewrite (Hnone Hb) in H; discriminate H
       end; reflexivity
   | intros name p Hin; cbn [In] in Hin;
     repeat match goal with
       | H : _ \/ _ |- _ => destruct H as [H | H]
       | H : False |- _ => destruct H
       | H : (_, _) = (_, _) |- _ => inversion H; subst; clear H
       end;
     first [ left; split; reflexivity
           | right; split; [cbn; auto 10 | assumption] ]
   | intros p Hp; first [ discriminate Hp
                        | inversion Hp; subst; eexists; reflexivity ]
   | intros name0 q0 rest Heq name p Hin;
     first [ discriminate Heq
           | inversion Heq; subst; clear Heq; cbn [In] in Hin;
             repeat match goal with
               | H : _ \/ _ |- _ => destruct H as [H | H]
               | H : False |- _ => destruct H
               | H : (_, _) = (_, _) |- _ => inversion H; subst; clear H
               end; assumption ] ]).
Qed.

(* ===================================================================== *)
(** * HistoryAPI: the rows behind the chart                               *)
(* ===================================================================== *)

Lemma strongly_sorted_app_iff {A : Type} (R : A -> A -> Prop)
      (l1 l2 : list A) :
  StronglySorted R (l1 ++ l2)%list
  <-> StronglySorted R l1 /\ StronglySorted R l2
      /\ (forall a b, In a l1 -> In b l2 -> R a b).
Proof.
  induction l1 as [|x l1 IH]; cbn [app].
  - split.
    + intro H. conjuncts; [constructor | exact H | intros a b []].
    + intros (_ & H & _). exact H.
  - split.
    + intro H. apply StronglySorted_inv in H as [H1 H2].
      apply IH in H1 as (S1 & S2 & S3).
      apply Forall_app in H2 as [F1 F2]. conjuncts.
      * constructor; assumption.
      * exact S2.
      * intros a b [<- | Ha] Hb.
        -- rewrite Forall_forall in F2. apply F2. exact Hb.
        -- apply S3; assumption.
    + intros (S1 & S2 & S3). apply StronglySorted_inv in S1 as [S1 F1].
      constructor.
      * apply IH. conjuncts; auto. intros a b Ha Hb. apply S3; [right|]; auto.
      * apply Forall_app. split; [exact F1|]. apply Forall_forall.
        intros b Hb. apply S3; [left; reflexivity | exact Hb].
Qed.

Lemma strongly_sorted_rev {A : Type} (R : A -> A -> Prop) (l : list A) :
  StronglySorted R l -> StronglySorted (fun a b => R b a) (rev l).
Proof.
  induction 1 as [|x l S IH F]; cbn [rev]; [constructor|].
  apply strongly_sorted_app_iff. conjuncts.
  - exact IH.
  - constructor; constructor.
  - intros a b Ha [<- | []]. apply in_rev in Ha.
    rewrite Forall_forall in F. apply F. exact Ha.
Qed.

(** The first rows of a sorted list are sorted and stand before the
    others. *)
Lemma sorted_firstn_skipn {A : Type} (R : A -> A -> Prop) (n : nat)
      (l : list A) :
  StronglySorted R l ->
  StronglySorted R (firstn n l)
  /\ (forall a b, In a (firstn n l) -> In b (skipn n l) -> R a b).
Proof.
  intro H. rewrite <- (firstn_skipn n l) in H.
  apply strongly_sorted_app_iff in H as (H1 & _ & H3). split; assumption.
Qed.

(** Two sorted lists of the same rows are the same list when no two rows
    share a timestamp. *)
Lemma sorted_rows_unique (l1 l2 : list History.reading_row) :
  StronglySorted History.oldest_first l1 ->
  StronglySorted History.oldest_first l2 ->
  Permutation l1 l2 ->
  NoDup (map History.row_timestamp l1) ->
  l1 = l2.
Proof.
  revert l2. induction l1 as [|a l1 IH]; intros l2 S1 S2 P N.
  - apply Permutation_nil in P. subst. reflexivity.
  - destruct l2 as [|b l2].
    + apply Permutation_sym, Permutation_nil in P. discriminate P.
    + apply StronglySorted_inv in S1 as [S1 F1].
      apply StronglySorted_inv in S2 as [S2 F2].
      cbn [map] in N. apply NoDup_cons_iff in N as [N1 N2].
      assert (Hab : a = b).
      { pose proof (Permutation_in a P (or_introl eq_refl)) as Ha.
        pose proof (Permutation_in b (Permutation_sym P) (or_introl eq_refl))
          as Hb.
        destruct Ha as [Ha | Ha]; [symmetry; exact Ha|].
        destruct Hb as [Hb | Hb]; [exact Hb|].
        exfalso. apply N1.
        rewrite Forall_forall in F1, F2.
        pose proof (F1 b Hb) as L1. pose proof (F2 a Ha) as L2.
        unfold History.oldest_first in L1, L2.
        replace (History.row_timestamp a) with (History.row_timestamp b)
          by lia.
        apply in_map. exact Hb. }
      subst b. f_equal. apply IH; auto.
      apply (Permutation_cons_inv P).
Qed.

Lemma insert_row_permutation
      (before : History.reading_row -> History.reading_row -> bool)
      (r : History.reading_row) (l : list History.reading_row) :
  Permutation (r :: l) (History.insert_row before r l).
Proof.
  induction l as [|a l IH]; cbn [History.insert_row]; [reflexivity|].
  destruct (before r a); [reflexivity|].
  rewrite perm_swap. apply perm_skip. exact IH.
Qed.

Lemma insert_row_sorted
      (R : History.reading_row -> History.reading_row -> Prop)
      (before : History.reading_row -> History.reading_row -> bool) :
  (forall a b, before a b = true -> R a b) ->
  (forall a b, before a b = false -> R b a) ->
  (forall a b c, R a b -> R b c -> R a c) ->
  forall r l, StronglySorted R l ->
              StronglySorted R (History.insert_row before r l).
Proof.
  intros Ht Hf Htrans r l. induction l as [|a l IH]; intro S;
    cbn [History.insert_row].
  - constructor; constructor.
  - destruct (before r a) eqn:E.
    + constructor; [exact S|]. constructor; [apply Ht; exact E|].
      apply StronglySorted_inv in S as [_ F].
      apply (Forall_impl _ (fun x => Htrans r a x (Ht r a E)) F).
    + apply StronglySorted_inv in S as [S F]. constructor; [apply IH; exact S|].
      apply (Permutation_Forall (insert_row_permutation before r l)).
      constructor; [apply Hf; exact E | exact F].
Qed.

Lemma order_by_is_order_by
      (R : History.reading_row -> History.reading_row -> Prop)
      (before : History.reading_row -> History.reading_row -> bool) :
  (forall a b, before a b = true -> R a b) ->
  (forall a b, before a b = false -> R b a) ->
  (forall a b c, R a b -> R b c -> R a c) ->
  History.is_order_by R (History.order_by before).
Proof.
  intros Ht Hf Htrans table. unfold History.order_by.
  induction table as [|r table [IHp IHs]]; cbn [fold_right].
  - split; constructor.
  - split.
    + rewrite <- insert_row_permutation. apply perm_skip. exact IHp.
    + apply (insert_row_sorted R before Ht Hf Htrans). exact IHs.
Qed.

Lemma order_by_desc_is_order_by :
  History.is_order_by History.newest_first (History.order_by History.desc).
Proof.
  apply order_by_is_order_by; unfold History.desc, History.newest_first.
  - intros a b H. apply Z.leb_le in H. exact H.
  - intros a b H. apply Z.leb_gt in H. lia.
  - intros a b c. lia.
Qed.

Lemma order_by_asc_is_order_by :
  History.is_order_by History.oldest_first (History.order_by History.asc).
Proof.
  apply order_by_is_order_by; unfold History.asc, History.oldest_first.
  - intros a b H. apply Z.leb_le in H. exact H.
  - intros a b H. apply Z.leb_gt in H. lia.
  - intros a b c. lia.
Qed.

(** X23: the chart of delta.py, main5.py and main6.py shows the newest
    rows, oldest first: whatever order the database gives to rows of
    equal timestamp, the rows selected are min(100, n) of the n rows of
    the table, in ascending order of timestamp, every row left out is at
    most as new as every row shown, and the three lists of the answer
    have that many entries each. *)
Theorem historical_data_shows_the_newest_rows
        (order_by_desc : list History.reading_row -> list History.reading_row)
        (strftime : Z -> string) (table : list History.reading_row) :
  History.is_order_by History.newest_first order_by_desc ->
  let rows := History.selected order_by_desc table in
  let answer := History.historical_data strftime order_by_desc table in
  List.length rows = Nat.min 100 (List.length table)
  /\ List.length (History.labels answer) = List.length rows
  /\ List.length (History.temperatures answer) = List.length rows
  /\ List.length (History.humidities answer) = List.length rows
  /\ StronglySorted History.oldest_first rows
  /\ exists older,
       Permutation table (older ++ rows)%list
       /\ forall a b, In a older -> In b rows -> History.oldest_first a b.
Proof.
  intro Hq. destruct (Hq table) as [Hperm Hsorted]. cbv zeta.
  unfold History.historical_data, History.to_chart, History.selected.
  cbn [History.labels History.temperatures History.humidities].
  rewrite !length_map, length_rev, length_firstn,
    <- (Permutation_length Hperm).
  destruct (sorted_firstn_skipn History.newest_first 100
              (order_by_desc table) Hsorted) as [Hfirst Hcross].
  conjuncts; try reflexivity.
  - exact (strongly_sorted_rev History.newest_first _ Hfirst).
  - exists (skipn 100 (order_by_desc table)). split.
    + rewrite Hperm at 1.
      rewrite <- (firstn_skipn 100 (order_by_desc table)) at 1.
      rewrite Permutation_app_comm. apply Permutation_app_head.
      apply Permutation_rev.
    + intros a b Ha Hb. apply in_rev in Hb. exact (Hcross b a Hb Ha).
Qed.

(** X23 at work: three rows stored out of order. *)
Lemma historical_data_shows_the_newest_rows_witness :
  List.length (History.selected (History.order_by History.desc)
                 MoreExamples.table3) = 3%nat
  /\ StronglySorted History.oldest_first
       (History.selected (History.order_by History.desc)
          MoreExamples.table3).
Proof.
  destruct (historical_data_shows_the_newest_rows
              (History.order_by History.desc) (fun _ => "")
              MoreExamples.table3 order_by_desc_is_order_by)
    as (H1 & _ & _ & _ & H2 & _).
  split; [exact H1 | exact H2].
Defined.

(** X24: the chart of main1.py shows the oldest rows instead: it takes
    the first 100 in ascending order and never reverses, so every row it
    leaves out is at least as new as every row it shows. *)
Theorem historical_data_main1_shows_the_oldest_rows
        (order_by_asc : list History.reading_row -> list History.reading_row)
        (table : list History.reading_row) :
  History.is_order_by History.oldest_first order_by_asc ->
  let rows := History.selected_main1 order_by_asc table in
  List.length rows = Nat.min 100 (List.length table)
  /\ StronglySorted History.oldest_first rows
  /\ exists newer,
       Permutation table (rows ++ newer)%list
       /\ forall a b, In a rows -> In b newer -> History.oldest_first a b.
Proof.
  intro Hq. destruct (Hq table) as [Hperm Hsorted]. cbv zeta.
  unfold History.selected_main1.
  rewrite length_firstn, <- (Permutation_length Hperm).
  destruct (sorted_firstn_skipn History.oldest_first 100
              (order_by_asc table) Hsorted) as [Hfirst Hcross].
  conjuncts; [reflexivity | exact Hfirst |].
  exists (skipn 100 (order_by_asc table)). split.
  - rewrite firstn_skipn. exact Hperm.
  - exact Hcross.
Qed.

(** X24 at work on the same three rows. *)
Lemma historical_data_main1_shows_the_oldest_rows_witness :
  List.length (History.selected_main1 (History.order_by History.asc)
                 MoreExamples.table3) = 3%nat.
Proof.
  exact (proj1 (historical_data_main1_shows_the_oldest_rows
                  (History.order_by History.asc) MoreExamples.table3
                  order_by_asc_is_order_by)).
Defined.

(** X25: up to 100 rows with distinct timestamps, all programs chart the
    same rows in the same order: descending, cut and reversed is then the
    same as ascending and cut. *)
Theorem charts_agree_on_small_tables
        (order_by_desc order_by_asc
           : list History.reading_row -> list History.reading_row)
        (table : list History.reading_row) :
  History.is_order_by History.newest_first order_by_desc ->
  History.is_order_by History.oldest_first order_by_asc ->
  (List.length table <= 100)%nat ->
  NoDup (map History.row_timestamp table) ->
  History.selected order_by_desc table
  = History.selected_main1 order_by_asc table.
Proof.
  intros Hd Ha Hlen Hnodup.
  destruct (Hd table) as [Pd Sd]. destruct (Ha table) as [Pa Sa].
  unfold History.selected, History.selected_main1.
  rewrite !firstn_all2
    by (rewrite <- ?(Permutation_length Pd), <- ?(Permutation_length Pa);
        exact Hlen).
  apply sorted_rows_unique.
  - exact (strongly_sorted_rev History.newest_first _ Sd).
  - exact Sa.
  - rewrite <- Permutation_rev, <- Pd. exact Pa.
  - apply (Permutation_NoDup (l := map History.row_timestamp table));
      [|exact Hnodup].
    apply Permutation_map. rewrite <- Permutation_rev. exact Pd.
Qed.

(** X25 at work on the same three rows. *)
Lemma charts_agree_on_small_tables_witness :
  History.selected (History.order_by History.desc) MoreExamples.table3
  = History.selected_main1 (History.order_by History.asc) MoreExamples.table3.
Proof.
  apply (charts_agree_on_small_tables (History.order_by History.desc)
           (History.order_by History.asc) MoreExamples.table3
           order_by_desc_is_order_by order_by_asc_is_order_by).
  - cbn. lia.
  - cbn. repeat constructor; cbn; intuition discriminate.
Defined.

(* ===================================================================== *)
(** * ManualEntry in main1.py                                             *)
(* ===================================================================== *)

Section Main1Facts.
Variable py_float : string -> option Q.
Variable float_repr : Q -> string.

Local Opaque Main1.detect_anomaly Main1.predict_spoilage.

(** X26: add_data of main1.py answers what it stored. While the rollback
    works it always answers and leaves no row pending: a success answer
    carries the reading, the risk bucket and the verdict of that very
    reading, which is stored together with one alert row exactly when the
    verdict is an anomaly; an error answer has stored nothing. The
    rollback of the handler is not guarded: the route raises only when the
    rollback raises, and then also nothing is stored. *)
Theorem main1_add_data_answers_what_it_stored
        (rollback_outcome commit_outcome : result unit)
        (form : list (string * string)) (w : world) :
  let out := Main1.add_data py_float float_repr rollback_outcome
                            commit_outcome form w in
  (rollback_outcome = Ok tt ->
   exists resp,
     fst out = Ok resp /\ pending (snd out) = []
     /\ ((Main1.status_code resp = 200%Z
          /\ exists t h,
               Main1.reading resp = Some (t, h)
               /\ Main1.spoilage_risk resp
                  = Some (Main1.predict_spoilage t h)
               /\ Main1.is_anomaly resp
                  = Some (fst (Main1.detect_anomaly float_repr t h))
               /\ committed (snd out)
                  = (committed w ++ pending w
                       ++ RowReading {| temperature := t; humidity := h |}
                       :: (if fst (Main1.detect_anomaly float_repr t h)
                           then [RowAlert
                                   {| message :=
                                        snd (Main1.detect_anomaly
                                               float_repr t h) |}]
                           else []))%list)
         \/ (Main1.status_code resp = 400%Z
             /\ Main1.reading resp = None
             /\ committed (snd out) = committed w)))
  /\ (forall ex, fst out = Raise ex ->
        rollback_outcome = Raise ex /\ committed (snd out) = committed w).
Proof.
  destruct w as [s c p o sl tk n]. cbv zeta.
  unfold Main1.add_data, Main1.send_alert, try_catch, bindM, lift,
    Manual.to_float, session_add, session_commit, session_rollback, print,
    ret.
  repeat (cbv beta iota zeta
            delta [sensor committed pending console slept
                   last_background_tick discoveries fst snd];
          match goal with
          | |- context [match ?x with _ => _ end] =>
              lazymatch x with
              | context [match _ with _ => _ end] => fail
              | _ => destruct x eqn:?
              end
          end);
    cbv beta iota zeta
      delta [sensor committed pending console slept
             last_background_tick discoveries fst snd];
    (split;
     [ intro Hrb; try discriminate Hrb;
       eexists; (split; [reflexivity|]); (split; [reflexivity|]);
       first
         [ right; conjuncts; reflexivity
         | left; split; [reflexivity|];
           match goal with
           | H : Main1.detect_anomaly _ ?t ?h = _ |- _ =>
               exists t, h; rewrite H
           end;
           cbn [fst snd Main1.reading Main1.spoilage_risk Main1.is_anomaly];
           rewrite <- ?app_assoc; conjuncts; reflexivity ]
     | intros ex Hex; try discriminate Hex; inversion Hex; subst;
       split; reflexivity ]).
Qed.

End Main1Facts.

(* ===================================================================== *)
(** * SensorSource: the part of each device                               *)
(* ===================================================================== *)

(** The loop sees the hardware only through the outcome of each
    attempt. *)
Lemma read_loop_ext (f : source_file) (prefer_ds18b20 : bool) (delay_s : Q)
      (hw hw' : nat -> Sensor.attempt) (n i : nat) :
  (forall j, Sensor.succeeds f prefer_ds18b20 (hw j)
             = Sensor.succeeds f prefer_ds18b20 (hw' j)) ->
  Sensor.read_loop f prefer_ds18b20 delay_s hw n i
  = Sensor.read_loop f prefer_ds18b20 delay_s hw' n i.
Proof.
  intro Hsame. revert i. induction n as [|n IH]; intro i; [reflexivity|].
  cbn [Sensor.read_loop].
  change (try_except (Sensor.attempt_body f prefer_ds18b20 (hw i))
                     (fun _ => None))
    with (Sensor.succeeds f prefer_ds18b20 (hw i)).
  change (try_except (Sensor.attempt_body f prefer_ds18b20 (hw' i))
                     (fun _ => None))
    with (Sensor.succeeds f prefer_ds18b20 (hw' i)).
  rewrite (Hsame i), (IH (S i)). reflexivity.
Qed.

(** X27: the 1-Wire bus has a say only in main5.py and only when the
    DS18B20 is preferred: otherwise two runs in which the DHT22 answers
    the same way return the same pair after the same attempts and sleeps,
    whatever is on the bus. *)
Theorem bus_matters_only_when_preferred_in_main5
        (f : source_file) (prefer_ds18b20 : bool) (retries : Z)
        (delay_s : Q) (hw hw' : nat -> Sensor.attempt) :
  (forall j, Sensor.dht_humidity (hw j) = Sensor.dht_humidity (hw' j)
             /\ Sensor.dht_temperature (hw j)
                = Sensor.dht_temperature (hw' j)) ->
  prefer_ds18b20 = false \/ f = Delta \/ f = Main6 ->
  Sensor.read f prefer_ds18b20 retries delay_s hw
  = Sensor.read f prefer_ds18b20 retries delay_s hw'.
Proof.
  intros Hdht Hcase. unfold Sensor.read.
  rewrite (read_loop_ext f prefer_ds18b20 delay_s hw hw'); [reflexivity|].
  intro j. destruct (Hdht j) as [Hh Ht].
  unfold Sensor.succeeds, Sensor.attempt_body. rewrite Hh, Ht.
  destruct Hcase as [-> | [-> | ->]]; [reflexivity| |reflexivity].
  rewrite !delta_ds18b20_always_none. reflexivity.
Qed.

(** X27 at work: main5.py without the preference, with and without a
    DS18B20 on the bus. *)
Lemma bus_matters_only_when_preferred_in_main5_witness :
  Sensor.read Main5 false 3 2 (fun _ => Examples.attempt_good)
  = Sensor.read Main5 false 3 2
      (fun _ => {| Sensor.dht_humidity := Ok (Some 91.26%Q);
                   Sensor.dht_temperature := Ok (Some 5.04%Q);
                   Sensor.bus :=
                     {| Sensor.w1_isdir := false;
                        Sensor.w1_entries := [];
                        Sensor.w1_slave := fun _ => None |} |}).
Proof.
  apply (bus_matters_only_when_preferred_in_main5 Main5 false 3 2).
  - intro j. split; reflexivity.
  - left. reflexivity.
Defined.

(** X28: no reading without the DHT22. When [read] returns a pair, some
    attempt within the budget had the DHT22 answer both queries without
    raising and with a humidity; the humidity returned is that humidity
    rounded, and the temperature returned is the rounded DHT22
    temperature, or, with the preference set, the rounded DS18B20
    temperature. A DS18B20 thus stands in for a DHT22 temperature that is
    null, never for one whose query raises. *)
Theorem read_needs_the_dht22
        (f : source_file) (prefer_ds18b20 : bool) (retries : Z)
        (delay_s : Q) (hw : nat -> Sensor.attempt) (t' h' : Q) :
  fst (Sensor.read f prefer_ds18b20 retries delay_s hw) = Ok (t', h') ->
  exists k h td,
    (k < Z.to_nat (Z.max 1 retries))%nat
    /\ Sensor.dht_humidity (hw k) = Ok (Some h)
    /\ h' = Py.round1 h
    /\ Sensor.dht_temperature (hw k) = Ok td
    /\ ((exists t, td = Some t /\ t' = Py.round1 t
                   /\ (prefer_ds18b20 = false
                       \/ Sensor._read_ds18b20_temp f (Sensor.bus (hw k))
                          = None))
        \/ (prefer_ds18b20 = true
            /\ exists t_ds,
                 Sensor._read_ds18b20_temp f (Sensor.bus (hw k)) = Some t_ds
                 /\ t' = Py.round1 t_ds)).
Proof.
  intro Hout.
  destruct (read_cases f prefer_ds18b20 retries delay_s hw)
    as [(k & t & h & Hk & _ & Hok & Hread) | (_ & Hread)];
    rewrite Hread in Hout; cbn [fst] in Hout; [|discriminate Hout].
  inversion Hout; subst t' h'; clear Hout.
  revert Hok. unfold Sensor.succeeds, Sensor.attempt_body, try_except, bind.
  destruct (Sensor.dht_humidity (hw k)) as [[hd|]|ex] eqn:Hh; cbn beta iota;
    destruct (Sensor.dht_temperature (hw k)) as [td|ex'] eqn:Ht;
    cbn beta iota; try discriminate;
    destruct prefer_ds18b20;
    try destruct (Sensor._read_ds18b20_temp f (Sensor.bus (hw k)))
      as [t_ds|] eqn:Hds;
    try destruct td as [tdht|]; cbn beta iota;
    intro Hok; try discriminate Hok; inversion Hok; subst;
    exists k, h; eexists; (split; [exact Hk|]);
    (split; [exact Hh|]); (split; [reflexivity|]);
    (split; [exact Ht|]);
    first [ right; split; [reflexivity|]; eexists; split;
            [exact Hds | reflexivity]
          | left; eexists; split; [reflexivity|]; split; [reflexivity|];
            first [left; reflexivity | right; exact Hds] ].
Qed.

(** X28 at work: main5.py with the preference and both devices. *)
Lemma read_needs_the_dht22_witness :
  exists k h td,
    (k < 3)%nat
    /\ Sensor.dht_humidity Examples.attempt_good = Ok (Some h)
    /\ (91.3 = Py.round1 h)%Q
    /\ Sensor.dht_temperature Examples.attempt_good = Ok td.
Proof.
  destruct (read_needs_the_dht22 Main5 true 3 2
              (fun _ => Examples.attempt_good) 23.1%Q 91.3%Q eq_refl)
    as (k & h & td & H1 & H2 & H3 & H4 & _).
  exists k, h, td. conjuncts; assumption.
Defined.

(* ===================================================================== *)
(** * What /health tells about the loop                                   *)
(* ===================================================================== *)

Section HealthFacts.
Variable float_repr : Q -> string.
Variable cfg : Scheduler.config.

Local Opaque Notifier.send_email_alert Analyzer.detect_anomaly Py.fixed1.

Lemma try_candidates_tick (e : Scheduler.env) (cands : list (string * pin))
      (w : world) :
  last_background_tick (snd (Scheduler.try_candidates e cands w))
  = last_background_tick w.
Proof.
  revert w. induction cands as [|[name p] cands IH]; intro w; [reflexivity|].
  cbn [Scheduler.try_candidates].
  unfold bindM, try_catch, print, lift, time_sleep, set_sensor, ret.
  destruct (Scheduler.dht_create e p) as [[]|ex1];
    [destruct (Scheduler.dht_probe e p) as [[]|ex2]|]; cbn;
    try reflexivity; rewrite IH; reflexivity.
Qed.

Lemma try_init_sensor_tick (e : Scheduler.env) (w : world) :
  last_background_tick (snd (Scheduler._try_init_sensor cfg e w))
  = last_background_tick w.
Proof.
  unfold Scheduler._try_init_sensor, bindM, count_discovery, print, ret.
  destruct (negb (Scheduler.SENSOR_AVAILABLE cfg)); [reflexivity|].
  match goal with
  | |- context [Scheduler.try_candidates e ?c ?w0] =>
      pose proof (try_candidates_tick e c w0) as Htick;
      destruct (try_candidates_frame e c w0) as (b & w1 & Heq & _)
  end.
  rewrite Heq in *. cbn [snd] in Htick. destruct b; cbn; exact Htick.
Qed.

Lemma read_and_store_tick (e : Scheduler.env) (d : pin) (w : world) :
  last_background_tick (snd (Scheduler.read_and_store float_repr cfg e d w))
  = last_background_tick w.
Proof.
  unfold Scheduler.read_and_store, bindM, lift, raise.
  destruct (Scheduler.read_humidity e d) as [[h|]|ex]; cbn beta iota;
    try reflexivity;
    destruct (Scheduler.read_temperature e d) as [[t|]|ex']; cbn beta iota;
    try reflexivity.
  destruct (Weather.get_weather_forecast Main6 (Scheduler.api_key cfg)
              (Scheduler.reply e)) as [snap|ex]; cbn beta iota;
    [|reflexivity].
  destruct (Analyzer.detect_anomaly float_repr Main6 t h
              (Weather.external_temp snap)) as [anomalous reason].
  unfold session_add at 1. cbn beta iota.
  destruct anomalous.
  - unfold session_add at 1. cbn beta iota.
    match goal with
    | |- context [Notifier.send_email_alert ?a ?b ?c ?x ?m ?w0] =>
        pose proof (send_email_alert_only_prints a b c x m w0) as Hp;
        destruct (Notifier.send_email_alert a b c x m w0) as [r w2]
    end.
    cbn [fst snd] in Hp.
    destruct Hp as (_ & _ & _ & _ & P5 & _). cbn in P5.
    destruct r as [[]|ex]; [|exact P5].
    unfold session_commit, print.
    destruct (Scheduler.commit_outcome e) as [[]|ex]; cbn; exact P5.
  - unfold session_commit, print, ret.
    destruct (Scheduler.commit_outcome e) as [[]|ex]; reflexivity.
Qed.

(** Every cycle ends with the tick of its own start. *)
Lemma cycle_tick (e : Scheduler.env) (w : world) :
  last_background_tick (snd (Scheduler.cycle float_repr cfg e w))
  = Some (Scheduler.utcnow e).
Proof.
  rewrite cycle_unfolded. cbv zeta.
  set (w0 := snd (set_tick (Scheduler.utcnow e) w)).
  assert (H0 : last_background_tick w0 = Some (Scheduler.utcnow e))
    by reflexivity.
  cbn [snd time_sleep last_background_tick].
  assert (Hbody : last_background_tick
                    (snd (Scheduler.cycle_body float_repr cfg e w0))
                  = Some (Scheduler.utcnow e)).
  { destruct (sensor w0) as [d|] eqn:Hs.
    - rewrite (cycle_body_with_device float_repr cfg e w0 d Hs).
      rewrite read_and_store_tick. exact H0.
    - rewrite (cycle_body_without_device float_repr cfg e w0 Hs).
      pose proof (try_init_sensor_tick e w0) as Hi.
      destruct (try_init_sensor_frame cfg e w0) as (wi & Heq & _).
      rewrite Heq in *. cbn [snd] in *.
      destruct (sensor wi) as [d|].
      + rewrite read_and_store_tick, Hi. exact H0.
      + cbn. rewrite Hi. exact H0. }
  destruct (Scheduler.cycle_body float_repr cfg e w0) as [[[]|ex] w1];
    cbn [snd] in Hbody; [exact Hbody|].
  unfold Scheduler.cycle_handler, bindM, print, try_catch, session_rollback,
    ret.
  destruct (Scheduler.rollback_outcome e) as [[]|ex']; cbn; exact Hbody.
Qed.

(** X29: what /health tells. After at least one cycle the tick it
    reports is the start of the latest cycle, whether that cycle found a
    device, read it, or failed in any way: the tick shows that the loop
    turns, not that readings arrive. And once it has reported an
    initialized sensor it does so after every later cycle. *)
Theorem health_reports_the_latest_cycle
        (isoformat : Z -> string) (envs : nat -> Scheduler.env)
        (n i : nat) (w : world) :
  let w' :=
    snd (Scheduler._background_reader float_repr cfg envs (S n) i w) in
  Health.last_tick (Health.health isoformat w')
  = Some (isoformat (Scheduler.utcnow (envs (i + n)%nat)))
  /\ (Health.sensor_initialized (Health.health isoformat w) = true ->
      Health.sensor_initialized (Health.health isoformat w') = true).
Proof.
  cbv zeta. split.
  - revert i w. induction n as [|n IH]; intros i w.
    + cbn [Scheduler._background_reader]. unfold bindM.
      pose proof (cycle_tick (envs i) w) as Ht.
      pose proof (cycle_always_sleeps float_repr cfg (envs i) w) as [Hok _].
      destruct (Scheduler.cycle float_repr cfg (envs i) w) as [r w1].
      cbn [fst snd] in *. subst r. unfold ret. cbn [snd].
      unfold Health.health. cbn [Health.last_tick]. rewrite Ht.
      rewrite Nat.add_0_r. reflexivity.
    + change (Scheduler._background_reader float_repr cfg envs (S (S n)) i w)
        with (bindM (Scheduler.cycle float_repr cfg (envs i))
                (fun _ => Scheduler._background_reader float_repr cfg envs
                            (S n) (S i)) w).
      unfold bindM at 1.
      pose proof (cycle_always_sleeps float_repr cfg (envs i) w) as [Hok _].
      destruct (Scheduler.cycle float_repr cfg (envs i) w) as [r w1].
      cbn [fst] in Hok. subst r. rewrite (IH (S i) w1).
      replace (S i + n)%nat with (i + S n)%nat by lia. reflexivity.
  - unfold Health.health. cbn [Health.sensor_initialized].
    destruct (sensor w) as [d|] eqn:Hs; [intros _|discriminate].
    destruct (background_reader_runs float_repr cfg envs (S n) i w)
      as (_ & _ & Hkeep).
    destruct (Hkeep d Hs) as [Hsame _]. rewrite Hsame. reflexivity.
Qed.

End HealthFacts.
